(** * Task routes of the REST backend: a shallow embedding

    The development follows [routes/tasks.js] (the six task handlers),
    [middleware/validation.js] (the express-validator chains that run
    before the handlers) and [models/Task.js] (the Mongoose schema with
    its validators and timestamps), then the origin check of
    [server.js] and the list of the tasks page of the frontend.

    Collections are finite maps keyed by [_id]; a handler is a function
    from the request and the database to a response and the database
    after the request.  An exception thrown inside a handler's [try]
    block is the [None] of an option; the [catch] turns it into the
    handler's 500 response. *)

From Stdlib Require Import ZArith Ascii String List Lia Bool.
From stdpp Require Import base option list strings gmap sorting.

Local Open Scope Z_scope.

(** ** Strings, numbers and identifiers as the libraries see them *)

Module Js.

(** A string of the model is a JavaScript string whose code units are
    all below 256: the character [n] stands for the code unit [n], so
    that [String.length] is JavaScript's [length], on which [isLength]
    and [maxlength] count alike. *)

(** White space and line terminators, the characters that the class
    [\s] matches and that [trim()] removes: among the code units below
    256 these are tab, line feed, vertical tab, form feed, carriage
    return, space and the no-break space U+00A0. *)
Definition isSpace (c : ascii) : bool :=
  let n := nat_of_ascii c in
  ((9 <=? n) && (n <=? 13))%nat || (n =? 32)%nat || (n =? 160)%nat.

Fixpoint dropSpaces (l : list ascii) : list ascii :=
  match l with
  | c :: l' => if isSpace c then dropSpaces l' else l
  | [] => []
  end.

Definition trimChars (l : list ascii) : list ascii :=
  rev (dropSpaces (rev (dropSpaces l))).

Definition trim (s : string) : string :=
  string_of_list_ascii (trimChars (list_ascii_of_string s)).

(** A number of JavaScript is a double.  The routes compute with
    integers only, and an integer that is a double is kept as a [Z];
    [roundDouble n] is the double nearest to the integer [n], ties
    going to the even significand: the value of a literal, or of a sum
    or product, whose exact value is [n].  Doubles are the integers
    themselves up to [2^53].  (From [2^1024] on a double is
    [Infinity], which the model does not have: it keeps rounding.) *)
Definition roundDouble (n : Z) : Z :=
  let a := Z.abs n in
  if a <? 2 ^ 53 then n
  else
    let e := Z.log2 a - 52 in
    let q := Z.shiftr a e in
    let r := a - Z.shiftl q e in
    let half := Z.shiftl 1 (e - 1) in
    let q' := if (r <? half) || ((r =? half) && Z.even q) then q else q + 1 in
    Z.sgn n * Z.shiftl q' e.

(** [a - b] and [a * b]. *)
Definition sub (a b : Z) : Z := roundDouble (a - b).
Definition mul (a b : Z) : Z := roundDouble (a * b).

Definition isDigit (c : ascii) : bool :=
  let n := nat_of_ascii c in ((48 <=? n) && (n <=? 57))%nat.

Definition digitVal (c : ascii) : Z := Z.of_nat (nat_of_ascii c) - 48.

(** The numeric value of the longest prefix of decimal digits;
    [None] when the string does not start with a digit. *)
Fixpoint digitsPrefix (acc : option Z) (l : list ascii) : option Z :=
  match l with
  | c :: l' =>
      if isDigit c
      then digitsPrefix (Some (10 * default 0 acc + digitVal c)) l'
      else acc
  | [] => acc
  end.

Definition isSign (c : ascii) : bool :=
  (nat_of_ascii c =? 43)%nat || (nat_of_ascii c =? 45)%nat.

Definition signOf (c : ascii) : Z :=
  if (nat_of_ascii c =? 45)%nat then -1 else 1.

(** The integer that the text denotes: an optional sign, then the
    longest run of decimal digits; [None] when there is no digit. *)
Definition mathInt (s : string) : option Z :=
  match list_ascii_of_string s with
  | c :: l =>
      if isSign c then Z.mul (signOf c) <$> digitsPrefix None l
      else digitsPrefix None (c :: l)
  | [] => None
  end.

(** [parseInt(s)] on the strings the routes pass to it, which have
    passed [isInt]: the double nearest to the integer that the text
    denotes; [None] is [NaN].  (Leading white space and the [0x]
    prefix, which [isInt] refuses, are not modelled.) *)
Definition parseInt (s : string) : option Z := roundDouble <$> mathInt s.

(** [x || d] for a number [x]: [NaN] and [0] are falsy. *)
Definition numOr (x : option Z) (d : Z) : Z :=
  match x with
  | Some n => if (n =? 0)%Z then d else n
  | None => d
  end.

(** Truthiness of a possibly absent string: [undefined] and the empty
    string are falsy. *)
Definition truthy (x : option string) : bool :=
  match x with
  | Some s => negb (String.eqb s "")
  | None => false
  end.

(** The value of a string when it is truthy. *)
Definition whenTruthy (x : option string) : option string :=
  if truthy x then x else None.

(** [x || d] for a string. *)
Definition strOr (x : option string) (d : string) : string :=
  match x with
  | Some s => if String.eqb s "" then d else s
  | None => d
  end.

End Js.

(** An ObjectId is kept as its [toString()] form, 24 lower-case
    hexadecimal characters. *)
Abbreviation ObjectId := string (only parsing).

Module Validator.

Definition isHexChar (c : ascii) : bool :=
  let n := nat_of_ascii c in
  (((48 <=? n) && (n <=? 57)) || ((97 <=? n) && (n <=? 102))
   || ((65 <=? n) && (n <=? 70)))%nat.

(** [isHexadecimal]: the pattern [/^(0x|0h)?[0-9A-F]+$/i], hexadecimal
    digits after an optional prefix [0x] or [0h] in either letter
    case. *)
Definition isHexDigits (l : list ascii) : bool :=
  negb (Nat.eqb (List.length l) 0) && forallb isHexChar l.

Definition isHexPrefix (c : ascii) : bool :=
  let n := nat_of_ascii c in
  ((n =? 120) || (n =? 88) || (n =? 104) || (n =? 72))%nat.

Definition isHexadecimal (s : string) : bool :=
  let l := list_ascii_of_string s in
  isHexDigits l
  || match l with
     | z :: c :: l' =>
         (nat_of_ascii z =? 48)%nat && isHexPrefix c && isHexDigits l'
     | _ => false
     end.

(** [isMongoId]: [isHexadecimal(s) && s.length === 24].  The 24
    characters may thus be a prefix and 22 digits, which is no
    ObjectId. *)
Definition isMongoId (s : string) : bool :=
  isHexadecimal s && (String.length s =? 24)%nat.

(** The strings of 24 hexadecimal digits. *)
Definition isObjectIdText (s : string) : bool :=
  (String.length s =? 24)%nat && forallb isHexChar (list_ascii_of_string s).

(** The pattern of [isInt]: an optional sign and at least one digit
    (leading zeroes are allowed by default). *)
Definition intPattern (s : string) : bool :=
  match list_ascii_of_string s with
  | c :: l =>
      if Js.isSign c
      then negb (Nat.eqb (List.length l) 0) && forallb Js.isDigit l
      else forallb Js.isDigit (c :: l)
  | [] => false
  end.

(** [isInt(s, { min, max })]; the bounds compare the number that the
    string converts to, which for a string of the pattern is the value
    of [parseInt]. *)
Definition isInt (min : Z) (max : option Z) (s : string) : bool :=
  intPattern s &&
  match Js.parseInt s with
  | Some n => (min <=? n) && match max with Some m => n <=? m | None => true end
  | None => false
  end.

(** [isLength({ min, max })]. *)
Definition isLength (min max : nat) (s : string) : bool :=
  ((min <=? String.length s) && (String.length s <=? max))%nat.

(** [isIn(values)]. *)
Definition isIn (values : list string) (s : string) : bool :=
  existsb (String.eqb s) values.

End Validator.

Module Mongoose.

Definition toLowerHex (c : ascii) : ascii :=
  let n := nat_of_ascii c in
  if ((65 <=? n) && (n <=? 70))%nat then ascii_of_nat (n + 32) else c.

Fixpoint lowerHex (s : string) : string :=
  match s with
  | String c s' => String (toLowerHex c) (lowerHex s')
  | EmptyString => EmptyString
  end.

(** Casting a string to the schema type ObjectId: 24 hexadecimal
    digits give the id, whose string form is in lower case; any other
    string of 24 characters, and any string that [isMongoId] refuses,
    raises a CastError ([None]).  (Some versions of the driver read a
    string of 12 characters as the 12 bytes of an id; such a string
    reaches a cast only as the [assignedTo] parameter of [GET /], and
    the model has it refused.) *)
Definition castObjectId (s : string) : option ObjectId :=
  if Validator.isObjectIdText s then Some (lowerHex s) else None.

End Mongoose.

(** ** Data model *)

(** A document of the users collection (its key is the [_id]). *)
Record User := mkUser {
  username : string;
  email : string;
  userRole : string;
  isActive : bool
}.

(** A document of the tasks collection, after [models/Task.js];
    [timestamps: true] adds [createdAt] and [updatedAt].  Dates are
    milliseconds since the epoch. *)
Record Task := mkTask {
  title : string;
  description : string;
  status : string;
  priority : string;
  dueDate : option Z;
  assignedTo : ObjectId;
  createdBy : ObjectId;
  createdAt : Z;
  updatedAt : Z
}.

Record DB := mkDB {
  users : gmap ObjectId User;
  tasks : gmap ObjectId Task
}.

(** [req.user], as attached by the [authenticate] middleware: the task
    routes read its [_id] and its [role]. *)
Record ReqUser := mkReqUser {
  _id : ObjectId;
  role : string
}.

(** [req.query] of the list route. *)
Record Query := mkQuery {
  q_page : option string;
  q_limit : option string;
  q_status : option string;
  q_priority : option string;
  q_assignedTo : option string
}.

(** A JSON value, for the members of a request body that the routes
    do not name (a number is kept as its literal). *)
Local Unset Elimination Schemes.
Inductive Json :=
| JNull
| JBool (b : bool)
| JNumber (literal : string)
| JString (s : string)
| JArray (items : list Json)
| JObject (members : list (string * Json)).
Local Set Elimination Schemes.

(** [req.body], a JSON object.  Its members [title], [description],
    [status], [priority], [dueDate], [assignedTo] and [createdBy] are
    each absent or a string (a body in which one of them is a number,
    an array or an object is no value of this type); [D] is the type
    of [dueDate]: a string as received, a date or [null] once the
    validation chain has run [toDate()].  [b_others] holds every other
    member: [_id], [__v], [createdAt], [updatedAt], update operators
    such as [$set] and [$inc], keys the schema does not know.  No
    validator and no handler reads them; [POST /] leaves them behind
    and [PUT /:id] passes them to [findByIdAndUpdate] with the
    rest. *)
Record Body (D : Type) := mkBody {
  b_title : option string;
  b_description : option string;
  b_status : option string;
  b_priority : option string;
  b_dueDate : option D;
  b_assignedTo : option string;
  b_createdBy : option string;
  b_others : list (string * Json)
}.
Arguments mkBody {D}.
Arguments b_title {D}.
Arguments b_description {D}.
Arguments b_status {D}.
Arguments b_priority {D}.
Arguments b_dueDate {D}.
Arguments b_assignedTo {D}.
Arguments b_createdBy {D}.
Arguments b_others {D}.

(** One entry of [errors.array()]. *)
Record FieldError := mkFieldError {
  param : string;
  msg : string
}.

(** The JSON envelope: [Ok] has [success: true], the other two
    [success: false]; [Invalid] is the 400 of [handleValidationErrors],
    which lists every violated field.  The [error] member of a 500,
    sent only in development, is left out. *)
Inductive Response (A : Type) : Type :=
| Ok (code : nat) (message : option string) (data : A)
| Fail (code : nat) (message : string)
| Invalid (errors : list FieldError).
Arguments Ok {A}.
Arguments Fail {A}.
Arguments Invalid {A}.

Definition statusCode {A} (r : Response A) : nat :=
  match r with
  | Ok c _ _ => c
  | Fail c _ => c
  | Invalid _ => 400%nat
  end.

(** A populated reference: [populate(path, 'username email')] keeps the
    [_id] and the two selected fields. *)
Record UserRef := mkUserRef {
  ref_id : ObjectId;
  ref_username : string;
  ref_email : string
}.

(** A task with [assignedTo] and [createdBy] populated; a reference to
    a user that no longer exists is populated with [null]. *)
Record PopulatedTask := mkPopulatedTask {
  p_id : ObjectId;
  p_title : string;
  p_description : string;
  p_status : string;
  p_priority : string;
  p_dueDate : option Z;
  p_assignedTo : option UserRef;
  p_createdBy : option UserRef;
  p_createdAt : Z;
  p_updatedAt : Z
}.

Record Pagination := mkPagination {
  current : Z;
  pages : Z;
  total : Z;
  limit : Z
}.

Record TaskPage := mkTaskPage {
  page_tasks : list PopulatedTask;
  pagination : Pagination
}.

Record Stats := mkStats {
  st_total : Z;
  st_pending : Z;
  st_inProgress : Z;
  st_completed : Z;
  st_highPriority : Z;
  st_mediumPriority : Z;
  st_lowPriority : Z
}.

(** ** [middleware/validation.js] *)

Module Validation.

(** A chain without [.optional()]: an absent field is checked as the
    empty string.  A chain with [.optional()]: an absent field is
    skipped. *)
Definition check (optional : bool) (valid : string -> bool)
    (field message : string) (value : option string) : list FieldError :=
  match value with
  | None =>
      if optional || valid "" then [] else [mkFieldError field message]
  | Some s => if valid s then [] else [mkFieldError field message]
  end.

Definition validateObjectId (id : string) : list FieldError :=
  check false Validator.isMongoId "id" "Invalid ID format" (Some id).

Definition validatePagination (q : Query) : list FieldError :=
  check true (Validator.isInt 1 None) "page"
    "Page must be a positive integer" (q_page q)
  ++ check true (Validator.isInt 1 (Some 100)) "limit"
    "Limit must be between 1 and 100" (q_limit q).

Definition statuses : list string :=
  ["pending"; "in-progress"; "completed"]%string.
Definition priorities : list string := ["low"; "medium"; "high"]%string.

Section Dates.

(** The two date functions of the [dueDate] chain, [isISO8601()] and
    [toDate()] ([None] is the [null] that [toDate] gives for a
    string that is no date). *)
Variable isISO8601 : string -> bool.
Variable toDate : string -> option Z.

(** The four optional chains that creation and update share. *)
Definition checkOptionalFields (b : Body string) : list FieldError :=
  check true (Validator.isIn statuses) "status"
    "Status must be pending, in-progress, or completed" (b_status b)
  ++ check true (Validator.isIn priorities) "priority"
    "Priority must be low, medium, or high" (b_priority b)
  ++ check true isISO8601 "dueDate"
    "Due date must be a valid date" (b_dueDate b)
  ++ check true Validator.isMongoId "assignedTo"
    "Assigned to must be a valid user ID" (b_assignedTo b).

(** The body after the sanitizers: [trim()] on [title] and
    [description], [toDate()] on [dueDate].  [required] tells
    whether the two text chains run on an absent field. *)
Definition sanitize (required : bool) (b : Body string)
    : Body (option Z) :=
  let text (v : option string) :=
    match v with
    | Some s => Some (Js.trim s)
    | None => if required then Some (Js.trim "") else None
    end in
  {| b_title := text (b_title b);
     b_description := text (b_description b);
     b_status := b_status b;
     b_priority := b_priority b;
     b_dueDate := toDate <$> b_dueDate b;
     b_assignedTo := b_assignedTo b;
     b_createdBy := b_createdBy b;
     b_others := b_others b |}.

Definition validateTaskCreation (b : Body string)
    : list FieldError * Body (option Z) :=
  (check false (fun s => Validator.isLength 1 100 (Js.trim s)) "title"
     "Title must be between 1 and 100 characters" (b_title b)
   ++ check false (fun s => Validator.isLength 1 500 (Js.trim s))
     "description"
     "Description must be between 1 and 500 characters" (b_description b)
   ++ checkOptionalFields b,
   sanitize true b).

Definition validateTaskUpdate (b : Body string)
    : list FieldError * Body (option Z) :=
  (check true (fun s => Validator.isLength 1 100 (Js.trim s)) "title"
     "Title must be between 1 and 100 characters" (b_title b)
   ++ check true (fun s => Validator.isLength 1 500 (Js.trim s))
     "description"
     "Description must be between 1 and 500 characters" (b_description b)
   ++ checkOptionalFields b,
   sanitize false b).

End Dates.

End Validation.

(** ** [models/Task.js] and the Mongoose operations the routes call *)

Module Model.

(** The [dueDate] validator: [!value || value > new Date()]. *)
Definition dueDateValidator (now : Z) (value : option Z) : bool :=
  match value with
  | Some v => now <? v
  | None => true
  end.

(** A string path with [required], [trim] and [maxlength]: the value
    stored, or [None] for a validation error. *)
Definition textPath (maxlength : nat) (value : option string)
    : option string :=
  match value with
  | Some s =>
      let s' := Js.trim s in
      if negb (String.eqb s' "") && (String.length s' <=? maxlength)%nat
      then Some s' else None
  | None => None
  end.

(** A string path with [enum]. *)
Definition enumPath (values : list string) (value : string) : option string :=
  if Validator.isIn values value then Some value else None.

Definition datePath (now : Z) (value : option Z) : option (option Z) :=
  if dueDateValidator now value then Some value else None.

(** A value given for an ObjectId path: an ObjectId (such as
    [req.user._id]) or a string still to be cast. *)
Inductive RefValue :=
| RefId (i : ObjectId)
| RefString (s : string).

Definition refPath (value : RefValue) : option ObjectId :=
  match value with
  | RefId i => Some i
  | RefString s => Mongoose.castObjectId s
  end.

(** The argument of [new Task({ ... })]. *)
Record TaskInit := mkTaskInit {
  i_title : option string;
  i_description : option string;
  i_status : string;
  i_priority : string;
  i_dueDate : option Z;
  i_assignedTo : RefValue;
  i_createdBy : RefValue
}.

(** Casting and validation of a new document at [save()]; [None] is
    the ValidationError. *)
Definition validate (now : Z) (d : TaskInit) : option Task :=
  t ← textPath 100 (i_title d);
  de ← textPath 500 (i_description d);
  s ← enumPath Validation.statuses (i_status d);
  p ← enumPath Validation.priorities (i_priority d);
  due ← datePath now (i_dueDate d);
  a ← refPath (i_assignedTo d);
  c ← refPath (i_createdBy d);
  Some (mkTask t de s p due a c now now).

(** [task.save()] for a new document whose generated [_id] is
    [newId]: the collection after the insert and the stored
    document, or [None] when validation fails or the key is taken. *)
Definition save (now : Z) (newId : ObjectId) (d : TaskInit)
    (ts : gmap ObjectId Task) : option (gmap ObjectId Task * Task) :=
  t ← validate now d;
  match ts !! newId with
  | Some _ => None
  | None => Some (<[newId := t]> ts, t)
  end.

(** The update document [req.body] applied to a stored task, with
    [runValidators: true], when the body has no member besides the
    seven: a path that is present is cast, validated and set;
    [updatedAt] is set to the time of the update.  [None] is a
    CastError or ValidationError. *)
Definition applyUpdate (now : Z) (b : Body (option Z)) (t : Task)
    : option Task :=
  ti ← match b_title b with
       | Some s => textPath 100 (Some s) | None => Some (title t) end;
  de ← match b_description b with
       | Some s => textPath 500 (Some s) | None => Some (description t) end;
  s ← match b_status b with
      | Some s => enumPath Validation.statuses s | None => Some (status t) end;
  p ← match b_priority b with
      | Some s => enumPath Validation.priorities s
      | None => Some (priority t) end;
  due ← match b_dueDate b with
        | Some d => datePath now d | None => Some (dueDate t) end;
  a ← match b_assignedTo b with
      | Some s => refPath (RefString s) | None => Some (assignedTo t) end;
  c ← match b_createdBy b with
      | Some s => refPath (RefString s) | None => Some (createdBy t) end;
  Some (mkTask ti de s p due a c (createdAt t) now).

(** [Model.findById(id)]: the id is cast first. *)
Definition findById {A} (id : string) (coll : gmap ObjectId A)
    : option (option (ObjectId * A)) :=
  i ← Mongoose.castObjectId id;
  Some ((fun d => (i, d)) <$> coll !! i).

Section Update.

(** What an update makes of the other members of a body is decided by
    Mongoose and MongoDB, not by this repository: [_id] and [__v] are
    paths of the schema, a key that starts with [$] is an update
    operator of the database.  [updateWithOthers now i b t] stands for
    the outcome of the update [b], which has such members, on the
    document [t] of id [i]: the document stored in its place, or
    [None] when the update throws.  (An update that leaves a document
    outside the types of the schema is not covered.) *)
Variable updateWithOthers :
  Z -> ObjectId -> Body (option Z) -> Task -> option Task.

Definition updateDocument (now : Z) (i : ObjectId) (b : Body (option Z))
    (t : Task) : option Task :=
  match b_others b with
  | [] => applyUpdate now b t
  | _ => updateWithOthers now i b t
  end.

(** [Task.findByIdAndUpdate(id, body, { new: true, runValidators:
    true })]: the collection after the update and the updated
    document ([null] when no document has the id). *)
Definition findByIdAndUpdate (now : Z) (id : string) (b : Body (option Z))
    (ts : gmap ObjectId Task)
    : option (gmap ObjectId Task * option (ObjectId * Task)) :=
  i ← Mongoose.castObjectId id;
  match ts !! i with
  | Some t =>
      t' ← updateDocument now i b t;
      Some (<[i := t']> ts, Some (i, t'))
  | None => Some (ts, None)
  end.

End Update.

(** [Task.findByIdAndDelete(id)]. *)
Definition findByIdAndDelete (id : string) (ts : gmap ObjectId Task)
    : option (gmap ObjectId Task) :=
  i ← Mongoose.castObjectId id;
  Some (delete i ts).

Definition populateRef (us : gmap ObjectId User) (i : ObjectId)
    : option UserRef :=
  (fun u => mkUserRef i (username u) (email u)) <$> us !! i.

(** [.populate('assignedTo', 'username email')
     .populate('createdBy', 'username email')]. *)
Definition populate (us : gmap ObjectId User) (d : ObjectId * Task)
    : PopulatedTask :=
  let t := d.2 in
  mkPopulatedTask d.1 (title t) (description t) (status t) (priority t)
    (dueDate t) (populateRef us (assignedTo t)) (populateRef us (createdBy t))
    (createdAt t) (updatedAt t).

End Model.

(** ** [routes/tasks.js] *)

Module Routes.

Import Model.

(** One member of the [$or] array of a filter. *)
Inductive OwnerClause :=
| AssignedToIs (i : ObjectId)
| CreatedByIs (i : ObjectId).

(** The filter object of [find], [countDocuments] and [$match]: its
    keys are ANDed, the members of [$or] are ORed. *)
Record Filter := mkFilter {
  f_or : option (list OwnerClause);
  f_status : option string;
  f_priority : option string;
  f_assignedTo : option string
}.

Definition isAdmin (user : ReqUser) : bool := String.eqb (role user) "admin".

(** [if (req.user.role !== 'admin') filter.$or = [...]]. *)
Definition ownerFilter (user : ReqUser) : option (list OwnerClause) :=
  if negb (isAdmin user)
  then Some [AssignedToIs (_id user); CreatedByIs (_id user)]
  else None.

(** [if (req.query.k) filter.k = req.query.k] for the three keys. *)
Definition listFilter (user : ReqUser) (q : Query) : Filter :=
  {| f_or := ownerFilter user;
     f_status := Js.whenTruthy (q_status q);
     f_priority := Js.whenTruthy (q_priority q);
     f_assignedTo := Js.whenTruthy (q_assignedTo q) |}.

Definition statsFilter (user : ReqUser) : Filter :=
  {| f_or := ownerFilter user;
     f_status := None; f_priority := None; f_assignedTo := None |}.

Definition clauseMatches (t : Task) (c : OwnerClause) : bool :=
  match c with
  | AssignedToIs i => String.eqb (assignedTo t) i
  | CreatedByIs i => String.eqb (createdBy t) i
  end.

Definition keyMatches (cond : option string) (value : string) : bool :=
  match cond with
  | Some v => String.eqb value v
  | None => true
  end.

(** Whether a stored task matches a filter whose [assignedTo] key has
    been cast. *)
Definition matches (f : Filter) (assignee : option ObjectId) (t : Task)
    : bool :=
  match f_or f with
  | Some clauses => existsb (clauseMatches t) clauses
  | None => true
  end
  && keyMatches (f_status f) (status t)
  && keyMatches (f_priority f) (priority t)
  && keyMatches assignee (assignedTo t).

(** The documents of the collection that match a filter; [None] is
    the CastError of an [assignedTo] key that is no ObjectId. *)
Definition matching (f : Filter) (ts : gmap ObjectId Task)
    : option (list (ObjectId * Task)) :=
  match f_assignedTo f with
  | Some s =>
      i ← Mongoose.castObjectId s;
      Some (List.filter (fun d => matches f (Some i) d.2) (map_to_list ts))
  | None =>
      Some (List.filter (fun d => matches f None d.2) (map_to_list ts))
  end.

(** The order of [.sort({ createdAt: -1 })].  Tasks created at the
    same time come in the order the sort leaves them; the database
    promises none. *)
Definition newerFirst (d1 d2 : ObjectId * Task) : Prop :=
  createdAt d2.2 <= createdAt d1.2.

#[global] Instance newerFirst_dec d1 d2 : Decision (newerFirst d1 d2).
Proof. unfold newerFirst. apply _. Defined.

(** [.skip(n)] for [n >= 0]: the documents after the first [n]. *)
Definition skipDocs {A} (n : Z) (l : list A) : list A :=
  if Z.of_nat (length l) <=? n then [] else drop (Z.to_nat n) l.

(** [Task.find(filter).sort({ createdAt: -1 }).skip(skip).limit(limit)],
    for the [skip >= 0] and [limit >= 1] that the route computes. *)
Definition find (f : Filter) (skip lim : Z) (ts : gmap ObjectId Task)
    : option (list (ObjectId * Task)) :=
  ds ← matching f ts;
  Some (take (Z.to_nat lim) (skipDocs skip (merge_sort newerFirst ds))).

(** [Task.countDocuments(filter)]. *)
Definition countDocuments (f : Filter) (ts : gmap ObjectId Task)
    : option Z :=
  ds ← matching f ts;
  Some (Z.of_nat (length ds)).

(** [Math.ceil(a / b)] for a positive [b].  (The quotient is a double;
    its rounding is out of the reach of [ceil] while [a] is below
    [2^46] and [b] at most 100.) *)
Definition ceilDiv (a b : Z) : Z := - ((- a) / b).

Definition serverError {A} (what : string) : Response A :=
  Fail 500 ("Server error while " ++ what)%string.

(** *** [GET /] *)

Definition listTasksTry (user : ReqUser) (q : Query) (db : DB)
    : option (Response TaskPage) :=
  let page := Js.numOr (q_page q ≫= Js.parseInt) 1 in
  let limit := Js.numOr (q_limit q ≫= Js.parseInt) 10 in
  let skip := Js.mul (Js.sub page 1) limit in
  let filter := listFilter user q in
  found ← find filter skip limit (tasks db);
  total ← countDocuments filter (tasks db);
  Some (Ok 200 None
    {| page_tasks := populate (users db) <$> found;
       pagination :=
         {| current := page; pages := ceilDiv total limit;
            total := total; limit := limit |} |}).

Definition listTasks (user : ReqUser) (q : Query) (db : DB)
    : Response TaskPage :=
  match Validation.validatePagination q with
  | [] => default (serverError "fetching tasks") (listTasksTry user q db)
  | errors => Invalid errors
  end.

(** *** [GET /:id] *)

(** [a && b] where evaluating an operand may throw: [b] is evaluated
    only when [a] is true. *)
Definition andAlso (a b : option bool) : option bool :=
  match a with
  | Some true => b
  | other => other
  end.

(** [ref._id.toString() !== req.user._id.toString()]; reading [_id]
    of [null] throws. *)
Definition refIsNot (ref : option UserRef) (user : ReqUser) : option bool :=
  (fun r => negb (String.eqb (ref_id r) (_id user))) <$> ref.

Definition getTaskTry (user : ReqUser) (id : string) (db : DB)
    : option (Response PopulatedTask) :=
  found ← findById id (tasks db);
  match found with
  | None => Some (Fail 404 "Task not found")
  | Some d =>
      let task := populate (users db) d in
      denied ← andAlso (Some (negb (isAdmin user)))
                 (andAlso (refIsNot (p_assignedTo task) user)
                          (refIsNot (p_createdBy task) user));
      Some (if denied : bool then Fail 403 "Access denied"
            else Ok 200 None task)
  end.

Definition getTask (user : ReqUser) (id : string) (db : DB)
    : Response PopulatedTask :=
  match Validation.validateObjectId id with
  | [] => default (serverError "fetching task") (getTaskTry user id db)
  | errors => Invalid errors
  end.

(** *** [DELETE /:id] *)

Definition deleteTaskTry (user : ReqUser) (id : string) (db : DB)
    : option (Response unit * DB) :=
  found ← findById id (tasks db);
  match found with
  | None => Some (Fail 404 "Task not found", db)
  | Some (_, task) =>
      if negb (isAdmin user) && negb (String.eqb (createdBy task) (_id user))
      then Some (Fail 403
             "Access denied. Only the creator or admin can delete this task.",
             db)
      else
        ts ← findByIdAndDelete id (tasks db);
        Some (Ok 200 (Some "Task deleted successfully"%string) (),
              mkDB (users db) ts)
  end.

Definition deleteTask (user : ReqUser) (id : string) (db : DB)
    : Response unit * DB :=
  match Validation.validateObjectId id with
  | [] => default (serverError "deleting task", db) (deleteTaskTry user id db)
  | errors => (Invalid errors, db)
  end.

(** *** [GET /stats/overview] *)

Definition countIf (p : Task -> bool) (ds : list (ObjectId * Task)) : Z :=
  foldr (fun d n => (if p d.2 then 1 else 0) + n) 0 ds.

(** The [$group] stage with [_id: null]: one group when a document
    reaches it, none otherwise. *)
Definition group (ds : list (ObjectId * Task)) : list Stats :=
  match ds with
  | [] => []
  | _ =>
      [ {| st_total := countIf (fun _ => true) ds;
           st_pending := countIf (fun t => String.eqb (status t) "pending") ds;
           st_inProgress :=
             countIf (fun t => String.eqb (status t) "in-progress") ds;
           st_completed :=
             countIf (fun t => String.eqb (status t) "completed") ds;
           st_highPriority :=
             countIf (fun t => String.eqb (priority t) "high") ds;
           st_mediumPriority :=
             countIf (fun t => String.eqb (priority t) "medium") ds;
           st_lowPriority :=
             countIf (fun t => String.eqb (priority t) "low") ds |} ]
  end.

(** [Task.aggregate([{ $match: filter }, { $group: ... }])]. *)
Definition aggregate (f : Filter) (ts : gmap ObjectId Task)
    : option (list Stats) :=
  group <$> matching f ts.

Definition statsOverviewTry (user : ReqUser) (db : DB)
    : option (Response Stats) :=
  stats ← aggregate (statsFilter user) (tasks db);
  let result := default (mkStats 0 0 0 0 0 0 0) (head stats) in
  Some (Ok 200 None result).

Definition statsOverview (user : ReqUser) (db : DB) : Response Stats :=
  default (serverError "fetching task statistics") (statsOverviewTry user db).

Section Writes.

Variable isISO8601 : string -> bool.
Variable toDate : string -> option Z.
Variable updateWithOthers :
  Z -> ObjectId -> Body (option Z) -> Task -> option Task.

(** *** [POST /]

    [now] is the clock during the request and [newId] the [_id]
    that [new Task] generates. *)

Definition createTaskTry (now : Z) (newId : ObjectId) (user : ReqUser)
    (body : Body (option Z)) (db : DB)
    : option (Response PopulatedTask * DB) :=
  checked ←
    match Js.whenTruthy (b_assignedTo body) with
    | Some requested =>
        found ← findById requested (users db);
        match found with
        | None => Some (inl (Fail 400 "Assigned user not found"))
        | Some _ => Some (inr (RefString requested))
        end
    | None => Some (inr (RefId (_id user)))
    end;
  match checked with
  | inl response => Some (response, db)
  | inr assignedUser =>
      let task :=
        {| i_title := b_title body;
           i_description := b_description body;
           i_status := Js.strOr (b_status body) "pending";
           i_priority := Js.strOr (b_priority body) "medium";
           i_dueDate := mjoin (b_dueDate body);
           i_assignedTo := assignedUser;
           i_createdBy := RefId (_id user) |} in
      saved ← save now newId task (tasks db);
      Some (Ok 201 (Some "Task created successfully"%string)
              (populate (users db) (newId, saved.2)),
            mkDB (users db) saved.1)
  end.

Definition createTask (now : Z) (newId : ObjectId) (user : ReqUser)
    (body : Body string) (db : DB) : Response PopulatedTask * DB :=
  match Validation.validateTaskCreation isISO8601 toDate body with
  | ([], body') =>
      default (serverError "creating task", db)
        (createTaskTry now newId user body' db)
  | (errors, _) => (Invalid errors, db)
  end.

(** *** [PUT /:id] *)

Definition updateTaskTry (now : Z) (user : ReqUser) (id : string)
    (body : Body (option Z)) (db : DB)
    : option (Response (option PopulatedTask) * DB) :=
  found ← findById id (tasks db);
  match found with
  | None => Some (Fail 404 "Task not found", db)
  | Some (_, task) =>
      if negb (isAdmin user)
         && negb (String.eqb (createdBy task) (_id user))
         && negb (String.eqb (assignedTo task) (_id user))
      then Some (Fail 403 "Access denied", db)
      else
        missing ←
          match Js.whenTruthy (b_assignedTo body) return option bool with
          | Some requested =>
              if negb (String.eqb requested (assignedTo task))
              then
                found ← findById requested (users db);
                Some (match found with None => true | Some _ => false end)
              else Some false
          | None => Some false
          end;
        if missing : bool
        then Some (Fail 400 "Assigned user not found", db)
        else
          updated ← findByIdAndUpdate updateWithOthers now id body (tasks db);
          let updatedTask : option (ObjectId * Task) := updated.2 in
          Some (Ok 200 (Some "Task updated successfully"%string)
                  (populate (users db) <$> updatedTask),
                mkDB (users db) updated.1)
  end.

Definition updateTask (now : Z) (user : ReqUser) (id : string)
    (body : Body string) (db : DB)
    : Response (option PopulatedTask) * DB :=
  match Validation.validateObjectId id with
  | [] =>
      match Validation.validateTaskUpdate isISO8601 toDate body with
      | ([], body') =>
          default (serverError "updating task", db)
            (updateTaskTry now user id body' db)
      | (errors, _) => (Invalid errors, db)
      end
  | errors => (Invalid errors, db)
  end.

End Writes.

End Routes.

(** ** More of JavaScript's strings and numbers *)

Module JsText.

(** [s.startsWith(sub)]. *)
Fixpoint startsWith (sub s : string) : bool :=
  match sub, s with
  | EmptyString, _ => true
  | String a sub', String b s' => Ascii.eqb a b && startsWith sub' s'
  | String _ _, EmptyString => false
  end.

(** [s.includes(sub)]. *)
Fixpoint includes (s sub : string) : bool :=
  startsWith sub s
  || match s with
     | String _ s' => includes s' sub
     | EmptyString => false
     end.

(** [s.toLowerCase()]: among the code units below 256 the capital
    letters are A to Z and U+00C0 to U+00DE without the sign U+00D7,
    each 32 below its small letter. *)
Definition lowerChar (c : ascii) : ascii :=
  let n := nat_of_ascii c in
  if ((65 <=? n) && (n <=? 90)
      || (192 <=? n) && (n <=? 222) && negb (n =? 215))%nat
  then ascii_of_nat (n + 32) else c.

Fixpoint toLowerCase (s : string) : string :=
  match s with
  | String c s' => String (lowerChar c) (toLowerCase s')
  | EmptyString => EmptyString
  end.

Definition digitChar (d : Z) : ascii := ascii_of_nat (48 + Z.to_nat d).

(** The decimal digits of a number that is not negative, in front of
    [acc]; [fuel] bounds the number of digits. *)
Fixpoint digits (fuel : nat) (n : Z) (acc : list ascii) : list ascii :=
  match fuel with
  | O => acc
  | S fuel' =>
      let acc' := digitChar (n mod 10) :: acc in
      if n <? 10 then acc' else digits fuel' (n / 10) acc'
  end.

(** [String(n)] for an integer [n] (below [10^21], where JavaScript
    turns to the exponent form). *)
Definition numberToString (n : Z) : string :=
  let size (m : Z) := S (Z.to_nat (Z.log2 m)) in
  if n <? 0
  then String "-" (string_of_list_ascii (digits (size (- n)) (- n) []))
  else string_of_list_ascii (digits (size n) n []).

End JsText.

(** ** [middleware/validation.js]: the account chains *)

Module UserValidation.

(** The fields of [req.body] that registration and login read; [E] is
    the type of [email], a string as received and the result of
    [normalizeEmail()] afterwards. *)
Record Account (E : Type) := mkAccount {
  a_username : option string;
  a_email : option E;
  a_password : option string
}.
Arguments mkAccount {E}.
Arguments a_username {E}.
Arguments a_email {E}.
Arguments a_password {E}.

Definition isWordChar (c : ascii) : bool :=
  let n := nat_of_ascii c in
  (((48 <=? n) && (n <=? 57)) || ((65 <=? n) && (n <=? 90))
   || ((97 <=? n) && (n <=? 122)) || (n =? 95))%nat.

(** [/^[a-zA-Z0-9_]+$/]. *)
Definition isWord (s : string) : bool :=
  negb (String.eqb s "") && forallb isWordChar (list_ascii_of_string s).

Definition isLower (c : ascii) : bool :=
  let n := nat_of_ascii c in ((97 <=? n) && (n <=? 122))%nat.

Definition isUpper (c : ascii) : bool :=
  let n := nat_of_ascii c in ((65 <=? n) && (n <=? 90))%nat.

(** The characters that [.] does not match (line feed and carriage
    return among one-byte characters). *)
Definition isLineEnd (c : ascii) : bool :=
  let n := nat_of_ascii c in ((n =? 10) || (n =? 13))%nat.

Fixpoint firstLine (l : list ascii) : list ascii :=
  match l with
  | c :: l' => if isLineEnd c then [] else c :: firstLine l'
  | [] => []
  end.

(** [/^(?=.*[a-z])(?=.*[A-Z])(?=.*\d)/]: each look-ahead searches the
    text before the first line end. *)
Definition isMixed (s : string) : bool :=
  let line := firstLine (list_ascii_of_string s) in
  existsb isLower line && existsb isUpper line && existsb Js.isDigit line.

(** A chain with two validators, each with its own message, on the
    sanitized value of a field that must be present. *)
Definition check2 (sanitizer : string -> string)
    (valid1 valid2 : string -> bool) (field message1 message2 : string)
    (value : option string) : list FieldError :=
  let v := sanitizer (default ""%string value) in
  (if valid1 v then [] else [mkFieldError field message1])
  ++ (if valid2 v then [] else [mkFieldError field message2]).

Section Email.

(** [isEmail()] and [normalizeEmail()], which gives [false] ([None])
    for some strings. *)
Variable isEmail : string -> bool.
Variable normalizeEmail : string -> option string.

Definition checkEmail (b : Account string) : list FieldError :=
  Validation.check false isEmail "email" "Please provide a valid email"
    (a_email b).

Definition validateUserRegistration (b : Account string)
    : list FieldError * Account (option string) :=
  (check2 Js.trim (Validator.isLength 3 30) isWord "username"
     "Username must be between 3 and 30 characters"
     "Username can only contain letters, numbers, and underscores"
     (a_username b)
   ++ checkEmail b
   ++ check2 id (fun s => (6 <=? String.length s)%nat) isMixed "password"
     "Password must be at least 6 characters long"
     "Password must contain at least one lowercase letter, one uppercase letter, and one number"
     (a_password b),
   {| a_username := Some (Js.trim (default ""%string (a_username b)));
      a_email := Some (normalizeEmail (default ""%string (a_email b)));
      a_password := a_password b |}).

(** [notEmpty()]. *)
Definition notEmpty (s : string) : bool := negb (String.eqb s "").

Definition validateUserLogin (b : Account string)
    : list FieldError * Account (option string) :=
  (checkEmail b
   ++ Validation.check false notEmpty "password" "Password is required"
        (a_password b),
   {| a_username := a_username b;
      a_email := Some (normalizeEmail (default ""%string (a_email b)));
      a_password := a_password b |}).

End Email.

End UserValidation.

(** ** [server.js]: the origins that CORS lets in *)

Module Server.

(** The two environment variables that the origin check reads. *)
Record Env := mkEnv {
  NODE_ENV : option string;
  FRONTEND_URL : option string
}.

(** [[...].filter(Boolean)]: the six fixed origins and
    [process.env.FRONTEND_URL] when it is set and not empty. *)
Definition allowedOrigins (env : Env) : list string :=
  ["http://localhost:3000";
   "http://localhost:3001";
   "https://scalable-api.onrender.com";
   "https://scalable-api-backend.onrender.com";
   "https://scalable-api-backend-e9ih.onrender.com";
   "https://scalable-api.vercel.app"]%string
  ++ match Js.whenTruthy (FRONTEND_URL env) with
     | Some url => [url]
     | None => []
     end.

(** [corsOptions.origin]: [true] is [callback(null, true)], [false] is
    [callback(new Error('Not allowed by CORS'))]. *)
Definition origin (env : Env) (requestOrigin : option string) : bool :=
  match Js.whenTruthy requestOrigin with
  | None => true
  | Some o =>
      if negb (bool_decide (NODE_ENV env = Some "production"%string))
         && JsText.includes o "localhost"
      then true
      else existsb (String.eqb o) (allowedOrigins env)
  end.

End Server.

(** ** [frontend/src/pages/Tasks.js] *)

Module TasksPage.

(** The [filters] state. *)
Record Filters := mkFilters {
  flt_status : string;
  flt_priority : string;
  flt_search : string
}.

(** [(filters.k && { k: filters.k })] spread into the parameters. *)
Definition whenSet (s : string) : option string := Js.whenTruthy (Some s).

(** The parameters of [fetchTasks], from the [filters] and
    [pagination] states. *)
Definition fetchParams (filters : Filters) (pagination : Pagination) : Query :=
  {| q_page := Some (JsText.numberToString (current pagination));
     q_limit := Some (JsText.numberToString (limit pagination));
     q_status := whenSet (flt_status filters);
     q_priority := whenSet (flt_priority filters);
     q_assignedTo := None |}.

(** [filteredTasks]: the tasks of the page whose title or description
    holds the search text, letter case aside. *)
Definition filteredTasks (filters : Filters) (tasks : list PopulatedTask)
    : list PopulatedTask :=
  List.filter
    (fun task =>
       JsText.includes (JsText.toLowerCase (p_title task))
         (JsText.toLowerCase (flt_search filters))
       || JsText.includes (JsText.toLowerCase (p_description task))
            (JsText.toLowerCase (flt_search filters)))
    tasks.

(** The buttons of the pagination bar, shown when there is more than
    one page. *)
Inductive Button :=
| Previous
| Next
| PageNumber (i : nat).

(** Whether a button is there and not [disabled]. *)
Definition enabled (pagination : Pagination) (b : Button) : bool :=
  (1 <? pages pagination)
  && match b with
     | Previous => negb (current pagination =? 1)
     | Next => negb (current pagination =? pages pagination)
     | PageNumber i => Z.of_nat i <? pages pagination
     end.

(** The [onClick] of a button: [setPagination({ ...pagination,
    current })]. *)
Definition click (pagination : Pagination) (b : Button) : Pagination :=
  let goto (n : Z) :=
    {| current := n; pages := pages pagination;
       total := total pagination; limit := limit pagination |} in
  match b with
  | Previous => goto (current pagination - 1)
  | Next => goto (current pagination + 1)
  | PageNumber i => goto (Z.of_nat i + 1)
  end.

End TasksPage.

(** ** [models/Task.js]: what the schema asks of a stored task *)

Module Schema.

(** A string path with [required], [trim] and [maxlength]. *)
Definition textOk (maxlength : nat) (s : string) : bool :=
  negb (String.eqb s "") && (String.length s <=? maxlength)%nat
  && String.eqb (Js.trim s) s.

(** The constraints of [title], [description], [status] and
    [priority]. *)
Definition schemaOk (t : Task) : bool :=
  textOk 100 (title t) && textOk 500 (description t)
  && Validator.isIn Validation.statuses (status t)
  && Validator.isIn Validation.priorities (priority t).

End Schema.

(** ** The specification's words *)

Module Spec.

(** The caller's visible task set, as the specification words it:
    every task for an admin, the tasks whose assignee or creator is the
    caller otherwise.  The routes do not call this function; it is
    compared with the filter they build. *)
Definition visibleTo (user : ReqUser) (t : Task) : bool :=
  Routes.isAdmin user
  || String.eqb (assignedTo t) (_id user)
  || String.eqb (createdBy t) (_id user).

(** A task with its [updatedAt] blanked, to compare two records in
    every other field. *)
Definition withoutUpdatedAt (t : Task) : Task :=
  mkTask (title t) (description t) (status t) (priority t) (dueDate t)
    (assignedTo t) (createdBy t) (createdAt t) 0.

End Spec.

(** ** Auxiliary definitions for the proofs *)

Module Steps.

Import Model.

(** A list of characters that does not start with white space. *)
Definition startsClean (l : list ascii) : Prop :=
  match l with
  | c :: _ => Js.isSpace c = false
  | [] => True
  end.

(** The two steps of [PUT /:id] after the task has been found and the
    caller let through: the check of a new assignee, then the
    update. *)
Definition assigneeMissing (t : Task) (b : Body (option Z)) (db : DB)
    : option bool :=
  match Js.whenTruthy (b_assignedTo b) with
  | Some requested =>
      if negb (String.eqb requested (assignedTo t))
      then
        found ← findById requested (users db);
        Some (match found with None => true | Some _ => false end)
      else Some false
  | None => Some false
  end.

Definition updateChecked
    (updateWithOthers : Z -> ObjectId -> Body (option Z) -> Task -> option Task)
    (now : Z) (i : ObjectId) (t : Task)
    (b : Body (option Z)) (db : DB)
    : option (Response (option PopulatedTask) * DB) :=
  missing ← assigneeMissing t b db;
  if missing : bool
  then Some (Fail 400 "Assigned user not found", db)
  else
    t' ← updateDocument updateWithOthers now i b t;
    Some (Ok 200 (Some "Task updated successfully"%string)
            (Some (populate (users db) (i, t'))),
          mkDB (users db) (<[i := t']> (tasks db))).

(** One step of [Js.digitsPrefix]: the value read so far and the next
    digit. *)
Definition readDigit (a : Z) (c : ascii) : Z := 10 * a + Js.digitVal c.

(** The argument of [new Task] that [POST /] builds from a body and
    the assignee it settled on. *)
Definition newTask (user : ReqUser) (body : Body (option Z))
    (assignee : RefValue) : TaskInit :=
  {| i_title := b_title body;
     i_description := b_description body;
     i_status := Js.strOr (b_status body) "pending";
     i_priority := Js.strOr (b_priority body) "medium";
     i_dueDate := mjoin (b_dueDate body);
     i_assignedTo := assignee;
     i_createdBy := RefId (_id user) |}.

End Steps.

(** ** A small database for the examples *)

Module Fixture.

Definition alice : ObjectId := "aaaaaaaaaaaaaaaaaaaaaaaa".
Definition bob : ObjectId := "bbbbbbbbbbbbbbbbbbbbbbbb".
Definition carol : ObjectId := "cccccccccccccccccccccccc".
(** The id of a user that has been removed. *)
Definition ghost : ObjectId := "dddddddddddddddddddddddd".

Definition asUser (i : ObjectId) : ReqUser := mkReqUser i "user".
Definition asAdmin (i : ObjectId) : ReqUser := mkReqUser i "admin".

Definition task1 : ObjectId := "111111111111111111111111".
Definition task2 : ObjectId := "222222222222222222222222".
Definition task3 : ObjectId := "333333333333333333333333".

Definition someUsers : gmap ObjectId User :=
  <[alice := mkUser "alice" "alice@example.com" "user" true]>
    (<[bob := mkUser "bob" "bob@example.com" "user" true]>
       (<[carol := mkUser "carol" "carol@example.com" "admin" true]> ∅)).

(** [task1] is assigned to alice by bob; [task2] is assigned to alice
    and its creator is gone. *)
Definition someTasks : gmap ObjectId Task :=
  <[task1 := mkTask "one" "first" "pending" "low" None alice bob 100 100]>
    (<[task2 :=
         mkTask "two" "second" "completed" "high" None alice ghost 200 200]>
       ∅).

Definition db : DB := mkDB someUsers someTasks.

Definition noQuery : Query := mkQuery None None None None None.

(** Two dates and the clock: the first day of 2000, of 2100, and of
    2024.  The date functions know the two date strings of the
    examples and refuse every other string. *)
Definition y2000 : Z := 946684800000.
Definition y2100 : Z := 4102444800000.
Definition y2024 : Z := 1704067200000.

Definition isISO8601 (s : string) : bool :=
  String.eqb s "2000-01-01" || String.eqb s "2100-01-01".

Definition toDate (s : string) : option Z :=
  if String.eqb s "2000-01-01" then Some y2000
  else if String.eqb s "2100-01-01" then Some y2100
  else None.

(** A collection of [n] tasks of alice's, created one millisecond
    apart. *)
Definition hexDigit (n : nat) : ascii :=
  ascii_of_nat (if (n <? 10)%nat then 48 + n else 87 + n).

Definition taskId (n : nat) : ObjectId :=
  String (hexDigit (n / 16)) (String (hexDigit (n mod 16))
    "0000000000000000000000").

Definition manyTasks (n : nat) : gmap ObjectId Task :=
  list_to_map
    ((λ k, (taskId k,
            mkTask "task" "text" "pending" "medium" None alice alice
              (Z.of_nat k) (Z.of_nat k))) <$> seq 0 n).

(** [?page=3&limit=10]. *)
Definition page3 : Query :=
  mkQuery (Some "3"%string) (Some "10"%string) None None None.

(** [?status=completed] and [?assignedTo=nobody]. *)
Definition completedOnly : Query :=
  mkQuery None None (Some "completed"%string) None None.

Definition assignedToNobody : Query :=
  mkQuery None None None None (Some "nobody"%string).

(** The id of the eleventh of [manyTasks], in capital letters. *)
Definition capitalId : string := "0A0000000000000000000000".

(** [?page=9007199254740993], the page after [2^53]. *)
Definition farPage : Query :=
  mkQuery (Some "9007199254740993"%string) None None None None.

(** A string that [isMongoId] accepts and that is no ObjectId. *)
Definition prefixed : string := "0x0000000000000000000000".

(** The examples but one have no body with other members; for them to
    run, every update with other members throws here. *)
Definition refuseOthers (now : Z) (i : ObjectId) (b : Body (option Z))
    (t : Task) : option Task := None.

(** Request bodies: [{ status: 'completed' }], [{ createdBy: alice }],
    [{ assignedTo: ghost }], and three new tasks, one without a due
    date, one due in 2000 and one assigned to the missing user. *)
Definition completeIt : Body string :=
  mkBody None None (Some "completed"%string) None None None None [].

Definition takeOver : Body string :=
  mkBody None None None None None None (Some alice) [].

Definition giveToGhost : Body string :=
  mkBody None None None None None (Some ghost) None [].

Definition undated : Body string :=
  mkBody (Some "report"%string) (Some "write it"%string) None None None None
    None [].

Definition overdue : Body string :=
  mkBody (Some "report"%string) (Some "write it"%string) None None
    (Some "2000-01-01"%string) None None [].

Definition forGhost : Body string :=
  mkBody (Some "report"%string) (Some "write it"%string) None None None
    (Some ghost) None [].

(** The same new task for [prefixed], [{ assignedTo: prefixed }], and
    [{ $set: { assignedTo: ghost } }]. *)
Definition forPrefixed : Body string :=
  mkBody (Some "report"%string) (Some "write it"%string) None None None
    (Some prefixed) None [].

Definition giveToPrefixed : Body string :=
  mkBody None None None None None (Some prefixed) None [].

Definition setToGhost : Body string :=
  mkBody None None None None None None None
    [("$set"%string, JObject [("assignedTo"%string, JString ghost)])].

(** [{ assignedTo: carol }]. *)
Definition giveToCarol : Body string :=
  mkBody None None None None None (Some carol) None [].

(** Two environments of the server. *)
Definition production : Server.Env :=
  Server.mkEnv (Some "production"%string)
    (Some "https://tasks.example.com"%string).

Definition development : Server.Env :=
  Server.mkEnv (Some "development"%string) None.

(** A registration, and an [isEmail] that knows its address. *)
Definition dave : UserValidation.Account string :=
  UserValidation.mkAccount (Some " dave_1 "%string)
    (Some "dave@example.com"%string) (Some "Passw0rd"%string).

Definition isEmail (s : string) : bool := String.eqb s "dave@example.com".

Definition normalizeEmail (s : string) : option string := Some s.

(** The state of the tasks page on the first of three pages. *)
Definition firstOfThree : Pagination := mkPagination 1 3 25 10.

Definition noFilters : TasksPage.Filters := TasksPage.mkFilters "" "" "".

End Fixture.

(** * Properties of the routes *)

Import Model Routes Steps.

(** ** Validators, casts and lookups *)

Lemma validateObjectId_nil id :
  Validation.validateObjectId id = [] ↔ Validator.isMongoId id = true.
Proof.
  unfold Validation.validateObjectId, Validation.check.
  destruct (Validator.isMongoId id); simpl; split; congruence.
Qed.

Lemma castObjectId_text s i :
  Mongoose.castObjectId s = Some i → Validator.isObjectIdText s = true.
Proof.
  unfold Mongoose.castObjectId. by destruct (Validator.isObjectIdText s).
Qed.

Lemma isObjectIdText_isMongoId s :
  Validator.isObjectIdText s = true → Validator.isMongoId s = true.
Proof.
  unfold Validator.isObjectIdText, Validator.isMongoId,
    Validator.isHexadecimal, Validator.isHexDigits.
  intros [Hlen Hhex]%andb_true_iff. rewrite Hlen, Hhex, andb_true_r.
  apply Nat.eqb_eq in Hlen.
  assert (List.length (list_ascii_of_string s) = 24%nat) as ->; [|done].
  rewrite <- Hlen. clear. induction s as [|c s IH]; simpl; congruence.
Qed.

Lemma castObjectId_isMongoId s i :
  Mongoose.castObjectId s = Some i → Validator.isMongoId s = true.
Proof. eauto using castObjectId_text, isObjectIdText_isMongoId. Qed.

Lemma castObjectId_validates id i :
  Mongoose.castObjectId id = Some i → Validation.validateObjectId id = [].
Proof. intros H. apply validateObjectId_nil. eauto using castObjectId_isMongoId. Qed.

Lemma findById_cast {A} id i (coll : gmap ObjectId A) :
  Mongoose.castObjectId id = Some i →
  findById id coll = Some ((λ d, (i, d)) <$> coll !! i).
Proof. intros H. unfold findById. by rewrite H. Qed.

Lemma isAdmin_true user : isAdmin user = true ↔ role user = "admin"%string.
Proof. unfold isAdmin. apply String.eqb_eq. Qed.

Lemma isAdmin_false user : isAdmin user = false ↔ role user ≠ "admin"%string.
Proof. unfold isAdmin. apply String.eqb_neq. Qed.

(** ** Deleting a task *)

(** C2. For a task that exists, [DELETE /:id] answers 200 exactly when
    the caller is an admin or the task's creator, and then the task is
    gone from the collection; any other caller, the assignee included,
    gets the 403 and the database is as it was. *)
Theorem delete_only_admin_or_creator (user : ReqUser) (id : string)
    (i : ObjectId) (t : Task) (db : DB) :
  Mongoose.castObjectId id = Some i →
  tasks db !! i = Some t →
  (statusCode (deleteTask user id db).1 = 200%nat
     ↔ role user = "admin"%string ∨ createdBy t = _id user)
  ∧ (role user = "admin"%string ∨ createdBy t = _id user →
     deleteTask user id db =
       (Ok 200 (Some "Task deleted successfully"%string) (),
        mkDB (users db) (delete i (tasks db)))
     ∧ tasks (deleteTask user id db).2 !! i = None)
  ∧ (role user ≠ "admin"%string → createdBy t ≠ _id user →
     deleteTask user id db =
       (Fail 403
          "Access denied. Only the creator or admin can delete this task.",
        db)
     ∧ tasks (deleteTask user id db).2 !! i = Some t).
Proof.
  intros Hc Ht.
  unfold deleteTask, deleteTaskTry.
  rewrite (castObjectId_validates _ _ Hc), (findById_cast _ _ _ Hc), Ht.
  simpl. unfold findByIdAndDelete. rewrite Hc. simpl.
  destruct (isAdmin user) eqn:Ha; simpl.
  - apply isAdmin_true in Ha.
    split; [split; auto|]. split.
    + intros _. split; [done|]. apply lookup_delete_eq.
    + intros Hn. by destruct Hn.
  - apply isAdmin_false in Ha.
    destruct (String.eqb (createdBy t) (_id user)) eqn:Hcr; simpl.
    + apply String.eqb_eq in Hcr. split; [split; auto|]. split.
      * intros _. split; [done|]. apply lookup_delete_eq.
      * intros _ Hn. by destruct Hn.
    + apply String.eqb_neq in Hcr. split; [|split].
      * split; [discriminate|]. intros [?|?]; done.
      * intros [?|?]; done.
      * intros _ _. done.
Qed.

(** The assignee of [task1] is refused and its creator is not. *)
Lemma delete_only_admin_or_creator_witness :
  deleteTask (Fixture.asUser Fixture.alice) Fixture.task1 Fixture.db =
    (Fail 403 "Access denied. Only the creator or admin can delete this task.",
     Fixture.db)
  ∧ tasks (deleteTask (Fixture.asUser Fixture.bob) Fixture.task1 Fixture.db).2
      !! Fixture.task1 = None.
Proof.
  split.
  - refine (proj1 (proj2 (proj2 (delete_only_admin_or_creator
      (Fixture.asUser Fixture.alice) Fixture.task1 Fixture.task1
      (mkTask "one" "first" "pending" "low" None Fixture.alice Fixture.bob
         100 100)
      Fixture.db _ _)) _ _)).
    + vm_compute. reflexivity.
    + vm_compute. reflexivity.
    + discriminate.
    + discriminate.
  - refine (proj2 (proj1 (proj2 (delete_only_admin_or_creator
      (Fixture.asUser Fixture.bob) Fixture.task1 Fixture.task1
      (mkTask "one" "first" "pending" "low" None Fixture.alice Fixture.bob
         100 100)
      Fixture.db _ _)) _)).
    + vm_compute. reflexivity.
    + vm_compute. reflexivity.
    + right. reflexivity.
Defined.

(** ** Reading one task *)

Lemma getTask_found user id i t db :
  Mongoose.castObjectId id = Some i →
  tasks db !! i = Some t →
  getTask user id db =
    default (serverError "fetching task")
      ((λ denied : bool,
          if denied then Fail 403 "Access denied"
          else Ok 200 None (populate (users db) (i, t)))
       <$> andAlso (Some (negb (isAdmin user)))
             (andAlso (refIsNot (populateRef (users db) (assignedTo t)) user)
                      (refIsNot (populateRef (users db) (createdBy t)) user))).
Proof.
  intros Hc Ht. unfold getTask, getTaskTry.
  rewrite (castObjectId_validates _ _ Hc), (findById_cast _ _ _ Hc), Ht.
  simpl.
  by destruct (andAlso _ _) as [[]|].
Qed.

Lemma refIsNot_populateRef us j user :
  refIsNot (populateRef us j) user =
    (λ _, negb (String.eqb j (_id user))) <$> us !! j.
Proof. unfold refIsNot, populateRef. by destruct (us !! j). Qed.

Ltac outcomes :=
  repeat split; intros;
  repeat match goal with
    | H : _ ∨ _ |- _ => destruct H
    | H : _ ∧ _ |- _ => destruct H
    | H : is_Some None |- _ => by destruct H
    end;
  first [ done | congruence | by eauto | left; by eauto | right; by eauto ].

(** C10, as the code has it.  For a non-admin caller and a task that
    exists, the access check of [GET /:id] has three outcomes.  It
    throws (the 500) exactly when the assignee reference is dangling,
    or the assignee is a user other than the caller and the creator
    reference is dangling: [&&] stops at the first false operand, so
    the creator is not read when the assignee is the caller.  It grants
    (the 200) when the first reference it reads that names the caller
    is populated, and it denies (the 403) when both references are
    populated and neither names the caller. *)
Theorem getTask_outcomes (user : ReqUser) (id : string) (i : ObjectId)
    (t : Task) (db : DB) :
  role user ≠ "admin"%string →
  Mongoose.castObjectId id = Some i →
  tasks db !! i = Some t →
  (getTask user id db = Fail 500 "Server error while fetching task"
     ↔ users db !! assignedTo t = None
       ∨ (assignedTo t ≠ _id user ∧ users db !! createdBy t = None))
  ∧ (getTask user id db = Ok 200 None (populate (users db) (i, t))
     ↔ (is_Some (users db !! assignedTo t) ∧ assignedTo t = _id user)
       ∨ (is_Some (users db !! assignedTo t)
          ∧ is_Some (users db !! createdBy t) ∧ createdBy t = _id user))
  ∧ (getTask user id db = Fail 403 "Access denied"
     ↔ is_Some (users db !! assignedTo t) ∧ assignedTo t ≠ _id user
       ∧ is_Some (users db !! createdBy t) ∧ createdBy t ≠ _id user).
Proof.
  intros Ha Hc Ht. rewrite (getTask_found _ _ _ _ _ Hc Ht).
  apply isAdmin_false in Ha. rewrite Ha. simpl.
  rewrite !refIsNot_populateRef.
  destruct (users db !! assignedTo t) as [ua|]; simpl;
    [destruct (String.eqb_spec (assignedTo t) (_id user)); simpl;
     [|destruct (users db !! createdBy t) as [uc|]; simpl;
       [destruct (String.eqb_spec (createdBy t) (_id user)); simpl|]]|];
    outcomes.
Qed.

(** Bob reads [task2], assigned to alice and created by a user that is
    gone: the check reads the assignee, then the missing creator. *)
Lemma getTask_outcomes_witness :
  getTask (Fixture.asUser Fixture.bob) Fixture.task2 Fixture.db =
    Fail 500 "Server error while fetching task".
Proof.
  refine (proj2 (proj1 (getTask_outcomes
    (Fixture.asUser Fixture.bob) Fixture.task2 Fixture.task2
    (mkTask "two" "second" "completed" "high" None Fixture.alice Fixture.ghost
       200 200)
    Fixture.db _ _ _)) _).
  - discriminate.
  - vm_compute. reflexivity.
  - vm_compute. reflexivity.
  - right. split; [discriminate | vm_compute; reflexivity].
Defined.

(** A dangling creator does not always lead to the 500: alice is the
    assignee of [task2], whose creator is gone, and she is served the
    task. *)
Lemma getTask_dangling_creator_served :
  role (Fixture.asUser Fixture.alice) ≠ "admin"%string
  ∧ (createdBy <$> tasks Fixture.db !! Fixture.task2) = Some Fixture.ghost
  ∧ users Fixture.db !! Fixture.ghost = None
  ∧ statusCode (getTask (Fixture.asUser Fixture.alice) Fixture.task2 Fixture.db)
    = 200%nat
  ∧ getTask (Fixture.asUser Fixture.alice) Fixture.task2 Fixture.db
    ≠ Fail 500 "Server error while fetching task".
Proof.
  split; [discriminate|].
  split; [vm_compute; reflexivity|].
  split; [vm_compute; reflexivity|].
  split; [vm_compute; reflexivity|].
  vm_compute. discriminate.
Qed.

(** ** What a caller who is no admin can read *)

Lemma matching_elem f ts ds d :
  matching f ts = Some ds → d ∈ ds →
  ts !! d.1 = Some d.2 ∧ ∃ a, matches f a d.2 = true.
Proof.
  unfold matching. intros Hm Hd.
  destruct (f_assignedTo f) as [s|].
  - destruct (Mongoose.castObjectId s) as [i|]; simplify_eq/=.
    apply list_elem_of_In, filter_In in Hd as [Hd Hp].
    apply list_elem_of_In in Hd. destruct d as [j t].
    apply elem_of_map_to_list in Hd. eauto.
  - simplify_eq/=.
    apply list_elem_of_In, filter_In in Hd as [Hd Hp].
    apply list_elem_of_In in Hd. destruct d as [j t].
    apply elem_of_map_to_list in Hd. eauto.
Qed.

Lemma skipDocs_drop {A} (n : Z) (l : list A) :
  skipDocs n l = drop (Z.to_nat n) l.
Proof.
  unfold skipDocs. destruct (Z.leb_spec (Z.of_nat (length l)) n); [|done].
  symmetry. apply drop_ge. lia.
Qed.

Lemma find_elem f skip lim ts found d :
  find f skip lim ts = Some found → d ∈ found →
  ∃ ds, matching f ts = Some ds ∧ d ∈ ds.
Proof.
  unfold find. intros Hf Hd.
  destruct (matching f ts) as [ds|]; simplify_eq/=.
  exists ds. split; [done|].
  rewrite skipDocs_drop in Hd. apply subseteq_take, subseteq_drop in Hd.
  by rewrite merge_sort_Permutation in Hd.
Qed.

Lemma matches_owner user q a t :
  role user ≠ "admin"%string →
  matches (listFilter user q) a t = true →
  assignedTo t = _id user ∨ createdBy t = _id user.
Proof.
  intros Ha%isAdmin_false. unfold matches, listFilter, ownerFilter. simpl.
  rewrite Ha. simpl. rewrite !andb_true_iff, !orb_true_iff.
  intros [[[[H|[H|H]] _] _] _]; [| |done]; apply String.eqb_eq in H; auto.
Qed.

(** C1. Whatever the query of [GET /] and whatever the id of
    [GET /:id], a task sent with success to a caller who is no admin is
    a stored task whose assignee or creator is the caller. *)
Theorem nonadmin_sees_only_own_tasks (user : ReqUser) (db : DB) :
  role user ≠ "admin"%string →
  (∀ q code message page p,
     listTasks user q db = Ok code message page →
     p ∈ page_tasks page →
     ∃ t, tasks db !! p_id p = Some t
          ∧ p = populate (users db) (p_id p, t)
          ∧ (assignedTo t = _id user ∨ createdBy t = _id user))
  ∧ (∀ id code message p,
       getTask user id db = Ok code message p →
       ∃ t, tasks db !! p_id p = Some t
            ∧ p = populate (users db) (p_id p, t)
            ∧ (assignedTo t = _id user ∨ createdBy t = _id user)).
Proof.
  intros Ha. split.
  - intros q code message page p Hl Hp.
    unfold listTasks in Hl.
    destruct (Validation.validatePagination q); [|done].
    unfold listTasksTry in Hl.
    destruct (find _ _ _ _) as [found|] eqn:Hf; [|done]. simpl in Hl.
    destruct (countDocuments _ _); [|done]. simplify_eq/=.
    apply list_elem_of_fmap in Hp as [[j t] [-> Hd]].
    destruct (find_elem _ _ _ _ _ _ Hf Hd) as [ds [Hm Hds]].
    destruct (matching_elem _ _ _ _ Hm Hds) as [Hj [a Hma]].
    exists t. simpl. eauto using matches_owner.
  - intros id code message p Hg.
    unfold getTask in Hg.
    destruct (Validation.validateObjectId id); [|done].
    unfold getTaskTry, findById in Hg.
    destruct (Mongoose.castObjectId id) as [i|]; [|done]. simpl in Hg.
    destruct (tasks db !! i) as [t|] eqn:Ht; [|done]. simpl in Hg.
    apply isAdmin_false in Ha. rewrite Ha in Hg. simpl in Hg.
    rewrite !refIsNot_populateRef in Hg.
    exists t.
    destruct (users db !! assignedTo t) as [ua|]; [|done]. simpl in Hg.
    destruct (String.eqb_spec (assignedTo t) (_id user)); simpl in Hg.
    { simplify_eq/=. auto. }
    destruct (users db !! createdBy t) as [uc|]; [|done]. simpl in Hg.
    destruct (String.eqb_spec (createdBy t) (_id user)); simpl in Hg.
    { simplify_eq/=. auto. }
    done.
Qed.

(** Bob's list holds one task, [task1], which he created. *)
Lemma nonadmin_sees_only_own_tasks_witness :
  ∃ page,
    listTasks (Fixture.asUser Fixture.bob) Fixture.noQuery Fixture.db
      = Ok 200 None page
    ∧ (p_id <$> page_tasks page) = [Fixture.task1]
    ∧ ∀ p, p ∈ page_tasks page →
        ∃ t, tasks Fixture.db !! p_id p = Some t
             ∧ p = populate (users Fixture.db) (p_id p, t)
             ∧ (assignedTo t = Fixture.bob ∨ createdBy t = Fixture.bob).
Proof.
  eexists. split; [vm_compute; reflexivity|]. split; [reflexivity|].
  intros p Hp.
  refine (proj1 (nonadmin_sees_only_own_tasks
    (Fixture.asUser Fixture.bob) Fixture.db _)
    Fixture.noQuery 200%nat None _ p _ Hp).
  - discriminate.
  - vm_compute. reflexivity.
Defined.

(** ** Statistics *)

Lemma matches_statsFilter user t :
  matches (statsFilter user) None t = Spec.visibleTo user t.
Proof.
  unfold matches, statsFilter, ownerFilter, Spec.visibleTo. simpl.
  destruct (isAdmin user); simpl; [done|].
  by rewrite !andb_true_r, orb_false_r.
Qed.

Lemma countIf_all ds : countIf (λ _, true) ds = Z.of_nat (length ds).
Proof.
  induction ds as [|d ds IH]; simpl; [done|]. unfold countIf in *. simpl. lia.
Qed.

Lemma countIf_statuses ds :
  (∀ d, d ∈ ds → status d.2 ∈ Validation.statuses) →
  countIf (λ t, String.eqb (status t) "pending") ds
  + countIf (λ t, String.eqb (status t) "in-progress") ds
  + countIf (λ t, String.eqb (status t) "completed") ds
  = countIf (λ _, true) ds.
Proof.
  induction ds as [|d ds IH]; intros Hin; [done|].
  assert (Hd : status d.2 ∈ Validation.statuses) by (apply Hin; left).
  specialize (IH (λ d' H', Hin d' (list_elem_of_further _ _ _ H'))).
  unfold countIf in *. simpl.
  unfold Validation.statuses in Hd.
  repeat (apply elem_of_cons in Hd as [->|Hd]); simpl; try lia.
  by apply elem_of_nil in Hd.
Qed.

Lemma group_result ds :
  default (mkStats 0 0 0 0 0 0 0) (head (group ds)) =
    {| st_total := countIf (λ _, true) ds;
       st_pending := countIf (λ t, String.eqb (status t) "pending") ds;
       st_inProgress := countIf (λ t, String.eqb (status t) "in-progress") ds;
       st_completed := countIf (λ t, String.eqb (status t) "completed") ds;
       st_highPriority := countIf (λ t, String.eqb (priority t) "high") ds;
       st_mediumPriority := countIf (λ t, String.eqb (priority t) "medium") ds;
       st_lowPriority := countIf (λ t, String.eqb (priority t) "low") ds |}.
Proof. by destruct ds. Qed.

(** The two ways a status gets into the collection keep it among the
    three of the schema. *)
Lemma enumPath_elem values s s' :
  enumPath values s = Some s' → s' ∈ values.
Proof.
  unfold enumPath, Validator.isIn.
  destruct (existsb _ _) eqn:E; [|done]. intros [= <-].
  apply existsb_exists in E as [v [Hv Heq]].
  apply String.eqb_eq in Heq as ->. by apply list_elem_of_In.
Qed.

Lemma validate_status now d t :
  validate now d = Some t → status t ∈ Validation.statuses.
Proof.
  unfold validate. intros H.
  repeat (apply bind_Some in H as [? [? H]]). simplify_eq/=.
  eauto using enumPath_elem.
Qed.

Lemma applyUpdate_status now b t t' :
  status t ∈ Validation.statuses →
  applyUpdate now b t = Some t' → status t' ∈ Validation.statuses.
Proof.
  unfold applyUpdate. intros Ht H.
  repeat (apply bind_Some in H as [? [? H]]). simplify_eq/=.
  destruct (b_status b); simplify_eq/=; eauto using enumPath_elem.
Qed.

(** C8. [GET /stats/overview] always answers 200; its [total] is the
    number of stored tasks the caller can see (all of them for an
    admin, those assigned to or created by the caller otherwise), and
    when each of these has one of the three statuses of the schema,
    [pending + inProgress + completed = total]. *)
Theorem stats_counts_add_up (user : ReqUser) (db : DB) :
  (∀ i t, tasks db !! i = Some t → Spec.visibleTo user t = true →
          status t ∈ Validation.statuses) →
  ∃ s, statsOverview user db = Ok 200 None s
       ∧ st_total s =
           Z.of_nat (length (List.filter (λ d, Spec.visibleTo user d.2)
                               (map_to_list (tasks db))))
       ∧ st_pending s + st_inProgress s + st_completed s = st_total s.
Proof.
  intros Hst.
  unfold statsOverview, statsOverviewTry, aggregate, matching. simpl.
  rewrite (filter_ext _ (λ d, Spec.visibleTo user d.2))
    by (intros; apply matches_statsFilter).
  set (ds := List.filter _ _).
  assert (Hds : ∀ d, d ∈ ds → status d.2 ∈ Validation.statuses).
  { intros [i t] Hd. apply list_elem_of_In, filter_In in Hd as [Hd Hv].
    apply list_elem_of_In, elem_of_map_to_list in Hd. eauto. }
  eexists. split; [reflexivity|].
  cbn [mbind option_bind fmap option_fmap option_map].
  rewrite group_result. simpl.
  split; [apply countIf_all|]. by apply countIf_statuses.
Qed.

(** Bob sees one task, and it is pending. *)
Lemma stats_counts_add_up_witness :
  ∃ s, statsOverview (Fixture.asUser Fixture.bob) Fixture.db = Ok 200 None s
       ∧ st_total s = 1
       ∧ st_pending s + st_inProgress s + st_completed s = st_total s.
Proof.
  destruct (stats_counts_add_up (Fixture.asUser Fixture.bob) Fixture.db)
    as [s [Hs [Ht Hsum]]].
  - change (map_Forall
      (λ _ t, Spec.visibleTo (Fixture.asUser Fixture.bob) t = true
              → status t ∈ Validation.statuses) (tasks Fixture.db)).
    apply (bool_decide_unpack _). vm_compute. exact I.
  - exists s. split; [exact Hs|]. split; [|exact Hsum].
    rewrite Ht. vm_compute. reflexivity.
Defined.

(** ** Pagination *)

Lemma check_optional_nil valid field message value :
  Validation.check true valid field message value = [] →
  ∀ s, value = Some s → valid s = true.
Proof.
  unfold Validation.check. intros H s ->. by destruct (valid s).
Qed.

(** Rounding to a double keeps an integer up to [2^53] and keeps a
    larger one large. *)
Lemma roundDouble_small n : Z.abs n ≤ 2 ^ 53 → Js.roundDouble n = n.
Proof.
  intros Hn. unfold Js.roundDouble.
  destruct (Z.ltb_spec (Z.abs n) (2 ^ 53)); [done|].
  assert (n = 2 ^ 53 ∨ n = - 2 ^ 53) as [-> | ->] by lia; by vm_compute.
Qed.

Lemma roundDouble_large n : 2 ^ 53 ≤ n → 2 ^ 53 ≤ Js.roundDouble n.
Proof.
  intros Hn. unfold Js.roundDouble.
  assert (H53 : 0 < 2 ^ 53) by done.
  rewrite (Z.abs_eq n), (Z.sgn_pos n), Z.mul_1_l by lia.
  destruct (Z.ltb_spec n (2 ^ 53)); [lia|].
  assert (Hlog : 53 ≤ Z.log2 n).
  { rewrite <- (Z.log2_pow2 53) by done. apply Z.log2_le_mono. lia. }
  set (e := Z.log2 n - 52).
  rewrite Z.shiftl_mul_pow2, Z.shiftr_div_pow2 by lia.
  assert (He : 2 ^ 1 ≤ 2 ^ e) by (apply Z.pow_le_mono_r; lia).
  assert (Hq : 2 ^ 52 ≤ n / 2 ^ e).
  { apply Z.div_le_lower_bound; [lia|].
    rewrite Z.mul_comm, <- Z.pow_add_r by lia.
    replace (52 + e) with (Z.log2 n) by lia.
    apply Z.log2_spec. lia. }
  change (2 ^ 1) with 2 in He. change (2 ^ 53) with (2 ^ 52 * 2).
  assert (H52 : 0 < 2 ^ 52) by done.
  destruct (_ || _); nia.
Qed.

Lemma roundDouble_opp n : Js.roundDouble (- n) = - Js.roundDouble n.
Proof.
  unfold Js.roundDouble. rewrite Z.abs_opp, Z.sgn_opp.
  destruct (Z.abs n <? 2 ^ 53); lia.
Qed.

Lemma roundDouble_ge lo n :
  - 2 ^ 53 < lo ≤ 2 ^ 53 → lo ≤ Js.roundDouble n ↔ lo ≤ n.
Proof.
  intros Hlo. assert (H53 : 0 < 2 ^ 53) by done.
  destruct (Z.le_gt_cases (Z.abs n) (2 ^ 53)) as [Hs|Hb].
  { by rewrite roundDouble_small. }
  destruct (Z.le_gt_cases 0 n).
  - pose proof (roundDouble_large n ltac:(lia)). lia.
  - pose proof (roundDouble_large (- n) ltac:(lia)) as Hl.
    rewrite roundDouble_opp in Hl. lia.
Qed.

Lemma roundDouble_le hi n :
  - 2 ^ 53 ≤ hi < 2 ^ 53 → Js.roundDouble n ≤ hi ↔ n ≤ hi.
Proof.
  intros Hhi. assert (H53 : 0 < 2 ^ 53) by done.
  destruct (Z.le_gt_cases (Z.abs n) (2 ^ 53)) as [Hs|Hb].
  { by rewrite roundDouble_small. }
  destruct (Z.le_gt_cases 0 n).
  - pose proof (roundDouble_large n ltac:(lia)). lia.
  - pose proof (roundDouble_large (- n) ltac:(lia)) as Hl.
    rewrite roundDouble_opp in Hl. lia.
Qed.

(** A string that [isInt] accepts denotes an integer within the
    bounds. *)
Lemma isInt_mathInt lo hi s :
  - 2 ^ 53 < lo ≤ 2 ^ 53 → (∀ m, hi = Some m → - 2 ^ 53 ≤ m < 2 ^ 53) →
  Validator.isInt lo hi s = true →
  ∃ n, Js.mathInt s = Some n ∧ lo ≤ n ∧ ∀ m, hi = Some m → n ≤ m.
Proof.
  unfold Validator.isInt, Js.parseInt. intros Hlo Hhi [_ H]%andb_true_iff.
  destruct (Js.mathInt s) as [n|]; [|done]. simpl in H.
  apply andb_true_iff in H as [H1 H2]. exists n.
  split; [done|]. split.
  - apply (roundDouble_ge lo n Hlo). lia.
  - intros m ->. apply (roundDouble_le m n (Hhi m eq_refl)). lia.
Qed.

Lemma numOr_bounds lo hi (value : option string) d :
  1 ≤ lo → lo ≤ d ≤ 2 ^ 53 → (∀ m, hi = Some m → d ≤ m < 2 ^ 53) →
  (∀ s, value = Some s → Validator.isInt lo hi s = true) →
  Js.numOr (value ≫= Js.parseInt) d
    = Js.roundDouble (default d (value ≫= Js.mathInt))
  ∧ lo ≤ default d (value ≫= Js.mathInt)
  ∧ ∀ m, hi = Some m → default d (value ≫= Js.mathInt) ≤ m.
Proof.
  intros Hlo Hd Hhi Hv. assert (H53 : 0 < 2 ^ 53) by done.
  destruct value as [s|]; simpl.
  - destruct (isInt_mathInt lo hi s) as [n [Hn [Hn1 Hn2]]];
      [lia|intros m E; specialize (Hhi m E); lia|auto|].
    unfold Js.parseInt. rewrite Hn. simpl.
    pose proof (proj2 (roundDouble_ge lo n ltac:(lia)) Hn1).
    destruct (Z.eqb_spec (Js.roundDouble n) 0); [lia|]. auto.
  - rewrite roundDouble_small by lia. split; [done|]. split; [lia|].
    intros m E. specialize (Hhi m E). lia.
Qed.

Lemma validatePagination_bounds q :
  Validation.validatePagination q = [] →
  let p := default 1 (q_page q ≫= Js.mathInt) in
  let l := default 10 (q_limit q ≫= Js.mathInt) in
  1 ≤ p ∧ 1 ≤ l ≤ 100
  ∧ Js.numOr (q_page q ≫= Js.parseInt) 1 = Js.roundDouble p
  ∧ Js.numOr (q_limit q ≫= Js.parseInt) 10 = l.
Proof.
  unfold Validation.validatePagination. intros [Hp Hl]%app_eq_nil.
  pose proof (check_optional_nil _ _ _ _ Hp) as Hp'.
  pose proof (check_optional_nil _ _ _ _ Hl) as Hl'.
  assert (H53 : 100 < 2 ^ 53) by done.
  destruct (numOr_bounds 1 None (q_page q) 1) as (Ep & ? & _);
    [lia|lia|done|done|].
  destruct (numOr_bounds 1 (Some 100) (q_limit q) 10) as (El & ? & Hm);
    [lia|lia|intros ? [= <-]; lia|done|].
  specialize (Hm 100 eq_refl). cbv zeta.
  rewrite Ep, El, (roundDouble_small (default 10 _)) by lia. auto with lia.
Qed.

(** The number of skipped documents is exact while it stays within
    [2^53]. *)
Lemma skip_exact p l :
  1 ≤ p → 1 ≤ l → p * l ≤ 2 ^ 53 →
  Js.roundDouble p = p ∧ Js.mul (Js.sub p 1) l = (p - 1) * l.
Proof.
  intros Hp Hl Hb. unfold Js.mul, Js.sub.
  assert (Hpl : p ≤ p * l ∧ 0 ≤ (p - 1) * l ≤ p * l) by nia.
  by rewrite (roundDouble_small p), (roundDouble_small (p - 1)),
    (roundDouble_small ((p - 1) * l)) by lia.
Qed.

Lemma ceilDiv_spec a b :
  0 < b → (ceilDiv a b - 1) * b < a ≤ ceilDiv a b * b.
Proof.
  intros Hb. unfold ceilDiv.
  pose proof (Z.div_mod (- a) b) as Hdm.
  pose proof (Z.mod_pos_bound (- a) b Hb). nia.
Qed.

#[local] Instance newerFirst_trans : Transitive newerFirst.
Proof. unfold newerFirst. intros x y z. lia. Qed.

#[local] Instance newerFirst_total : Total newerFirst.
Proof. unfold newerFirst. intros x y. lia. Qed.

Lemma page_length {A} (xs : list A) (p l : Z) :
  1 ≤ p → 1 ≤ l →
  length (take (Z.to_nat l) (drop (Z.to_nat ((p - 1) * l)) xs)) =
    (Z.to_nat (Z.min (p * l) (Z.of_nat (length xs)))
     - Z.to_nat ((p - 1) * l))%nat.
Proof.
  intros Hp Hl. rewrite length_take, length_drop. nia.
Qed.

Lemma page_lookup {A} (xs : list A) (n first k : nat) :
  (k < n)%nat → take n (drop first xs) !! k = xs !! (first + k)%nat.
Proof. intros Hk. by rewrite lookup_take_lt, lookup_drop. Qed.

(** C7, as the code has it.  A page number is a double, so the page
    asked for is the page served as long as the numbers of the route
    are exact: page times limit at most [2^53].  Then, when the query
    passes [validatePagination] and the filter can be cast, [GET /]
    answers 200 with: [current] the page asked for (1 when none is
    given), [limit] the limit asked for (10 when none is given,
    between 1 and 100), [total] the number of matching tasks, [pages]
    the least [n] with [total <= n * limit], that is
    [ceil(total / limit)], and the tasks at positions
    [(current - 1) * limit] to [min (current * limit) total - 1] of the
    matching tasks sorted by creation time, newest first.  With 25
    matches and a limit of 10 there are 3 pages, and page 3 has 5
    tasks. *)
Theorem list_pagination (user : ReqUser) (q : Query) (db : DB)
    (docs : list (ObjectId * Task)) :
  Validation.validatePagination q = [] →
  matching (listFilter user q) (tasks db) = Some docs →
  default 1 (q_page q ≫= Js.mathInt) * default 10 (q_limit q ≫= Js.mathInt)
    ≤ 2 ^ 53 →
  ∃ (p l n : Z) (sorted : list (ObjectId * Task)),
    let total := Z.of_nat (length docs) in
    let first := Z.to_nat ((p - 1) * l) in
    let page := take (Z.to_nat l) (drop first sorted) in
    p = default 1 (q_page q ≫= Js.mathInt)
    ∧ l = default 10 (q_limit q ≫= Js.mathInt)
    ∧ 1 ≤ p ∧ 1 ≤ l ≤ 100
    ∧ sorted ≡ₚ docs ∧ StronglySorted newerFirst sorted
    ∧ listTasks user q db =
        Ok 200 None
          {| page_tasks := populate (users db) <$> page;
             pagination :=
               {| current := p; pages := n; total := total; limit := l |} |}
    ∧ (n - 1) * l < total ≤ n * l
    ∧ length page = (Z.to_nat (Z.min (p * l) total) - first)%nat
    ∧ (∀ k, (k < Z.to_nat l)%nat → page !! k = sorted !! (first + k)%nat)
    ∧ (total = 25 → l = 10 → n = 3 ∧ (p = 3 → length page = 5%nat)).
Proof.
  intros Hv Hm Hb.
  destruct (validatePagination_bounds q Hv) as (Hp1 & Hl1 & Ep & El).
  set (p := default 1 (q_page q ≫= Js.mathInt)) in *.
  set (l := default 10 (q_limit q ≫= Js.mathInt)) in *.
  destruct (skip_exact p l) as [Er Es]; [lia..|].
  exists p, l, (ceilDiv (Z.of_nat (length docs)) l),
    (merge_sort newerFirst docs).
  pose proof (ceilDiv_spec (Z.of_nat (length docs)) l) as Hc.
  pose proof (merge_sort_Permutation newerFirst docs) as Hperm.
  pose proof (page_length (merge_sort newerFirst docs) p l) as Hlen.
  rewrite (Permutation_length Hperm) in Hlen.
  specialize (Hc ltac:(lia)). specialize (Hlen ltac:(lia) ltac:(lia)).
  cbv zeta. split_and!; try done; try lia.
  - by apply StronglySorted_merge_sort; apply _.
  - unfold listTasks. rewrite Hv. unfold listTasksTry, find, countDocuments.
    rewrite Hm, Ep, El, Er, Es. cbn [mbind option_bind].
    rewrite skipDocs_drop. reflexivity.
  - intros k Hk. by apply page_lookup.
Qed.

(** Page 3 of alice's 25 tasks, ten to a page. *)
Lemma list_pagination_witness :
  ∃ page,
    listTasks (Fixture.asUser Fixture.alice) Fixture.page3
      (mkDB Fixture.someUsers (Fixture.manyTasks 25)) = Ok 200 None page
    ∧ pagination page = mkPagination 3 3 25 10
    ∧ length (page_tasks page) = 5%nat.
Proof.
  edestruct (list_pagination (Fixture.asUser Fixture.alice) Fixture.page3
    (mkDB Fixture.someUsers (Fixture.manyTasks 25)))
    as (p & l & n & sorted & Hp & Hl & _ & _ & _ & _ & Hr & _ & _ & _ & H25).
  - vm_compute. reflexivity.
  - vm_compute. reflexivity.
  - vm_compute. discriminate.
  - vm_compute in Hp, Hl. subst p l.
    destruct (H25 eq_refl eq_refl) as [-> H5].
    eexists. split; [exact Hr|]. split; [reflexivity|].
    simpl. rewrite length_fmap. exact (H5 eq_refl).
Defined.

(** The page after [2^53]: the query passes [validatePagination], the
    answer is the 200, and [current] is [2^53], not the page asked
    for. *)
Lemma list_far_page_not_echoed :
  Validation.validatePagination Fixture.farPage = []
  ∧ (q_page Fixture.farPage ≫= Js.mathInt) = Some 9007199254740993
  ∧ listTasks (Fixture.asUser Fixture.alice) Fixture.farPage Fixture.db
    = Ok 200 None
        {| page_tasks := [];
           pagination := mkPagination 9007199254740992 1 2 10 |}
  ∧ 9007199254740992 ≠ 9007199254740993.
Proof. vm_compute. split_and!; [reflexivity..|discriminate]. Qed.

(** ** Trimming and the schema's paths *)

Lemma dropSpaces_clean l : startsClean (Js.dropSpaces l).
Proof.
  induction l as [|c l IH]; simpl; [done|].
  by destruct (Js.isSpace c) eqn:E.
Qed.

Lemma dropSpaces_id l : startsClean l → Js.dropSpaces l = l.
Proof. destruct l as [|c l]; simpl; [done|]. by intros ->. Qed.

Lemma dropSpaces_snoc l c :
  Js.isSpace c = false → Js.dropSpaces (l ++ [c]) = Js.dropSpaces l ++ [c].
Proof.
  intros Hc. induction l as [|d l IH]; simpl; [by rewrite Hc|].
  by destruct (Js.isSpace d).
Qed.

Lemma trimChars_clean l : startsClean l → startsClean (Js.trimChars l).
Proof.
  unfold Js.trimChars. intros Hl. rewrite (dropSpaces_id l Hl).
  destruct l as [|c l]; simpl; [done|]. simpl in Hl.
  rewrite dropSpaces_snoc by done. by rewrite rev_app_distr.
Qed.

Lemma trimChars_idemp l : Js.trimChars (Js.trimChars l) = Js.trimChars l.
Proof.
  assert (H1 : startsClean (Js.trimChars l)).
  { unfold Js.trimChars at 1.
    pose proof (trimChars_clean (Js.dropSpaces l) (dropSpaces_clean l)) as H.
    unfold Js.trimChars in H.
    by rewrite (dropSpaces_id (Js.dropSpaces l)) in H by apply dropSpaces_clean. }
  unfold Js.trimChars at 1. rewrite (dropSpaces_id _ H1).
  unfold Js.trimChars. rewrite rev_involutive.
  rewrite (dropSpaces_id (Js.dropSpaces _)) by apply dropSpaces_clean.
  done.
Qed.

Lemma trim_idemp s : Js.trim (Js.trim s) = Js.trim s.
Proof.
  unfold Js.trim. by rewrite list_ascii_of_string_of_list_ascii, trimChars_idemp.
Qed.

Lemma textPath_trimmed n s :
  Validator.isLength 1 n (Js.trim s) = true →
  textPath n (Some (Js.trim s)) = Some (Js.trim s).
Proof.
  unfold Validator.isLength, textPath. rewrite trim_idemp.
  intros [H1 H2]%andb_true_iff. rewrite H2.
  destruct (Js.trim s); [done|]. done.
Qed.

Lemma enumPath_isIn values s :
  Validator.isIn values s = true → enumPath values s = Some s.
Proof. unfold enumPath. by intros ->. Qed.

Lemma whenTruthy_id s j :
  Mongoose.castObjectId s = Some j → Js.whenTruthy (Some s) = Some s.
Proof.
  intros H%castObjectId_isMongoId. unfold Validator.isMongoId in H.
  apply andb_true_iff in H as [H _]. by destruct s.
Qed.

Ltac fields :=
  cbn [Validation.sanitize b_title b_description b_status b_priority
       b_dueDate b_assignedTo b_createdBy b_others
       fmap option_fmap option_map].

Lemma datePath_Some now d d' : datePath now d = Some d' → d' = d.
Proof. unfold datePath. by destruct (dueDateValidator now d); intros [= <-]. Qed.

Lemma datePath_earlier now1 now2 d :
  now1 ≤ now2 → is_Some (datePath now2 d) → is_Some (datePath now1 d).
Proof.
  unfold datePath, dueDateValidator. intros Hle.
  destruct d as [v|]; [|by eauto].
  destruct (Z.ltb_spec now2 v); [|by intros [? [=]]].
  destruct (Z.ltb_spec now1 v); [by eauto|lia].
Qed.

(** A later clock does not let through an update that an earlier one
    refuses. *)
Lemma applyUpdate_earlier now1 now2 b t :
  now1 ≤ now2 →
  is_Some (applyUpdate now2 b t) → is_Some (applyUpdate now1 b t).
Proof.
  intros Hle [t2 H]. unfold applyUpdate in *.
  repeat (apply bind_Some in H as [? [? H]]).
  assert (Hd : is_Some (match b_dueDate b with
                        | Some d => datePath now1 d
                        | None => Some (dueDate t) end)).
  { destruct (b_dueDate b); [|by eauto].
    eapply datePath_earlier; eauto. }
  destruct Hd as [due Hd].
  repeat match goal with E : _ = Some _ |- _ => rewrite E; clear E end.
  simpl. eauto.
Qed.

(** Applying an update to its own result changes [updatedAt] at
    most. *)
Lemma applyUpdate_again now1 now2 b t t1 t2 :
  applyUpdate now1 b t = Some t1 →
  applyUpdate now2 b t1 = Some t2 →
  Spec.withoutUpdatedAt t2 = Spec.withoutUpdatedAt t1.
Proof.
  unfold applyUpdate. intros H1 H2.
  repeat (apply bind_Some in H1 as [? [? H1]]).
  repeat (apply bind_Some in H2 as [? [? H2]]).
  simplify_eq/=. unfold Spec.withoutUpdatedAt. simpl.
  destruct (b_title b), (b_description b), (b_status b), (b_priority b),
    (b_dueDate b), (b_assignedTo b), (b_createdBy b);
    repeat match goal with
      | E : datePath _ _ = Some _ |- _ => apply datePath_Some in E
      end;
    by simplify_eq/=.
Qed.

(** ** Writing: creation and update *)

Section WriteProperties.

Variable isISO8601 : string → bool.
Variable toDate : string → option Z.
Variable updateWithOthers : Z → ObjectId → Body (option Z) → Task → option Task.

Local Abbreviation validateTaskUpdate := (Validation.validateTaskUpdate isISO8601 toDate).
Local Abbreviation validateTaskCreation := (Validation.validateTaskCreation isISO8601 toDate).
Local Abbreviation sanitize := (Validation.sanitize toDate).
Local Abbreviation updateTask := (Routes.updateTask isISO8601 toDate updateWithOthers).
Local Abbreviation createTask := (Routes.createTask isISO8601 toDate).

Lemma checkOptionalFields_nil body :
  Validation.checkOptionalFields isISO8601 body = [] →
  (∀ s, b_status body = Some s → Validator.isIn Validation.statuses s = true)
  ∧ (∀ s, b_priority body = Some s →
          Validator.isIn Validation.priorities s = true)
  ∧ (∀ s, b_dueDate body = Some s → isISO8601 s = true)
  ∧ (∀ s, b_assignedTo body = Some s → Validator.isMongoId s = true).
Proof.
  unfold Validation.checkOptionalFields.
  intros [H1 [H2 [H3 H4]%app_eq_nil]%app_eq_nil]%app_eq_nil.
  eauto 10 using check_optional_nil.
Qed.


Lemma updateTask_validated now user id i body db :
  Mongoose.castObjectId id = Some i →
  (validateTaskUpdate body).1 = [] →
  updateTask now user id body db =
    default (serverError "updating task", db)
      (updateTaskTry updateWithOthers now user id (sanitize false body) db).
Proof.
  intros Hc Hv. unfold Routes.updateTask.
  rewrite (castObjectId_validates _ _ Hc).
  unfold Validation.validateTaskUpdate in *. simpl in Hv. by rewrite Hv.
Qed.


(** A body without other members is updated field by field. *)
Lemma updateDocument_plain now i (b : Body string) t :
  b_others b = [] →
  updateDocument updateWithOthers now i (sanitize false b) t
    = applyUpdate now (sanitize false b) t.
Proof. unfold updateDocument. fields. by intros ->. Qed.

(** The permission check of [PUT /:id]. *)
Lemma update_denied_false user t :
  negb (isAdmin user) && negb (String.eqb (createdBy t) (_id user))
    && negb (String.eqb (assignedTo t) (_id user)) = false
  ↔ role user = "admin"%string ∨ createdBy t = _id user
    ∨ assignedTo t = _id user.
Proof.
  rewrite <- isAdmin_true.
  destruct (isAdmin user), (String.eqb_spec (createdBy t) (_id user)),
    (String.eqb_spec (assignedTo t) (_id user)); simpl; intuition congruence.
Qed.

Lemma updateTaskTry_found now user id i t b db :
  Mongoose.castObjectId id = Some i →
  tasks db !! i = Some t →
  updateTaskTry updateWithOthers now user id b db =
    if negb (isAdmin user) && negb (String.eqb (createdBy t) (_id user))
       && negb (String.eqb (assignedTo t) (_id user))
    then Some (Fail 403 "Access denied", db)
    else updateChecked updateWithOthers now i t b db.
Proof.
  intros Hc Ht. unfold updateTaskTry, updateChecked.
  rewrite (findById_cast _ _ _ Hc), Ht. simpl.
  destruct (negb (isAdmin user) && _ && _); [done|].
  fold (assigneeMissing t b db).
  destruct (assigneeMissing t b db) as [[|]|]; simpl; try done.
  unfold findByIdAndUpdate. rewrite Hc. simpl. rewrite Ht. simpl.
  by destruct (updateDocument _ now i b t).
Qed.



(** A request whose [assignedTo] is an ObjectId of no user is answered
    with a 400 and the database is as it was: by [POST /] always, by
    [PUT /:id] when the task exists, the caller is let through and the
    id differs from the task's assignee.  When the body passes the
    validators, the answer is the bad-reference 400 of the handler. *)
Lemma missing_assignee_rejected (now : Z) (newId : ObjectId)
    (user : ReqUser) (id : string) (i : ObjectId) (t : Task)
    (body : Body string) (db : DB) (s : string) (j : ObjectId) :
  b_assignedTo body = Some s →
  Mongoose.castObjectId s = Some j →
  users db !! j = None →
  (let r := createTask now newId user body db in
   statusCode r.1 = 400%nat ∧ r.2 = db
   ∧ ((validateTaskCreation body).1 = [] →
      r.1 = Fail 400 "Assigned user not found"))
  ∧ (Mongoose.castObjectId id = Some i →
     tasks db !! i = Some t →
     role user = "admin"%string ∨ createdBy t = _id user
       ∨ assignedTo t = _id user →
     s ≠ assignedTo t →
     let r := updateTask now user id body db in
     statusCode r.1 = 400%nat ∧ r.2 = db
     ∧ ((validateTaskUpdate body).1 = [] →
        r.1 = Fail 400 "Assigned user not found")).
Proof.
  intros Hs Hj Hu. split.
  - unfold Routes.createTask, Validation.validateTaskCreation. simpl.
    destruct (_ ++ _) as [|e errors]; [|done].
    unfold createTaskTry. fields. rewrite Hs, (whenTruthy_id _ _ Hj).
    rewrite (findById_cast _ _ _ Hj), Hu. done.
  - intros Hc Ht Ha Hne. simpl.
    unfold Routes.updateTask. rewrite (castObjectId_validates _ _ Hc).
    unfold Validation.validateTaskUpdate.
    destruct (_ ++ _) as [|e errors]; [|done].
    rewrite (updateTaskTry_found _ _ _ _ _ _ _ Hc Ht).
    apply update_denied_false in Ha. rewrite Ha.
    unfold updateChecked, assigneeMissing. fields.
    rewrite Hs, (whenTruthy_id _ _ Hj).
    apply String.eqb_neq in Hne. rewrite Hne. simpl.
    rewrite (findById_cast _ _ _ Hj), Hu. done.
Qed.

(** C5 at the failing inputs.  [prefixed] is a string of 24 characters
    that [isMongoId] accepts and that is no ObjectId.  Bob asks for a
    new task assigned to it, then to give [task1], which he created,
    to it: both bodies pass the validators, the lookup of the user
    throws, and the answer is the 500, not the 400.  Then he sends
    [{ $set: { assignedTo: ghost } }] to [PUT /:id], where [ghost] is
    the id of no user: the validators and the check of the assignee
    look at the member [assignedTo] of the body only, there is none,
    and the body goes to [findByIdAndUpdate] as it is; the answer is
    the 200 with what that stores, or the 500 if it throws, and it is
    not the 400. *)
Theorem missing_assignee_not_rejected :
  let now := Fixture.y2024 in
  let bob := Fixture.asUser Fixture.bob in
  let t1 := mkTask "one" "first" "pending" "low" None Fixture.alice
              Fixture.bob 100 100 in
  let bySet := updateTask now bob Fixture.task1 Fixture.setToGhost Fixture.db in
  Validator.isMongoId Fixture.prefixed = true
  ∧ Mongoose.castObjectId Fixture.prefixed = None
  ∧ (validateTaskCreation Fixture.forPrefixed).1 = []
  ∧ createTask now Fixture.task3 bob Fixture.forPrefixed Fixture.db
    = (Fail 500 "Server error while creating task", Fixture.db)
  ∧ (validateTaskUpdate Fixture.giveToPrefixed).1 = []
  ∧ updateTask now bob Fixture.task1 Fixture.giveToPrefixed Fixture.db
    = (Fail 500 "Server error while updating task", Fixture.db)
  ∧ users Fixture.db !! Fixture.ghost = None
  ∧ (validateTaskUpdate Fixture.setToGhost).1 = []
  ∧ bySet =
      match updateWithOthers now Fixture.task1
              (sanitize false Fixture.setToGhost) t1 with
      | Some t' =>
          (Ok 200 (Some "Task updated successfully"%string)
             (Some (populate (users Fixture.db) (Fixture.task1, t'))),
           mkDB (users Fixture.db) (<[Fixture.task1 := t']> (tasks Fixture.db)))
      | None => (Fail 500 "Server error while updating task", Fixture.db)
      end
  ∧ statusCode bySet.1 ≠ 400%nat.
Proof.
  intros now bob t1 bySet.
  assert (Hset : bySet =
      match updateWithOthers now Fixture.task1
              (sanitize false Fixture.setToGhost) t1 with
      | Some t' =>
          (Ok 200 (Some "Task updated successfully"%string)
             (Some (populate (users Fixture.db) (Fixture.task1, t'))),
           mkDB (users Fixture.db) (<[Fixture.task1 := t']> (tasks Fixture.db)))
      | None => (Fail 500 "Server error while updating task", Fixture.db)
      end).
  { subst bySet.
    rewrite (updateTask_validated now bob Fixture.task1 Fixture.task1)
      by (by vm_compute).
    rewrite (updateTaskTry_found now bob Fixture.task1 Fixture.task1 t1)
      by (by vm_compute).
    change (negb (isAdmin bob) && _ && _) with false. cbv iota.
    unfold updateChecked.
    change (assigneeMissing t1 _ Fixture.db) with (Some false).
    cbn [mbind option_bind]. unfold updateDocument. fields.
    by destruct (updateWithOthers _ _ _ _). }
  split_and!; try (by vm_compute).
  rewrite Hset. by destruct (updateWithOthers _ _ _ _).
Qed.

(** What [PUT /:id] leaves in the database: either nothing depends on
    the clock and the database is as it was, or the route reaches
    [findByIdAndUpdate] on a task [t] and the outcome is that of
    applying the update to [t]. *)
Lemma updateTask_database user id body db :
  (∀ now, (updateTask now user id body db).2 = db)
  ∨ ∃ i t,
      Mongoose.castObjectId id = Some i ∧ tasks db !! i = Some t
      ∧ ∀ now,
          (updateTask now user id body db).2 =
            match updateDocument updateWithOthers now i
                    (sanitize false body) t with
            | Some t' => mkDB (users db) (<[i := t']> (tasks db))
            | None => db
            end.
Proof.
  unfold Routes.updateTask.
  destruct (Validation.validateObjectId id) eqn:Hid; [|by left].
  unfold Validation.validateTaskUpdate.
  destruct (_ ++ _) as [|e errors]; [|by left].
  destruct (Mongoose.castObjectId id) as [i|] eqn:Hc.
  2: { left. intros now. unfold updateTaskTry, findById. by rewrite Hc. }
  destruct (tasks db !! i) as [t|] eqn:Ht.
  2: { left. intros now. unfold updateTaskTry.
       by rewrite (findById_cast _ _ _ Hc), Ht. }
  assert (Hf : ∀ now b, updateTaskTry updateWithOthers now user id b db = _)
    by (intros now b; exact (updateTaskTry_found now user id i t b db Hc Ht)).
  destruct (negb (isAdmin user) && _ && _).
  { left. intros now. by rewrite Hf. }
  unfold updateChecked in Hf.
  destruct (assigneeMissing t (sanitize false body) db) as [[|]|] eqn:Hm.
  1, 3: left; intros now; by rewrite Hf, Hm.
  right. exists i, t. split_and!; [done..|].
  intros now. rewrite Hf, Hm. simpl. by destruct (updateDocument _ _ _ _ _).
Qed.

(** C9, as the code has it.  After the same [PUT /:id] request, with
    a payload made of the schema's fields, has run twice, the second
    time no earlier than the first, the users are the same and every
    stored task is the same in all fields but [updatedAt], which each
    successful update sets to its own time. *)
Theorem update_twice_differs_in_updatedAt_only (now1 now2 : Z)
    (user : ReqUser) (id : string) (body : Body string) (db : DB) :
  b_others body = [] →
  now1 ≤ now2 →
  let db1 := (updateTask now1 user id body db).2 in
  let db2 := (updateTask now2 user id body db1).2 in
  users db2 = users db1
  ∧ ∀ k, Spec.withoutUpdatedAt <$> tasks db2 !! k
         = Spec.withoutUpdatedAt <$> tasks db1 !! k.
Proof.
  intros Hplain Hle db1 db2. subst db2 db1.
  destruct (updateTask_database user id body db)
    as [Hsame|(i & t & Hc & Ht & Hupd)].
  { by rewrite !Hsame. }
  rewrite (Hupd now1), updateDocument_plain by done.
  destruct (applyUpdate now1 (sanitize false body) t) as [t1|] eqn:H1.
  2: { rewrite (Hupd now2), updateDocument_plain by done.
       destruct (applyUpdate now2 _ t) as [t2|] eqn:H2; [|done].
       destruct (applyUpdate_earlier now1 now2 (sanitize false body) t Hle)
         as [? ?]; [by eauto|].
       congruence. }
  set (db1 := mkDB (users db) (<[i := t1]> (tasks db))).
  destruct (updateTask_database user id body db1)
    as [Hsame|(i' & t' & Hc' & Ht' & Hupd')].
  { by rewrite Hsame. }
  rewrite (Hupd' now2), updateDocument_plain by done.
  assert (i' = i) as -> by congruence.
  assert (t' = t1) as ->.
  { subst db1. simpl in Ht'. rewrite lookup_insert_eq in Ht'. congruence. }
  destruct (applyUpdate now2 _ t1) as [t2|] eqn:H2; [|done].
  split; [done|]. intros k. subst db1. simpl.
  destruct (decide (k = i)) as [->|Hne].
  - rewrite !lookup_insert_eq. simpl. f_equal.
    eapply applyUpdate_again; eauto.
  - by rewrite !lookup_insert_ne.
Qed.

(** *** Creation *)

Lemma check_required_nil valid field message value :
  valid ""%string = false →
  Validation.check false valid field message value = [] →
  ∃ s, value = Some s ∧ valid s = true.
Proof.
  unfold Validation.check. intros He H. destruct value as [s|].
  - exists s. by destruct (valid s).
  - by rewrite He in H.
Qed.

Lemma validateTaskCreation_nil body :
  (validateTaskCreation body).1 = [] →
  (∃ s, b_title body = Some s ∧ Validator.isLength 1 100 (Js.trim s) = true)
  ∧ (∃ s, b_description body = Some s
          ∧ Validator.isLength 1 500 (Js.trim s) = true)
  ∧ Validation.checkOptionalFields isISO8601 body = [].
Proof.
  unfold Validation.validateTaskCreation. simpl.
  intros [H1 [H2 H3]%app_eq_nil]%app_eq_nil.
  split_and!; [| |done].
  - by apply (check_required_nil
      (λ s, Validator.isLength 1 100 (Js.trim s)) _ _ _ eq_refl) in H1.
  - by apply (check_required_nil
      (λ s, Validator.isLength 1 500 (Js.trim s)) _ _ _ eq_refl) in H2.
Qed.

Lemma createTask_validated now newId user body db :
  (validateTaskCreation body).1 = [] →
  createTask now newId user body db =
    default (serverError "creating task", db)
      (createTaskTry now newId user (sanitize true body) db).
Proof.
  intros Hv. unfold Routes.createTask.
  unfold Validation.validateTaskCreation in *. simpl in Hv. by rewrite Hv.
Qed.

(** The value of [status || 'pending'] and of [priority || 'medium']
    for a validated body is in the enum. *)
Lemma strOr_enum values (value : option string) d :
  Validator.isIn values d = true →
  (∀ s, value = Some s → Validator.isIn values s = true) →
  Validator.isIn values ""%string = false →
  enumPath values (Js.strOr value d) = Some (Js.strOr value d).
Proof.
  intros Hd Hv He. apply enumPath_isIn. unfold Js.strOr.
  destruct value as [s|]; [|done].
  destruct (String.eqb_spec s ""); [done|]. auto.
Qed.

(** The assignee that [POST /] settles on when the one asked for, if
    any, exists. *)
Lemma createTask_assignee user (body : Body string) db :
  (∀ a, b_assignedTo body = Some a →
        ∃ j, Mongoose.castObjectId a = Some j ∧ is_Some (users db !! j)) →
  ∃ ref i,
    match Js.whenTruthy (b_assignedTo body) with
    | Some requested =>
        found ← findById requested (users db);
        match found with
        | None => Some (inl (Fail (A := PopulatedTask) 400
                               "Assigned user not found"))
        | Some _ => Some (inr (RefString requested))
        end
    | None => Some (inr (RefId (_id user)))
    end = Some (inr ref)
    ∧ refPath ref = Some i.
Proof.
  intros Hex. destruct (b_assignedTo body) as [a|] eqn:Ha.
  - destruct (Hex a eq_refl) as (j & Hj & [u Hu]).
    rewrite (whenTruthy_id _ _ Hj), (findById_cast _ _ _ Hj), Hu.
    simpl. eauto.
  - simpl. eauto.
Qed.

(** What [POST /] does with a body that passes the validators and
    whose assignee, if one is asked for, is an ObjectId of a user: the
    task is stored
    when the due date passes the schema's validator and the new id is
    free, and the answer is the 500 otherwise. *)
Lemma createTask_outcome now newId user body db :
  (validateTaskCreation body).1 = [] →
  (∀ a, b_assignedTo body = Some a →
        ∃ j, Mongoose.castObjectId a = Some j ∧ is_Some (users db !! j)) →
  ∃ ti de a,
    createTask now newId user body db =
      match datePath now (mjoin (toDate <$> b_dueDate body)),
            tasks db !! newId with
      | Some due, None =>
          let t := mkTask ti de (Js.strOr (b_status body) "pending")
                     (Js.strOr (b_priority body) "medium") due a (_id user)
                     now now in
          (Ok 201 (Some "Task created successfully"%string)
             (populate (users db) (newId, t)),
           mkDB (users db) (<[newId := t]> (tasks db)))
      | _, _ => (Fail 500 "Server error while creating task", db)
      end.
Proof.
  intros Hv Hex. rewrite (createTask_validated _ _ _ _ _ Hv).
  apply validateTaskCreation_nil in Hv as ([ti [Hti Hlt]] & [de [Hde Hld]] & Ho).
  apply checkOptionalFields_nil in Ho as (Hs & Hp & _ & _).
  destruct (createTask_assignee user body db Hex) as (ref & a & Hch & Hra).
  exists (Js.trim ti), (Js.trim de), a.
  unfold createTaskTry. fields. rewrite Hch. simpl.
  unfold save, validate. simpl. rewrite Hti, Hde.
  rewrite (textPath_trimmed _ _ Hlt), (textPath_trimmed _ _ Hld). simpl.
  rewrite (strOr_enum Validation.statuses (b_status body) "pending"
             eq_refl Hs eq_refl).
  rewrite (strOr_enum Validation.priorities (b_priority body) "medium"
             eq_refl Hp eq_refl).
  simpl. rewrite Hra.
  destruct (datePath now _) as [due|]; simpl; [|done].
  by destruct (tasks db !! newId).
Qed.

Lemma create_past_dueDate now newId user body db s d :
  (validateTaskCreation body).1 = [] →
  (∀ a, b_assignedTo body = Some a →
        ∃ j, Mongoose.castObjectId a = Some j ∧ is_Some (users db !! j)) →
  b_dueDate body = Some s → toDate s = Some d → d ≤ now →
  createTask now newId user body db =
    (Fail 500 "Server error while creating task", db).
Proof.
  intros Hv Hex Hs Hd Hle.
  destruct (createTask_outcome now newId user body db Hv Hex)
    as (ti & de & a & ->).
  rewrite Hs. simpl. rewrite Hd. simpl.
  unfold datePath, dueDateValidator.
  by destruct (Z.ltb_spec now d); [lia|].
Qed.

Lemma create_without_dueDate now newId user body db :
  (validateTaskCreation body).1 = [] →
  (∀ a, b_assignedTo body = Some a →
        ∃ j, Mongoose.castObjectId a = Some j ∧ is_Some (users db !! j)) →
  b_dueDate body = None →
  tasks db !! newId = None →
  ∃ t, createTask now newId user body db =
         (Ok 201 (Some "Task created successfully"%string)
            (populate (users db) (newId, t)),
          mkDB (users db) (<[newId := t]> (tasks db)))
       ∧ dueDate t = None ∧ createdBy t = _id user.
Proof.
  intros Hv Hex Hd Hfree.
  destruct (createTask_outcome now newId user body db Hv Hex)
    as (ti & de & a & ->).
  rewrite Hd, Hfree. simpl. eauto.
Qed.

(** A task that [POST /] stores has the caller as its creator,
    whatever the body says. *)
Lemma createTask_createdBy now newId user body db code message p db' :
  createTask now newId user body db = (Ok code message p, db') →
  ∃ t, tasks db' !! newId = Some t ∧ createdBy t = _id user.
Proof.
  unfold Routes.createTask.
  destruct (Validation.validateTaskCreation _ _ _) as [[|e errors] b];
    [|done].
  unfold createTaskTry.
  assert (Hch : ∃ o : option (Response PopulatedTask + RefValue),
    match Js.whenTruthy (b_assignedTo b) with
    | Some requested =>
        found ← findById requested (users db);
        match found with
        | None => Some (inl (Fail 400 "Assigned user not found"))
        | Some _ => Some (inr (RefString requested))
        end
    | None => Some (inr (RefId (_id user)))
    end = o
    ∧ (o = None ∨ o = Some (inl (Fail 400 "Assigned user not found"))
       ∨ ∃ ref, o = Some (inr ref))).
  { destruct (Js.whenTruthy (b_assignedTo b)) as [a|]; [|by eauto 6].
    destruct (findById a (users db)) as [[u|]|]; simpl; eauto 6. }
  destruct Hch as (o & -> & [->|[->|[ref ->]]]); simpl; try done.
  unfold save. destruct (validate _ _) as [t|] eqn:Hval; simpl; [|done].
  destruct (tasks db !! newId); simpl; [done|].
  intros [= <- <- <- <-]. exists t. simpl. rewrite lookup_insert_eq.
  split; [done|]. unfold validate in Hval.
  repeat (apply bind_Some in Hval as [? [? Hval]]). by simplify_eq/=.
Qed.

End WriteProperties.

(** An update whose body has no [createdBy] leaves the creator as it
    is. *)
Lemma applyUpdate_createdBy now b t t' :
  b_createdBy b = None → applyUpdate now b t = Some t' →
  createdBy t' = createdBy t.
Proof.
  unfold applyUpdate. intros Hb H.
  repeat (apply bind_Some in H as [? [? H]]). rewrite Hb in *.
  by simplify_eq/=.
Qed.

(** ** The write routes on the example database

    The clock is the first day of 2024, and the two date functions are
    those of the fixture. *)

Local Abbreviation updateTask :=
  (Routes.updateTask Fixture.isISO8601 Fixture.toDate Fixture.refuseOthers).
Local Abbreviation createTask :=
  (Routes.createTask Fixture.isISO8601 Fixture.toDate).


(** Bob asks for a task assigned to the missing user, then to give
    [task1], which he created, to that user. *)
Lemma missing_assignee_rejected_witness :
  createTask Fixture.y2024 Fixture.task3 (Fixture.asUser Fixture.bob)
    Fixture.forGhost Fixture.db
  = (Fail 400 "Assigned user not found", Fixture.db)
  ∧ updateTask Fixture.y2024 (Fixture.asUser Fixture.bob) Fixture.task1
      Fixture.giveToGhost Fixture.db
    = (Fail 400 "Assigned user not found", Fixture.db).
Proof.
  pose (t := mkTask "one" "first" "pending" "low" None Fixture.alice
               Fixture.bob 100 100).
  split.
  - destruct (missing_assignee_rejected Fixture.isISO8601 Fixture.toDate
      Fixture.refuseOthers Fixture.y2024 Fixture.task3 (Fixture.asUser Fixture.bob) Fixture.task1
      Fixture.task1 t Fixture.forGhost Fixture.db Fixture.ghost Fixture.ghost)
      as [(_ & Hdb & Hr) _].
    + reflexivity.
    + vm_compute. reflexivity.
    + vm_compute. reflexivity.
    + apply injective_projections; [apply Hr; vm_compute; reflexivity
                                    | exact Hdb].
  - destruct (missing_assignee_rejected Fixture.isISO8601 Fixture.toDate
      Fixture.refuseOthers Fixture.y2024 Fixture.task3 (Fixture.asUser Fixture.bob) Fixture.task1
      Fixture.task1 t Fixture.giveToGhost Fixture.db Fixture.ghost
      Fixture.ghost) as [_ Hupd].
    + reflexivity.
    + vm_compute. reflexivity.
    + vm_compute. reflexivity.
    + destruct Hupd as (_ & Hdb & Hr).
      * vm_compute. reflexivity.
      * vm_compute. reflexivity.
      * right. left. reflexivity.
      * discriminate.
      * apply injective_projections; [apply Hr; vm_compute; reflexivity
                                      | exact Hdb].
Defined.

(** Alice completes [task1] twice, one second apart. *)
Lemma update_twice_witness :
  let db1 := (updateTask Fixture.y2024 (Fixture.asUser Fixture.alice)
                Fixture.task1 Fixture.completeIt Fixture.db).2 in
  let db2 := (updateTask (Fixture.y2024 + 1000) (Fixture.asUser Fixture.alice)
                Fixture.task1 Fixture.completeIt db1).2 in
  (status <$> tasks db1 !! Fixture.task1) = Some "completed"%string
  ∧ (Spec.withoutUpdatedAt <$> tasks db2 !! Fixture.task1)
    = (Spec.withoutUpdatedAt <$> tasks db1 !! Fixture.task1).
Proof.
  intros db1 db2. split; [vm_compute; reflexivity|].
  refine (proj2 (update_twice_differs_in_updatedAt_only
    Fixture.isISO8601 Fixture.toDate Fixture.refuseOthers
    Fixture.y2024 (Fixture.y2024 + 1000)
    (Fixture.asUser Fixture.alice) Fixture.task1 Fixture.completeIt
    Fixture.db _ _) Fixture.task1).
  - reflexivity.
  - vm_compute. discriminate.
Defined.

(** The same two requests: both succeed, and the stored record after
    the second differs from the one after the first, in [updatedAt]. *)
Lemma update_twice_changes_updatedAt :
  let first := updateTask Fixture.y2024 (Fixture.asUser Fixture.alice)
                 Fixture.task1 Fixture.completeIt Fixture.db in
  let second := updateTask (Fixture.y2024 + 1000)
                  (Fixture.asUser Fixture.alice) Fixture.task1
                  Fixture.completeIt first.2 in
  statusCode first.1 = 200%nat ∧ statusCode second.1 = 200%nat
  ∧ (updatedAt <$> tasks first.2 !! Fixture.task1) = Some Fixture.y2024
  ∧ (updatedAt <$> tasks second.2 !! Fixture.task1)
    = Some (Fixture.y2024 + 1000)
  ∧ tasks second.2 !! Fixture.task1 ≠ tasks first.2 !! Fixture.task1.
Proof.
  vm_compute. split_and!; try reflexivity. discriminate.
Qed.

(** C4 at the failing input.  The creator of [task1] is bob.  Alice,
    its assignee, sends [{ createdBy: alice }] to [PUT /:id]: the body
    passes [validateTaskUpdate], the answer is the 200, and the stored
    creator is alice.  She could not delete the task before and can
    after. *)
Theorem update_overwrites_createdBy :
  let r := updateTask Fixture.y2024 (Fixture.asUser Fixture.alice)
             Fixture.task1 Fixture.takeOver Fixture.db in
  (createdBy <$> tasks Fixture.db !! Fixture.task1) = Some Fixture.bob
  ∧ (Validation.validateTaskUpdate Fixture.isISO8601 Fixture.toDate
       Fixture.takeOver).1 = []
  ∧ statusCode r.1 = 200%nat
  ∧ (createdBy <$> tasks r.2 !! Fixture.task1) = Some Fixture.alice
  ∧ statusCode (deleteTask (Fixture.asUser Fixture.alice) Fixture.task1
                  Fixture.db).1 = 403%nat
  ∧ statusCode (deleteTask (Fixture.asUser Fixture.alice) Fixture.task1
                  r.2).1 = 200%nat.
Proof. vm_compute. split_and!; reflexivity. Qed.

(** C6 at the failing input.  A new task due on the first day of 2000,
    asked for in 2024, passes [validateTaskCreation]; the schema's
    validator refuses it at [save()], and the handler's [catch] answers
    with the 500 and stores nothing.  The same task without a due
    date is created. *)
Theorem create_overdue_is_500 :
  (Validation.validateTaskCreation Fixture.isISO8601 Fixture.toDate
     Fixture.overdue).1 = []
  ∧ Fixture.toDate "2000-01-01" = Some Fixture.y2000
  ∧ Fixture.y2000 < Fixture.y2024
  ∧ createTask Fixture.y2024 Fixture.task3 (Fixture.asUser Fixture.bob)
      Fixture.overdue Fixture.db
    = (Fail 500 "Server error while creating task", Fixture.db)
  ∧ statusCode (createTask Fixture.y2024 Fixture.task3
                  (Fixture.asUser Fixture.bob) Fixture.undated Fixture.db).1
    = 201%nat.
Proof. vm_compute. split_and!; reflexivity. Qed.

(** * Further properties

    What the handlers, the validators, the origin check and the tasks
    page do beyond the properties above. *)

Import Schema.

(** ** Inversions of the paths and of the write routes *)

Lemma textPath_Some n s x :
  textPath n (Some s) = Some x →
  x = Js.trim s ∧ x ≠ ""%string ∧ (String.length x ≤ n)%nat.
Proof.
  unfold textPath.
  destruct (String.eqb_spec (Js.trim s) ""); simpl; [done|].
  destruct (Nat.leb_spec (String.length (Js.trim s)) n); [|done].
  by intros [= <-].
Qed.

Lemma enumPath_Some values s x :
  enumPath values s = Some x → x = s ∧ Validator.isIn values s = true.
Proof. unfold enumPath. destruct (Validator.isIn values s); by intros [= <-]. Qed.

Lemma datePath_future now d d' :
  datePath now d = Some d' → d' = d ∧ ∀ v, d = Some v → now < v.
Proof.
  unfold datePath, dueDateValidator. destruct d as [v|].
  - destruct (Z.ltb_spec now v); [|done]. intros [= <-]. split; [done|].
    by intros ? [= <-].
  - intros [= <-]. done.
Qed.

Lemma deleteTask_inv user id db :
  (∃ i t, Mongoose.castObjectId id = Some i ∧ tasks db !! i = Some t
          ∧ (role user = "admin"%string ∨ createdBy t = _id user)
          ∧ deleteTask user id db =
              (Ok 200 (Some "Task deleted successfully"%string) (),
               mkDB (users db) (delete i (tasks db))))
  ∨ (statusCode (deleteTask user id db).1 ≠ 200%nat
     ∧ (deleteTask user id db).2 = db).
Proof.
  unfold deleteTask.
  destruct (Validation.validateObjectId id) eqn:Hid; [|by right].
  destruct (Mongoose.castObjectId id) as [i|] eqn:Hc.
  2: { right. unfold deleteTaskTry, findById. by rewrite Hc. }
  unfold deleteTaskTry. rewrite (findById_cast _ _ _ Hc).
  destruct (tasks db !! i) as [t|] eqn:Ht; simpl; [|by right].
  unfold findByIdAndDelete. rewrite Hc. simpl.
  destruct (isAdmin user) eqn:Ha; simpl.
  { left. exists i, t. apply isAdmin_true in Ha. auto. }
  destruct (String.eqb_spec (createdBy t) (_id user)); simpl; [|by right].
  left. exists i, t. auto.
Qed.

Lemma statsOverview_result user db :
  statsOverview user db =
    Ok 200 None
      (default (mkStats 0 0 0 0 0 0 0)
         (head (group (List.filter (λ d, Spec.visibleTo user d.2)
                         (map_to_list (tasks db)))))).
Proof.
  unfold statsOverview, statsOverviewTry, aggregate, matching. simpl.
  by rewrite (filter_ext _ (λ d, Spec.visibleTo user d.2))
    by (intros; apply matches_statsFilter).
Qed.
Lemma filter_length_Permutation {A} (f : A → bool) (l l' : list A) :
  l ≡ₚ l' → length (List.filter f l) = length (List.filter f l').
Proof.
  induction 1 as [|x l l' _ IH|x y l|l l' l'' _ IH1 _ IH2]; simpl.
  - done.
  - destruct (f x); simpl; congruence.
  - destruct (f x), (f y); done.
  - congruence.
Qed.
Lemma statsOverview_total user db :
  ∃ s, statsOverview user db = Ok 200 None s
       ∧ st_total s =
           Z.of_nat (length (List.filter (λ d, Spec.visibleTo user d.2)
                               (map_to_list (tasks db)))).
Proof.
  rewrite statsOverview_result. eexists. split; [done|].
  rewrite group_result. simpl. apply countIf_all.
Qed.

Lemma countIf_priorities ds :
  (∀ d, d ∈ ds → priority d.2 ∈ Validation.priorities) →
  countIf (λ t, String.eqb (priority t) "high") ds
  + countIf (λ t, String.eqb (priority t) "medium") ds
  + countIf (λ t, String.eqb (priority t) "low") ds
  = countIf (λ _, true) ds.
Proof.
  induction ds as [|d ds IH]; intros Hin; [done|].
  assert (Hd : priority d.2 ∈ Validation.priorities) by (apply Hin; left).
  specialize (IH (λ d' H', Hin d' (list_elem_of_further _ _ _ H'))).
  unfold countIf in *. simpl.
  unfold Validation.priorities in Hd.
  repeat (apply elem_of_cons in Hd as [->|Hd]); simpl; try lia.
  by apply elem_of_nil in Hd.
Qed.

Lemma textPath_textOk n v x : textPath n v = Some x → Schema.textOk n x = true.
Proof.
  destruct v as [s|]; [|done]. intros (-> & Hne & Hlen)%textPath_Some.
  unfold Schema.textOk. rewrite trim_idemp, String.eqb_refl.
  apply String.eqb_neq in Hne. rewrite Hne. simpl.
  rewrite andb_true_r. by apply Nat.leb_le.
Qed.

Lemma validate_schemaOk now d t : validate now d = Some t → Schema.schemaOk t = true.
Proof.
  unfold validate. intros H.
  apply bind_Some in H as (ti & Hti & H).
  apply bind_Some in H as (de & Hde & H).
  apply bind_Some in H as (st & Hst & H).
  apply bind_Some in H as (pr & Hpr & H).
  apply bind_Some in H as (due & Hdue & H).
  apply bind_Some in H as (a & Ha & H).
  apply bind_Some in H as (c & Hc & H).
  injection H as <-. unfold Schema.schemaOk.
  cbn [title description status priority].
  apply enumPath_Some in Hst as [-> ->].
  apply enumPath_Some in Hpr as [-> ->].
  by rewrite (textPath_textOk _ _ _ Hti), (textPath_textOk _ _ _ Hde).
Qed.

Lemma applyUpdate_schemaOk now b t t' :
  Schema.schemaOk t = true → applyUpdate now b t = Some t' → Schema.schemaOk t' = true.
Proof.
  unfold Schema.schemaOk. rewrite !andb_true_iff. intros [[[H1 H2] H3] H4].
  unfold applyUpdate. intros H.
  apply bind_Some in H as (ti & Hti & H).
  apply bind_Some in H as (de & Hde & H).
  apply bind_Some in H as (st & Hst & H).
  apply bind_Some in H as (pr & Hpr & H).
  apply bind_Some in H as (due & Hdue & H).
  apply bind_Some in H as (a & Ha & H).
  apply bind_Some in H as (c & Hc & H).
  injection H as <-. cbn [title description status priority]. split_and!.
  - destruct (b_title b); [by eapply textPath_textOk|congruence].
  - destruct (b_description b); [by eapply textPath_textOk|congruence].
  - destruct (b_status b); [|congruence].
    by apply enumPath_Some in Hst as [-> ->].
  - destruct (b_priority b); [|congruence].
    by apply enumPath_Some in Hpr as [-> ->].
Qed.

(** ** The write routes *)

Section MoreWriteProperties.

Variable isISO8601 : string → bool.
Variable toDate : string → option Z.
Variable updateWithOthers : Z → ObjectId → Body (option Z) → Task → option Task.

Local Abbreviation validateTaskUpdate := (Validation.validateTaskUpdate isISO8601 toDate).
Local Abbreviation validateTaskCreation := (Validation.validateTaskCreation isISO8601 toDate).
Local Abbreviation sanitize := (Validation.sanitize toDate).
Local Abbreviation updateTask := (Routes.updateTask isISO8601 toDate updateWithOthers).
Local Abbreviation createTask := (Routes.createTask isISO8601 toDate).

(** Either [PUT /:id] went through every check and stored the result
    of the update, or its answer is not the 200 and the database is as
    it was. *)
Lemma updateTask_inv now user id body db :
  (∃ i t t',
     Mongoose.castObjectId id = Some i ∧ tasks db !! i = Some t
     ∧ (validateTaskUpdate body).1 = []
     ∧ (role user = "admin"%string ∨ createdBy t = _id user
        ∨ assignedTo t = _id user)
     ∧ assigneeMissing t (sanitize false body) db = Some false
     ∧ updateDocument updateWithOthers now i (sanitize false body) t = Some t'
     ∧ updateTask now user id body db =
         (Ok 200 (Some "Task updated successfully"%string)
            (Some (populate (users db) (i, t'))),
          mkDB (users db) (<[i := t']> (tasks db))))
  ∨ (statusCode (updateTask now user id body db).1 ≠ 200%nat
     ∧ (updateTask now user id body db).2 = db).
Proof.
  unfold Routes.updateTask.
  destruct (Validation.validateObjectId id) eqn:Hid; [|by right].
  destruct (Validation.validateTaskUpdate _ _ body) as [errors b] eqn:Hv.
  assert (b = sanitize false body) as -> by (by inversion Hv).
  assert (Hv1 : (validateTaskUpdate body).1 = errors) by (by rewrite Hv).
  destruct errors as [|e errors]; [|by right].
  destruct (Mongoose.castObjectId id) as [i|] eqn:Hc.
  2: { right. unfold updateTaskTry, findById. by rewrite Hc. }
  destruct (tasks db !! i) as [t|] eqn:Ht.
  2: { right. unfold updateTaskTry.
       by rewrite (findById_cast _ _ _ Hc), Ht. }
  rewrite (updateTaskTry_found _ _ _ _ _ _ _ _ Hc Ht).
  pose proof (update_denied_false user t) as Hd.
  destruct (negb (isAdmin user) && _ && _); [by right|].
  unfold updateChecked.
  destruct (assigneeMissing t (sanitize false body) db) as [[|]|] eqn:Hm;
    simpl; [by right| |by right].
  destruct (updateDocument _ now i _ t) as [t'|] eqn:Hu; simpl; [|by right].
  left. exists i, t, t'. split_and!; try done. by apply Hd.
Qed.

Lemma whenTruthy_isMongoId s :
  Validator.isMongoId s = true → Js.whenTruthy (Some s) = Some s.
Proof.
  unfold Validator.isMongoId. intros [_ H]%andb_true_iff. by destruct s.
Qed.

Lemma createTask_inv now newId user body db :
  (∃ t assignee,
     (validateTaskCreation body).1 = []
     ∧ match b_assignedTo body with
       | Some s => assignee = RefString s
                   ∧ ∃ j, Mongoose.castObjectId s = Some j
                          ∧ is_Some (users db !! j)
       | None => assignee = RefId (_id user)
       end
     ∧ validate now (newTask user (sanitize true body) assignee) = Some t
     ∧ tasks db !! newId = None
     ∧ createTask now newId user body db =
         (Ok 201 (Some "Task created successfully"%string)
            (populate (users db) (newId, t)),
          mkDB (users db) (<[newId := t]> (tasks db))))
  ∨ (statusCode (createTask now newId user body db).1 ≠ 201%nat
     ∧ (createTask now newId user body db).2 = db).
Proof.
  unfold Routes.createTask.
  destruct (Validation.validateTaskCreation _ _ body) as [errors b] eqn:Hv.
  assert (b = sanitize true body) as -> by (by inversion Hv).
  assert (Hv1 : (validateTaskCreation body).1 = errors) by (by rewrite Hv).
  destruct errors as [|e errors]; [|by right].
  pose proof Hv1 as (_ & _ & Ho)%validateTaskCreation_nil.
  apply checkOptionalFields_nil in Ho as (_ & _ & _ & Ha).
  unfold createTaskTry. fields.
  destruct (b_assignedTo body) as [s|] eqn:Hs.
  - rewrite (whenTruthy_isMongoId s (Ha s eq_refl)).
    destruct (Mongoose.castObjectId s) as [j|] eqn:Hj.
    2: { right. unfold findById. by rewrite Hj. }
    rewrite (findById_cast _ _ _ Hj).
    destruct (users db !! j) as [u|] eqn:Hu; simpl; [|by right].
    fold (newTask user (sanitize true body) (RefString s)).
    unfold save.
    destruct (validate now _) as [t|] eqn:Hval; simpl; [|by right].
    destruct (tasks db !! newId) eqn:Hfree; simpl; [by right|].
    left. exists t, (RefString s). split_and!; try done.
    exists j. split; [done|]. rewrite Hu. eauto.
  - simpl. fold (newTask user (sanitize true body) (RefId (_id user))).
    unfold save.
    destruct (validate now _) as [t|] eqn:Hval; simpl; [|by right].
    destruct (tasks db !! newId) eqn:Hfree; simpl; [by right|].
    left. exists t, (RefId (_id user)). split_and!; done.
Qed.

Lemma applyUpdate_fields now b t t' :
  applyUpdate now b t = Some t' →
  createdAt t' = createdAt t ∧ updatedAt t' = now
  ∧ title t' = default (title t) (Js.trim <$> b_title b)
  ∧ description t' = default (description t) (Js.trim <$> b_description b)
  ∧ status t' = default (status t) (b_status b)
  ∧ priority t' = default (priority t) (b_priority b)
  ∧ dueDate t' = default (dueDate t) (b_dueDate b)
  ∧ Some (assignedTo t') =
      default (Some (assignedTo t)) (Mongoose.castObjectId <$> b_assignedTo b)
  ∧ (b_createdBy b = None → createdBy t' = createdBy t).
Proof.
  unfold applyUpdate. intros H.
  apply bind_Some in H as (ti & Hti & H).
  apply bind_Some in H as (de & Hde & H).
  apply bind_Some in H as (st & Hst & H).
  apply bind_Some in H as (pr & Hpr & H).
  apply bind_Some in H as (due & Hdue & H).
  apply bind_Some in H as (a & Ha & H).
  apply bind_Some in H as (c & Hc & H).
  injection H as <-. simpl.
  split_and!; try done.
  - destruct (b_title b); simpl; [|congruence].
    by apply textPath_Some in Hti as [-> _].
  - destruct (b_description b); simpl; [|congruence].
    by apply textPath_Some in Hde as [-> _].
  - destruct (b_status b); simpl; [|congruence].
    by apply enumPath_Some in Hst as [-> _].
  - destruct (b_priority b); simpl; [|congruence].
    by apply enumPath_Some in Hpr as [-> _].
  - destruct (b_dueDate b); simpl; [|congruence].
    by apply datePath_future in Hdue as [-> _].
  - destruct (b_assignedTo b); simpl in *; congruence.
  - intros Hb. rewrite Hb in Hc. congruence.
Qed.


(** X5. When [PUT /:id] answers 200 to a body made of the schema's
    fields whose [assignedTo] differs from the task's assignee, the
    task is assigned to that id and a user with that id exists. *)
Theorem update_never_assigns_missing_user (now : Z) (user : ReqUser)
    (id : string) (i : ObjectId) (t : Task) (body : Body string) (db : DB)
    (s : string) :
  b_others body = [] →
  Mongoose.castObjectId id = Some i →
  tasks db !! i = Some t →
  statusCode (updateTask now user id body db).1 = 200%nat →
  b_assignedTo body = Some s →
  s ≠ assignedTo t →
  ∃ t' u, tasks (updateTask now user id body db).2 !! i = Some t'
          ∧ Mongoose.castObjectId s = Some (assignedTo t')
          ∧ users db !! assignedTo t' = Some u.
Proof.
  intros Hplain Hc Ht Hok Hs Hne.
  destruct (updateTask_inv now user id body db)
    as [(i' & t0 & t' & Hc' & Ht' & _ & _ & Hm & Hu & Hr)|[Hn _]]; [|done].
  assert (i' = i) as -> by congruence.
  assert (t0 = t) as -> by congruence.
  rewrite (updateDocument_plain _ _ _ _ _ _ Hplain) in Hu.
  rewrite Hr. simpl. rewrite lookup_insert_eq.
  apply applyUpdate_fields in Hu as (_ & _ & _ & _ & _ & _ & _ & Ha & _).
  revert Ha Hm. unfold assigneeMissing. fields. rewrite Hs. simpl.
  intros Ha. symmetry in Ha.
  rewrite (whenTruthy_id _ _ Ha).
  apply String.eqb_neq in Hne. rewrite Hne. simpl.
  rewrite (findById_cast _ _ _ Ha).
  destruct (users db !! assignedTo t') as [u|] eqn:Hu; [|done].
  intros _. eauto.
Qed.

(** X6. A write that is not answered with success (201 for [POST /],
    200 for [PUT /:id] and [DELETE /:id]) leaves the database as it
    was. *)
Theorem refused_writes_change_nothing (now : Z) (newId : ObjectId)
    (user : ReqUser) (id : string) (body : Body string) (db : DB) :
  (statusCode (createTask now newId user body db).1 ≠ 201%nat →
   (createTask now newId user body db).2 = db)
  ∧ (statusCode (updateTask now user id body db).1 ≠ 200%nat →
     (updateTask now user id body db).2 = db)
  ∧ (statusCode (deleteTask user id db).1 ≠ 200%nat →
     (deleteTask user id db).2 = db).
Proof.
  split_and!; intros Hn.
  - destruct (createTask_inv now newId user body db)
      as [(t & a & _ & _ & _ & _ & Hr)|[_ ?]]; [|done].
    by rewrite Hr in Hn.
  - destruct (updateTask_inv now user id body db)
      as [(i & t & t' & _ & _ & _ & _ & _ & _ & Hr)|[_ ?]]; [|done].
    by rewrite Hr in Hn.
  - destruct (deleteTask_inv user id db)
      as [(i & t & _ & _ & _ & Hr)|[_ ?]]; [|done].
    by rewrite Hr in Hn.
Qed.

(** X7. No task route changes the users.  [POST /] adds at most the
    task of the new id and neither changes nor replaces a stored task;
    [PUT /:id] and [DELETE /:id] leave every task but the one of the
    id as it was. *)
Theorem writes_touch_one_task (now : Z) (newId : ObjectId)
    (user : ReqUser) (id : string) (body : Body string) (db : DB) :
  (let db' := (createTask now newId user body db).2 in
   users db' = users db
   ∧ (∀ k, k ≠ newId → tasks db' !! k = tasks db !! k)
   ∧ (∀ k t, tasks db !! k = Some t → tasks db' !! k = Some t))
  ∧ (let db' := (updateTask now user id body db).2 in
     users db' = users db
     ∧ ∀ k, Mongoose.castObjectId id ≠ Some k →
            tasks db' !! k = tasks db !! k)
  ∧ (let db' := (deleteTask user id db).2 in
     users db' = users db
     ∧ ∀ k, Mongoose.castObjectId id ≠ Some k →
            tasks db' !! k = tasks db !! k).
Proof.
  split_and!.
  - destruct (createTask_inv now newId user body db)
      as [(t & a & _ & _ & _ & Hfree & ->)|[_ ->]]; [|done].
    simpl. split_and!; [done| |].
    + intros k Hk. by rewrite lookup_insert_ne.
    + intros k t' Hk. rewrite lookup_insert_ne; [done|]. congruence.
  - destruct (updateTask_inv now user id body db)
      as [(i & t & t' & Hc & _ & _ & _ & _ & _ & ->)|[_ ->]]; [|done].
    simpl. split; [done|]. intros k Hk.
    rewrite lookup_insert_ne; [done|]. congruence.
  - destruct (deleteTask_inv user id db)
      as [(i & t & Hc & _ & _ & ->)|[_ ->]]; [|done].
    simpl. split; [done|]. intros k Hk.
    rewrite lookup_delete_ne; [done|]. congruence.
Qed.

Lemma validate_fields now d t :
  validate now d = Some t →
  Some (title t) = Js.trim <$> i_title d
  ∧ Some (description t) = Js.trim <$> i_description d
  ∧ status t = i_status d ∧ priority t = i_priority d
  ∧ dueDate t = i_dueDate d ∧ (∀ v, dueDate t = Some v → now < v)
  ∧ refPath (i_assignedTo d) = Some (assignedTo t)
  ∧ refPath (i_createdBy d) = Some (createdBy t)
  ∧ createdAt t = now ∧ updatedAt t = now.
Proof.
  unfold validate. intros H.
  apply bind_Some in H as (ti & Hti & H).
  apply bind_Some in H as (de & Hde & H).
  apply bind_Some in H as (st & Hst & H).
  apply bind_Some in H as (pr & Hpr & H).
  apply bind_Some in H as (due & Hdue & H).
  apply bind_Some in H as (a & Ha & H).
  apply bind_Some in H as (c & Hc & H).
  injection H as <-. simpl.
  apply enumPath_Some in Hst as [-> _].
  apply enumPath_Some in Hpr as [-> _].
  apply datePath_future in Hdue as [-> Hfut].
  split_and!; try done.
  - destruct (i_title d); [|done]. by apply textPath_Some in Hti as [-> _].
  - destruct (i_description d); [|done].
    by apply textPath_Some in Hde as [-> _].
Qed.

(** X8. When [POST /] answers 201, the new id was free and the task
    stored under it has the trimmed title and description of the
    body, its status and priority or else 'pending' and 'medium', its
    due date, which is in the future, as assignee the user asked for,
    who exists, or else the caller, the caller as creator, and both
    timestamps at the time of the request. *)
Theorem created_task_fields (now : Z) (newId : ObjectId) (user : ReqUser)
    (body : Body string) (db : DB) :
  statusCode (createTask now newId user body db).1 = 201%nat →
  ∃ t,
    createTask now newId user body db =
      (Ok 201 (Some "Task created successfully"%string)
         (populate (users db) (newId, t)),
       mkDB (users db) (<[newId := t]> (tasks db)))
    ∧ tasks db !! newId = None
    ∧ Some (title t) = Js.trim <$> b_title body
    ∧ Some (description t) = Js.trim <$> b_description body
    ∧ status t = default "pending"%string (b_status body)
    ∧ priority t = default "medium"%string (b_priority body)
    ∧ dueDate t = b_dueDate body ≫= toDate
    ∧ (∀ v, dueDate t = Some v → now < v)
    ∧ Some (assignedTo t) =
        default (Some (_id user)) (Mongoose.castObjectId <$> b_assignedTo body)
    ∧ (∀ s, b_assignedTo body = Some s → is_Some (users db !! assignedTo t))
    ∧ createdBy t = _id user ∧ createdAt t = now ∧ updatedAt t = now.
Proof.
  intros Hok.
  destruct (createTask_inv now newId user body db)
    as [(t & a & Hv & Ha & Hval & Hfree & Hr)|[Hn _]]; [|done].
  exists t. split; [done|]. split; [done|].
  pose proof Hv as ([ti [Hti _]] & [de [Hde _]] & Ho)%validateTaskCreation_nil.
  apply checkOptionalFields_nil in Ho as (Hs & Hp & _ & _).
  apply validate_fields in Hval
    as (Ht & Hd & Hst & Hpr & Hdue & Hfut & Hra & Hrc & ? & ?).
  revert Ht Hd Hst Hpr Hdue Hra Hrc. unfold newTask. fields. simpl.
  rewrite Hti, Hde. simpl. rewrite !trim_idemp.
  intros Ht Hd Hst Hpr Hdue Hra Hrc.
  split_and!; try done.
  - rewrite Hst. unfold Js.strOr. destruct (b_status body) as [s|]; [|done].
    destruct (String.eqb_spec s ""); [|done].
    subst s. by specialize (Hs _ eq_refl).
  - rewrite Hpr. unfold Js.strOr. destruct (b_priority body) as [s|]; [|done].
    destruct (String.eqb_spec s ""); [|done].
    subst s. by specialize (Hp _ eq_refl).
  - rewrite Hdue. by destruct (b_dueDate body).
  - destruct (b_assignedTo body) as [s|]; simpl.
    + destruct Ha as [-> _]. by rewrite <- Hra.
    + subst a. simpl in Hra. done.
  - intros s Hs'. rewrite Hs' in Ha. destruct Ha as [-> (j & Hj & Hu)].
    simpl in Hra. by assert (j = assignedTo t) as <- by congruence.
  - by injection Hrc.
Qed.

(** X9. A task that [POST /] has just created is served to its creator
    by [GET /:id] under the new id, with the same data as in the 201
    answer, when the creator is an admin or is still among the
    users. *)
Theorem created_task_can_be_read (now : Z) (newId : ObjectId)
    (user : ReqUser) (body : Body string) (db : DB) :
  statusCode (createTask now newId user body db).1 = 201%nat →
  Mongoose.castObjectId newId = Some newId →
  role user = "admin"%string ∨ is_Some (users db !! _id user) →
  ∃ message p,
    (createTask now newId user body db).1 = Ok 201 message p
    ∧ getTask user newId (createTask now newId user body db).2 = Ok 200 None p.
Proof.
  intros Hok Hid Huser.
  destruct (createTask_inv now newId user body db)
    as [(t & a & _ & Ha & Hval & _ & Hr)|[Hn _]]; [|done].
  rewrite Hr. simpl. eexists _, _. split; [done|].
  rewrite (getTask_found user newId newId t) by (done || apply lookup_insert_eq).
  simpl. destruct (isAdmin user) eqn:Hadm; simpl; [done|].
  destruct Huser as [Hadmin|[u Hu]];
    [apply isAdmin_true in Hadmin; congruence|].
  apply validate_fields in Hval as (_ & _ & _ & _ & _ & _ & Hra & Hrc & _).
  simpl in Hrc. injection Hrc as Hcr.
  rewrite !refIsNot_populateRef, <- Hcr, Hu. simpl.
  rewrite String.eqb_refl. simpl.
  destruct (b_assignedTo body) as [s|].
  - destruct Ha as [-> (j & Hj & [uj Huj])]. simpl in Hra.
    assert (j = assignedTo t) as -> by congruence. rewrite Huj. simpl.
    by destruct (String.eqb (assignedTo t) (_id user)).
  - subst a. simpl in Hra. injection Hra as <-. rewrite Hu. simpl.
    by rewrite String.eqb_refl.
Qed.

(** X10. The schema's constraints on title, description, status and
    priority, once true of every stored task, stay true after
    [POST /], after [DELETE /:id], and after [PUT /:id] with a body
    made of the schema's fields. *)
Theorem writes_keep_schema (now : Z) (newId : ObjectId) (user : ReqUser)
    (id : string) (body : Body string) (db : DB) :
  map_Forall (λ _ t, Schema.schemaOk t = true) (tasks db) →
  map_Forall (λ _ t, Schema.schemaOk t = true)
    (tasks (createTask now newId user body db).2)
  ∧ (b_others body = [] →
     map_Forall (λ _ t, Schema.schemaOk t = true)
       (tasks (updateTask now user id body db).2))
  ∧ map_Forall (λ _ t, Schema.schemaOk t = true) (tasks (deleteTask user id db).2).
Proof.
  intros Hdb. split_and!; [|intros Hplain|].
  - destruct (createTask_inv now newId user body db)
      as [(t & a & _ & _ & Hval & _ & ->)|[_ ->]]; [|done].
    simpl. apply map_Forall_insert_2; [|done]. by eapply validate_schemaOk.
  - destruct (updateTask_inv now user id body db)
      as [(i & t & t' & _ & Ht & _ & _ & _ & Hu & ->)|[_ ->]]; [|done].
    rewrite (updateDocument_plain _ _ _ _ _ _ Hplain) in Hu.
    simpl. apply map_Forall_insert_2; [|done].
    eapply applyUpdate_schemaOk; [|done]. by apply (Hdb i).
  - destruct (deleteTask_inv user id db)
      as [(i & t & _ & _ & _ & ->)|[_ ->]]; [|done].
    simpl. by apply map_Forall_delete.
Qed.

(** X11. The [total] of [GET /stats/overview] for a caller goes up by
    one when that caller creates a task, and down by one when that
    caller deletes one. *)
Theorem totals_follow_writes (now : Z) (newId : ObjectId) (user : ReqUser)
    (id : string) (body : Body string) (db : DB) :
  ∃ s, statsOverview user db = Ok 200 None s
    ∧ (statusCode (createTask now newId user body db).1 = 201%nat →
       ∃ s', statsOverview user (createTask now newId user body db).2
               = Ok 200 None s'
             ∧ st_total s' = st_total s + 1)
    ∧ (statusCode (deleteTask user id db).1 = 200%nat →
       ∃ s', statsOverview user (deleteTask user id db).2 = Ok 200 None s'
             ∧ st_total s' = st_total s - 1).
Proof.
  destruct (statsOverview_total user db) as (s & Hs & Htot).
  exists s. split; [done|]. split.
  - intros Hok.
    destruct (createTask_inv now newId user body db)
      as [(t & a & _ & _ & Hval & Hfree & Hr)|[Hn _]]; [|done].
    rewrite Hr. simpl.
    destruct (statsOverview_total user
      (mkDB (users db) (<[newId := t]> (tasks db)))) as (s' & Hs' & Htot').
    exists s'. split; [done|]. rewrite Htot', Htot. simpl.
    rewrite (filter_length_Permutation _ _ _
               (map_to_list_insert (tasks db) newId t Hfree)).
    simpl.
    assert (Spec.visibleTo user t = true) as ->; [|simpl; lia].
    apply validate_fields in Hval as (_ & _ & _ & _ & _ & _ & _ & Hc & _).
    simpl in Hc. injection Hc as Hc. unfold Spec.visibleTo.
    by rewrite <- Hc, String.eqb_refl, orb_true_r.
  - intros Hok.
    destruct (deleteTask_inv user id db)
      as [(i & t & _ & Ht & Hmay & Hr)|[Hn _]]; [|done].
    rewrite Hr. simpl.
    destruct (statsOverview_total user
      (mkDB (users db) (delete i (tasks db)))) as (s' & Hs' & Htot').
    exists s'. split; [done|]. rewrite Htot', Htot. simpl.
    rewrite <- (filter_length_Permutation _ _ _
                  (map_to_list_delete (tasks db) i t Ht)).
    simpl.
    assert (Spec.visibleTo user t = true) as ->; [|simpl; lia].
    unfold Spec.visibleTo. destruct Hmay as [Ha%isAdmin_true| ->].
    + by rewrite Ha.
    + by rewrite String.eqb_refl, orb_true_r.
Qed.

(** X1. From [GET /:id], [PUT /:id] and [DELETE /:id], an id that
    [isMongoId] refuses gets the 400 of the validator, an id that it
    accepts and that is no ObjectId (24 characters that start with
    [0x]) gets the 500, and the id of no task gets the 404 'Task not
    found'; the database is as it was. *)
Theorem lookup_failures (now : Z) (user : ReqUser) (id : string)
    (body : Body string) (db : DB) :
  (Validator.isMongoId id = false →
   let errors := [mkFieldError "id" "Invalid ID format"] in
   getTask user id db = Invalid errors
   ∧ updateTask now user id body db = (Invalid errors, db)
   ∧ deleteTask user id db = (Invalid errors, db))
  ∧ (Validator.isMongoId id = true → Mongoose.castObjectId id = None →
     getTask user id db = Fail 500 "Server error while fetching task"
     ∧ ((validateTaskUpdate body).1 = [] →
        updateTask now user id body db
          = (Fail 500 "Server error while updating task", db))
     ∧ deleteTask user id db = (Fail 500 "Server error while deleting task", db))
  ∧ (∀ i, Mongoose.castObjectId id = Some i → tasks db !! i = None →
     getTask user id db = Fail 404 "Task not found"
     ∧ ((validateTaskUpdate body).1 = [] →
        updateTask now user id body db = (Fail 404 "Task not found", db))
     ∧ deleteTask user id db = (Fail 404 "Task not found", db)).
Proof.
  split_and!.
  - intros Hbad errors. unfold getTask, Routes.updateTask, deleteTask.
    unfold Validation.validateObjectId, Validation.check. by rewrite Hbad.
  - intros Hid Hc. unfold getTask, Routes.updateTask, deleteTask.
    rewrite (proj2 (validateObjectId_nil id) Hid).
    unfold getTaskTry, deleteTaskTry, updateTaskTry, findById. rewrite Hc.
    split_and!; try done.
    unfold Validation.validateTaskUpdate. simpl. by intros ->.
  - intros i Hc Ht. unfold getTask, deleteTask.
    rewrite (castObjectId_validates _ _ Hc).
    unfold getTaskTry, deleteTaskTry.
    rewrite !(findById_cast _ _ _ Hc), Ht. split_and!; try done.
    intros Hv. rewrite (updateTask_validated _ _ _ _ _ _ _ _ _ Hc Hv).
    unfold updateTaskTry. by rewrite (findById_cast _ _ _ Hc), Ht.
Qed.

End MoreWriteProperties.

(** ** Blank titles *)

Section Titles.
Variable isISO8601 : string → bool.
Variable toDate : string → option Z.
Variable updateWithOthers : Z → ObjectId → Body (option Z) → Task → option Task.

(** X26. A title that is absent, empty or white space only is refused
    by [POST /] with the 400 of the validators, which lists the title
    first, and so is a present title of white space by [PUT /:id];
    nothing is stored. *)
Theorem blank_title_is_refused (now : Z) (newId : ObjectId) (user : ReqUser)
    (id : string) (body : Body string) (db : DB) :
  let error :=
    mkFieldError "title" "Title must be between 1 and 100 characters" in
  (Js.trim (default ""%string (b_title body)) = ""%string →
   ∃ errors,
     Routes.createTask isISO8601 toDate now newId user body db
       = (Invalid (error :: errors), db))
  ∧ (∀ s, b_title body = Some s → Js.trim s = ""%string →
     Validator.isMongoId id = true →
     ∃ errors,
       Routes.updateTask isISO8601 toDate updateWithOthers now user id body db
         = (Invalid (error :: errors), db)).
Proof.
  intros error. split.
  - intros Hblank. unfold Routes.createTask, Validation.validateTaskCreation.
    unfold Validation.check at 1.
    destruct (b_title body) as [s|]; simpl in Hblank; simpl.
    + rewrite Hblank. simpl. by eexists.
    + by eexists.
  - intros s Hs Hblank Hid. unfold Routes.updateTask.
    rewrite (proj2 (validateObjectId_nil id) Hid).
    unfold Validation.validateTaskUpdate. unfold Validation.check at 1.
    rewrite Hs. simpl. rewrite Hblank. simpl. by eexists.
Qed.
End Titles.

(** ** Reading and deleting *)

(** X2. An admin is served every task that exists by [GET /:id], also
    when its assignee or creator is gone: the references are not read
    for an admin. *)
Theorem admin_reads_any_task (user : ReqUser) (id : string) (i : ObjectId)
    (t : Task) (db : DB) :
  role user = "admin"%string →
  Mongoose.castObjectId id = Some i →
  tasks db !! i = Some t →
  getTask user id db = Ok 200 None (populate (users db) (i, t)).
Proof.
  intros Ha Hc Ht. rewrite (getTask_found _ _ _ _ _ Hc Ht).
  apply isAdmin_true in Ha. by rewrite Ha.
Qed.

(** X3. After [DELETE /:id] has answered 200, [GET /:id] and a second
    [DELETE /:id] for the same id answer 404 to every caller, and the
    second delete changes nothing. *)
Theorem deleted_task_is_gone (user reader : ReqUser) (id : string) (db : DB) :
  statusCode (deleteTask user id db).1 = 200%nat →
  let db' := (deleteTask user id db).2 in
  getTask reader id db' = Fail 404 "Task not found"
  ∧ deleteTask reader id db' = (Fail 404 "Task not found", db').
Proof.
  intros Hok db'. subst db'.
  destruct (deleteTask_inv user id db) as [(i & t & Hc & Ht & _ & Hr)|[Hn _]];
    [|done].
  rewrite Hr. simpl.
  unfold getTask, deleteTask, getTaskTry, deleteTaskTry.
  rewrite (castObjectId_validates _ _ Hc), !(findById_cast _ _ _ Hc). simpl.
  by rewrite lookup_delete_eq.
Qed.

(** ** Statistics and lists *)

(** X12. [GET /stats/overview]: when the tasks the caller can see have
    one of the three priorities of the schema,
    [highPriority + mediumPriority + lowPriority = total]. *)
Theorem stats_priorities_add_up (user : ReqUser) (db : DB) :
  (∀ i t, tasks db !! i = Some t → Spec.visibleTo user t = true →
          priority t ∈ Validation.priorities) →
  ∃ s, statsOverview user db = Ok 200 None s
       ∧ st_highPriority s + st_mediumPriority s + st_lowPriority s
         = st_total s.
Proof.
  intros Hpr. rewrite statsOverview_result. eexists. split; [done|].
  rewrite group_result. simpl. apply countIf_priorities.
  intros [i t] Hd. apply list_elem_of_In, filter_In in Hd as [Hd Hv].
  apply list_elem_of_In, elem_of_map_to_list in Hd. eauto.
Qed.

(** X13. [GET /stats/overview] for a caller who can see no task: the
    aggregation yields no group and the answer is the 200 with every
    count at zero. *)
Theorem stats_of_nothing_visible (user : ReqUser) (db : DB) :
  (∀ i t, tasks db !! i = Some t → Spec.visibleTo user t = false) →
  statsOverview user db = Ok 200 None (mkStats 0 0 0 0 0 0 0).
Proof.
  intros Hnone. rewrite statsOverview_result.
  rewrite (filter_ext_in _ (λ _, false)), filter_false; [done|].
  intros [i t] Hd. apply list_elem_of_In, elem_of_map_to_list in Hd. eauto.
Qed.

(** X14. For a query without status, priority and assignee filter,
    [total] of [GET /] is [total] of [GET /stats/overview] for the same
    caller. *)
Theorem stats_total_is_list_total (user : ReqUser) (q : Query) (db : DB) :
  Validation.validatePagination q = [] →
  Js.truthy (q_status q) = false →
  Js.truthy (q_priority q) = false →
  Js.truthy (q_assignedTo q) = false →
  ∃ s page,
    statsOverview user db = Ok 200 None s
    ∧ listTasks user q db = Ok 200 None page
    ∧ total (pagination page) = st_total s.
Proof.
  intros Hv Hs Hp Ha.
  destruct (statsOverview_total user db) as (s & Hstats & Htotal).
  exists s. unfold listTasks, listTasksTry. rewrite Hv.
  assert (listFilter user q = statsFilter user) as ->.
  { unfold listFilter, statsFilter, Js.whenTruthy. by rewrite Hs, Hp, Ha. }
  unfold find, countDocuments, matching. simpl.
  eexists. split; [done|]. split; [done|]. simpl.
  rewrite Htotal. do 2 f_equal. apply filter_ext.
  intros d. apply matches_statsFilter.
Qed.

Lemma matches_keys f a t :
  matches f a t = true →
  (∀ s, f_status f = Some s → status t = s)
  ∧ (∀ s, f_priority f = Some s → priority t = s)
  ∧ (∀ i, a = Some i → assignedTo t = i).
Proof.
  unfold matches, keyMatches. rewrite !andb_true_iff.
  intros [[[_ Hs] Hp] Ha]. split_and!.
  - intros s E. rewrite E in Hs. by apply String.eqb_eq.
  - intros s E. rewrite E in Hp. by apply String.eqb_eq.
  - intros i E. rewrite E in Ha. by apply String.eqb_eq.
Qed.

Lemma matching_keys f ts ds d :
  matching f ts = Some ds → d ∈ ds →
  ts !! d.1 = Some d.2
  ∧ (∀ s, f_status f = Some s → status d.2 = s)
  ∧ (∀ s, f_priority f = Some s → priority d.2 = s)
  ∧ (∀ s, f_assignedTo f = Some s →
          Mongoose.castObjectId s = Some (assignedTo d.2)).
Proof.
  unfold matching. intros Hm Hd.
  destruct (f_assignedTo f) as [s|] eqn:Hs.
  - destruct (Mongoose.castObjectId s) as [i|] eqn:Hi; simplify_eq/=.
    apply list_elem_of_In, filter_In in Hd as [Hd Hp].
    apply list_elem_of_In in Hd. destruct d as [j t].
    apply elem_of_map_to_list in Hd.
    apply matches_keys in Hp as (? & ? & Ha).
    split_and!; try done. intros ? [= <-]. by rewrite (Ha i eq_refl).
  - simplify_eq/=.
    apply list_elem_of_In, filter_In in Hd as [Hd Hp].
    apply list_elem_of_In in Hd. destruct d as [j t].
    apply elem_of_map_to_list in Hd.
    apply matches_keys in Hp as (? & ? & _). done.
Qed.

(** X15. Every task that [GET /] returns has the status and the
    priority the query asks for, and is assigned to the user the query
    asks for. *)
Theorem list_honours_filters (user : ReqUser) (q : Query) (db : DB)
    (code : nat) (message : option string) (page : TaskPage)
    (p : PopulatedTask) :
  listTasks user q db = Ok code message page →
  p ∈ page_tasks page →
  ∃ t, tasks db !! p_id p = Some t
       ∧ (∀ s, q_status q = Some s → s ≠ ""%string → p_status p = s)
       ∧ (∀ s, q_priority q = Some s → s ≠ ""%string → p_priority p = s)
       ∧ (∀ s, q_assignedTo q = Some s → s ≠ ""%string →
               Mongoose.castObjectId s = Some (assignedTo t)).
Proof.
  intros Hl Hp. unfold listTasks in Hl.
  destruct (Validation.validatePagination q); [|done].
  unfold listTasksTry in Hl.
  destruct (find _ _ _ _) as [found|] eqn:Hf; [|done]. simpl in Hl.
  destruct (countDocuments _ _); [|done]. simplify_eq/=.
  apply list_elem_of_fmap in Hp as [[j t] [-> Hd]].
  destruct (find_elem _ _ _ _ _ _ Hf Hd) as [ds [Hm Hds]].
  destruct (matching_keys _ _ _ _ Hm Hds) as (Hj & Hs & Hpr & Ha).
  exists t. simpl in *. split; [done|].
  assert (Hw : ∀ v s, v = Some s → s ≠ ""%string → Js.whenTruthy v = Some s).
  { intros v s -> Hne. unfold Js.whenTruthy, Js.truthy.
    by destruct (String.eqb_spec s ""). }
  split_and!; intros s E Hne; eauto.
Qed.

(** X16. [GET /] with an [assignedTo] parameter that is not made of
    24 hexadecimal digits (nor of 12 characters, which some drivers
    read as the bytes of an id): the parameter is not validated, the
    cast of the filter throws, and the answer is the 500. *)
Theorem list_with_bad_assignee_filter (user : ReqUser) (q : Query) (db : DB)
    (s : string) :
  Validation.validatePagination q = [] →
  q_assignedTo q = Some s → s ≠ ""%string →
  Validator.isObjectIdText s = false →
  String.length s ≠ 12%nat →
  listTasks user q db = Fail 500 "Server error while fetching tasks".
Proof.
  intros Hv Hs Hne Hbad _. unfold listTasks, listTasksTry. rewrite Hv.
  unfold find, matching. simpl. rewrite Hs.
  unfold Js.whenTruthy, Js.truthy.
  destruct (String.eqb_spec s ""); [done|]. simpl.
  unfold Mongoose.castObjectId. by rewrite Hbad.
Qed.

(** X17. In an answer of [GET /] whose numbers are exact ([current]
    times [limit] at most [2^53]), a page before the last holds
    [limit] tasks, the last page holds the rest (at least one, at most
    [limit]), a page after the last is empty, and there are no pages
    exactly when there are no matching tasks. *)
Theorem list_page_sizes (user : ReqUser) (q : Query) (db : DB)
    (code : nat) (message : option string) (page : TaskPage) :
  listTasks user q db = Ok code message page →
  current (pagination page) * limit (pagination page) ≤ 2 ^ 53 →
  let pg := pagination page in
  let n := Z.of_nat (length (page_tasks page)) in
  (current pg < pages pg → n = limit pg)
  ∧ (current pg = pages pg → n = total pg - (pages pg - 1) * limit pg
                             ∧ 1 ≤ n ≤ limit pg)
  ∧ (pages pg < current pg → page_tasks page = [])
  ∧ (total pg = 0 ↔ pages pg = 0).
Proof.
  intros Hl. unfold listTasks in Hl.
  destruct (Validation.validatePagination q) eqn:Hv; [|done].
  destruct (validatePagination_bounds q Hv) as (Hp1 & Hl1 & Ep & El).
  unfold listTasksTry, find, countDocuments in Hl.
  destruct (matching _ _) as [docs|]; [|done]. simplify_eq/=.
  rewrite El. clear El.
  set (l := default 10 (q_limit q ≫= Js.mathInt)) in *.
  assert (Hc1 : 1 ≤ Js.numOr (q_page q ≫= Js.parseInt) 1).
  { rewrite Ep. by apply roundDouble_ge. }
  clear Ep Hp1.
  set (c := Js.numOr (q_page q ≫= Js.parseInt) 1) in *.
  intros Hb. destruct (skip_exact c l) as [_ ->]; [lia..|].
  rewrite skipDocs_drop.
  pose proof (ceilDiv_spec (Z.of_nat (length docs)) l ltac:(lia)) as Hc.
  pose proof (page_length (merge_sort newerFirst docs) c l Hc1 ltac:(lia))
    as Hlen.
  rewrite (Permutation_length (merge_sort_Permutation newerFirst docs)) in Hlen.
  rewrite length_fmap, Hlen.
  set (n := ceilDiv (Z.of_nat (length docs)) l) in *.
  split_and!.
  - intros Hlt. nia.
  - intros ->. nia.
  - intros Hgt. apply length_zero_iff_nil. rewrite length_fmap, Hlen. nia.
  - nia.
Qed.

(** ** Ids *)

Lemma toLowerHex_hex c :
  Validator.isHexChar (Mongoose.toLowerHex c) = Validator.isHexChar c.
Proof. by destruct c as [[] [] [] [] [] [] [] []]. Qed.

Lemma toLowerHex_idemp c :
  Mongoose.toLowerHex (Mongoose.toLowerHex c) = Mongoose.toLowerHex c.
Proof. by destruct c as [[] [] [] [] [] [] [] []]. Qed.

Lemma lowerHex_idemp s :
  Mongoose.lowerHex (Mongoose.lowerHex s) = Mongoose.lowerHex s.
Proof. induction s as [|c s IH]; simpl; [done|]. by rewrite toLowerHex_idemp, IH. Qed.

Lemma isObjectIdText_lowerHex s :
  Validator.isObjectIdText (Mongoose.lowerHex s) = Validator.isObjectIdText s.
Proof.
  unfold Validator.isObjectIdText. f_equal.
  - f_equal. induction s as [|c s IH]; simpl; [done|]. by rewrite IH.
  - induction s as [|c s IH]; simpl; [done|]. by rewrite toLowerHex_hex, IH.
Qed.

Lemma castObjectId_string_form s i :
  Mongoose.castObjectId s = Some i → Mongoose.castObjectId i = Some i.
Proof.
  unfold Mongoose.castObjectId.
  destruct (Validator.isObjectIdText s) eqn:Hs; [|done]. intros [= <-].
  by rewrite isObjectIdText_lowerHex, Hs, lowerHex_idemp.
Qed.

Section Ids.
Variable isISO8601 : string → bool.
Variable toDate : string → option Z.
Variable updateWithOthers : Z → ObjectId → Body (option Z) → Task → option Task.

(** X18. The string form of the ObjectId that a request id is cast to
    is cast to itself, and the three [/:id] routes answer the request
    id as they answer that string form: an id reaches the same task in
    upper and in lower case. *)
Theorem ids_ignore_letter_case (now : Z) (user : ReqUser) (id : string)
    (i : ObjectId) (body : Body string) (db : DB) :
  Mongoose.castObjectId id = Some i →
  Mongoose.castObjectId i = Some i
  ∧ getTask user id db = getTask user i db
  ∧ Routes.updateTask isISO8601 toDate updateWithOthers now user id body db
    = Routes.updateTask isISO8601 toDate updateWithOthers now user i body db
  ∧ deleteTask user id db = deleteTask user i db.
Proof.
  intros Hc. pose proof (castObjectId_string_form _ _ Hc) as Hi.
  split; [done|].
  unfold getTask, Routes.updateTask, deleteTask.
  rewrite (castObjectId_validates _ _ Hc), (castObjectId_validates _ _ Hi).
  unfold getTaskTry, updateTaskTry, deleteTaskTry.
  unfold findById, findByIdAndUpdate, findByIdAndDelete.
  by rewrite Hc, Hi.
Qed.
End Ids.

(** ** Text, and the origins of CORS *)

Lemma startsWith_spec sub s :
  JsText.startsWith sub s = true ↔ ∃ post, s = (sub ++ post)%string.
Proof.
  revert s. induction sub as [|a sub IH]; intros s; simpl.
  - split; [eauto|done].
  - destruct s as [|b s].
    + split; [done|]. by intros [post [=]].
    + rewrite andb_true_iff, IH. split.
      * intros [->%Ascii.eqb_eq [post ->]]. eauto.
      * intros [post [= -> ->]]. split; [apply Ascii.eqb_refl|eauto].
Qed.

Lemma includes_spec s sub :
  JsText.includes s sub = true
  ↔ ∃ pre post, s = (pre ++ sub ++ post)%string.
Proof.
  induction s as [|c s IH]; simpl.
  - rewrite orb_false_r, startsWith_spec. split.
    + intros [post ->]. by exists ""%string, post.
    + intros (pre & post & H). destruct pre; [by exists post|done].
  - rewrite orb_true_iff, startsWith_spec, IH. split.
    + intros [[post ->]|(pre & post & ->)].
      * by exists ""%string, post.
      * by exists (String c pre), post.
    + intros (pre & post & H). destruct pre as [|a pre]; simpl in H.
      * left. by exists post.
      * right. injection H as -> ->. eauto.
Qed.

Lemma includes_empty s : JsText.includes s "" = true.
Proof. by destruct s. Qed.

Lemma toLowerCase_app s1 s2 :
  JsText.toLowerCase (s1 ++ s2) =
    (JsText.toLowerCase s1 ++ JsText.toLowerCase s2)%string.
Proof. induction s1 as [|c s1 IH]; simpl; [done|]. by rewrite IH. Qed.

Lemma whenTruthy_Some v o :
  Js.whenTruthy v = Some o ↔ v = Some o ∧ o ≠ ""%string.
Proof.
  unfold Js.whenTruthy, Js.truthy. destruct v as [s|].
  - destruct (String.eqb_spec s ""); simpl.
    + split; [done|]. intros [[= <-] ?]. done.
    + split; [by intros [= <-]|]. by intros [[= <-] _].
  - split; [done|]. by intros [? _].
Qed.

Lemma existsb_eqb (o : string) (l : list string) :
  existsb (String.eqb o) l = true ↔ o ∈ l.
Proof.
  rewrite existsb_exists. split.
  - intros [x [Hx ->%String.eqb_eq]]. by apply list_elem_of_In.
  - intros Ho. exists o. split; [by apply list_elem_of_In|].
    apply String.eqb_refl.
Qed.

Lemma allowedOrigins_elem env o :
  existsb (String.eqb o) (Server.allowedOrigins env) = true
  ↔ o ∈ ["http://localhost:3000"; "http://localhost:3001";
        "https://scalable-api.onrender.com";
        "https://scalable-api-backend.onrender.com";
        "https://scalable-api-backend-e9ih.onrender.com";
        "https://scalable-api.vercel.app"]%string
    ∨ (Server.FRONTEND_URL env = Some o ∧ o ≠ ""%string).
Proof.
  rewrite existsb_eqb. unfold Server.allowedOrigins.
  rewrite elem_of_app.
  rewrite <- whenTruthy_Some.
  destruct (Js.whenTruthy _) as [url|].
  - rewrite list_elem_of_singleton. split; (intros [?|?]; [by left|right]);
      congruence.
  - rewrite elem_of_nil. split; (intros [?|?]; [by left|done]).
Qed.

(** X19. The origin check of CORS in production: a request without
    an origin (or with an empty one) is let in, and an origin is let
    in exactly when it is one of the six listed or equals
    [FRONTEND_URL]. *)
Theorem cors_in_production (env : Server.Env) (o : string) :
  Server.NODE_ENV env = Some "production"%string →
  o ≠ ""%string →
  Server.origin env None = true
  ∧ Server.origin env (Some ""%string) = true
  ∧ (Server.origin env (Some o) = true
     ↔ o ∈ ["http://localhost:3000"; "http://localhost:3001";
            "https://scalable-api.onrender.com";
            "https://scalable-api-backend.onrender.com";
            "https://scalable-api-backend-e9ih.onrender.com";
            "https://scalable-api.vercel.app"]%string
       ∨ Server.FRONTEND_URL env = Some o).
Proof.
  intros Hprod Hne. split; [done|]. split; [done|].
  unfold Server.origin.
  rewrite (proj2 (whenTruthy_Some (Some o) o)) by done.
  rewrite bool_decide_eq_true_2 by done. cbn [negb andb].
  rewrite allowedOrigins_elem.
  split; (intros [?|H]; [by left|right]); [by destruct H|done].
Qed.

(** X20. Outside production the origin check lets in what production
    lets in and, besides, every origin that has the text [localhost]
    anywhere in it. *)
Theorem cors_outside_production (env : Server.Env) (o : string) :
  Server.NODE_ENV env ≠ Some "production"%string →
  o ≠ ""%string →
  (Server.origin env (Some o) = true
   ↔ (∃ pre post, o = (pre ++ "localhost" ++ post)%string)
     ∨ Server.origin (Server.mkEnv (Some "production"%string)
                        (Server.FRONTEND_URL env)) (Some o) = true).
Proof.
  intros Hdev Hne. unfold Server.origin.
  rewrite (proj2 (whenTruthy_Some (Some o) o)) by done.
  rewrite bool_decide_eq_false_2 by done.
  rewrite bool_decide_eq_true_2 by done. cbn [negb andb].
  rewrite <- includes_spec.
  destruct (JsText.includes o "localhost").
  - split; [by left|done].
  - split; [by right|]. by intros [?|?].
Qed.

(** ** Numbers as strings, the tasks page and the accounts *)

Lemma digitChar_digit d :
  0 ≤ d ≤ 9 →
  Js.isDigit (JsText.digitChar d) = true
  ∧ Js.digitVal (JsText.digitChar d) = d
  ∧ Js.isSign (JsText.digitChar d) = false.
Proof.
  intros Hd.
  assert (d = 0 ∨ d = 1 ∨ d = 2 ∨ d = 3 ∨ d = 4 ∨ d = 5 ∨ d = 6 ∨ d = 7
          ∨ d = 8 ∨ d = 9) as Hc by lia.
  repeat destruct Hc as [->|Hc]; try subst d; done.
Qed.

Lemma digits_spec fuel n acc :
  fuel ≠ O →
  0 ≤ n < 2 ^ Z.of_nat fuel →
  ∃ c ds, JsText.digits fuel n acc = c :: ds ++ acc
          ∧ forallb Js.isDigit (c :: ds) = true
          ∧ Js.isSign c = false
          ∧ ∀ x, foldl readDigit x (c :: ds)
                 = x * 10 ^ Z.of_nat (length (c :: ds)) + n.
Proof.
  revert n acc. induction fuel as [|fuel IH]; intros n acc Hf Hn; [done|].
  simpl JsText.digits.
  destruct (digitChar_digit (n mod 10)) as (Hd & Hv & Hs).
  { pose proof (Z.mod_pos_bound n 10). lia. }
  destruct (Z.ltb_spec n 10) as [Hlt|Hge].
  - exists (JsText.digitChar (n mod 10)), [].
    cbn [forallb foldl length app].
    rewrite Hd. split_and!; try done.
    intros x. unfold readDigit. rewrite Hv, Z.mod_small by lia. lia.
  - destruct (IH (n / 10) (JsText.digitChar (n mod 10) :: acc))
      as (c & ds & -> & Hall & Hsign & Hval).
    { intros ->. rewrite Z.pow_1_r in Hn. lia. }
    { split; [apply Z.div_pos; lia|].
      apply Z.div_lt_upper_bound; [lia|].
      rewrite Nat2Z.inj_succ, Z.pow_succ_r in Hn by lia. lia. }
    exists c, (ds ++ [JsText.digitChar (n mod 10)]).
    split_and!.
    + by rewrite <- app_assoc.
    + cbn [forallb] in *. apply andb_true_iff in Hall as [-> Hall].
      rewrite forallb_app, Hall. cbn [forallb andb]. by rewrite Hd.
    + done.
    + intros x. rewrite app_comm_cons, foldl_app, Hval.
      cbn [foldl]. unfold readDigit at 1. rewrite Hv.
      rewrite length_app, Nat2Z.inj_add, Z.pow_add_r by lia.
      change (Z.of_nat (length [JsText.digitChar (n mod 10)])) with 1.
      rewrite Z.pow_1_r.
      pose proof (Z.div_mod n 10 ltac:(lia)). lia.
Qed.

Lemma digitsPrefix_digits acc c ds :
  forallb Js.isDigit (c :: ds) = true →
  Js.digitsPrefix acc (c :: ds)
  = Some (foldl readDigit (default 0 acc) (c :: ds)).
Proof.
  revert acc c. induction ds as [|d ds IH]; intros acc c Hall.
  - simpl in *. by destruct (Js.isDigit c).
  - simpl in Hall. apply andb_true_iff in Hall as [Hc Hall].
    change (Js.digitsPrefix acc (c :: d :: ds))
      with (if Js.isDigit c
            then Js.digitsPrefix (Some (10 * default 0 acc + Js.digitVal c))
                   (d :: ds)
            else acc).
    rewrite Hc, IH by done. done.
Qed.

Lemma log2_fuel n : 0 ≤ n → 0 ≤ n < 2 ^ Z.of_nat (S (Z.to_nat (Z.log2 n))).
Proof.
  intros Hn. split; [done|].
  destruct (Z.eq_dec n 0) as [->|Hne]; [done|].
  rewrite Nat2Z.inj_succ, Z2Nat.id by apply Z.log2_nonneg.
  apply Z.log2_spec. lia.
Qed.

Lemma mathInt_numberToString n :
  0 ≤ n →
  Js.mathInt (JsText.numberToString n) = Some n
  ∧ Validator.intPattern (JsText.numberToString n) = true.
Proof.
  intros Hn. unfold JsText.numberToString.
  destruct (Z.ltb_spec n 0); [lia|].
  destruct (digits_spec _ n [] (Nat.neq_succ_0 _) (log2_fuel n Hn))
    as (c & ds & -> & Hall & Hsign & Hval).
  rewrite app_nil_r. unfold Js.mathInt, Validator.intPattern.
  rewrite list_ascii_of_string_of_list_ascii, Hsign, Hall.
  split; [|done].
  rewrite (digitsPrefix_digits None c ds Hall), Hval. simpl default.
  f_equal; lia.
Qed.

Lemma isInt_numberToString lo hi n :
  0 ≤ n → - 2 ^ 53 < lo ≤ 2 ^ 53 → lo ≤ n →
  (∀ m, hi = Some m → n ≤ m < 2 ^ 53) →
  Validator.isInt lo hi (JsText.numberToString n) = true.
Proof.
  intros Hn Hlo Hle Hhi. unfold Validator.isInt, Js.parseInt.
  destruct (mathInt_numberToString n Hn) as [-> ->]. simpl.
  apply andb_true_iff. split.
  - apply Z.leb_le. by apply roundDouble_ge.
  - destruct hi as [m|]; [|done]. specialize (Hhi m eq_refl).
    apply Z.leb_le. apply roundDouble_le; lia.
Qed.

Lemma fetchParams_valid filters pg :
  1 ≤ current pg → 1 ≤ limit pg ≤ 100 →
  Validation.validatePagination (TasksPage.fetchParams filters pg) = [].
Proof.
  intros Hc Hl. unfold Validation.validatePagination, Validation.check. simpl.
  assert (H53 : 100 < 2 ^ 53) by done.
  rewrite (isInt_numberToString 1 None (current pg)) by (lia || done).
  rewrite (isInt_numberToString 1 (Some 100) (limit pg));
    [done|lia|lia|lia|intros ? [= <-]; lia].
Qed.

(** X21. The request that the tasks page builds from its state, for a
    page from 1 to [2^53] and a limit from 1 to 100, passes the
    validators of [GET /], is answered with the 200, and the answer
    carries the same page and limit back into the state. *)
Theorem fetch_is_accepted (filters : TasksPage.Filters) (pg : Pagination)
    (user : ReqUser) (db : DB) :
  1 ≤ current pg ≤ 2 ^ 53 → 1 ≤ limit pg ≤ 100 →
  ∃ page,
    listTasks user (TasksPage.fetchParams filters pg) db = Ok 200 None page
    ∧ current (pagination page) = current pg
    ∧ limit (pagination page) = limit pg.
Proof.
  intros Hc Hl. unfold listTasks.
  rewrite (fetchParams_valid filters pg) by lia.
  unfold listTasksTry, find, countDocuments, matching, Js.parseInt. simpl.
  destruct (mathInt_numberToString (current pg)) as [-> _]; [lia|].
  destruct (mathInt_numberToString (limit pg)) as [-> _]; [lia|].
  assert (H53 : 100 < 2 ^ 53) by done.
  cbn [fmap option_fmap option_map Js.numOr].
  rewrite !roundDouble_small by lia.
  eexists. split; [done|]. simpl.
  destruct (Z.eqb_spec (current pg) 0), (Z.eqb_spec (limit pg) 0); lia.
Qed.

(** X22. A click on an enabled button of the pagination bar (the bar
    has a button for each page, so the pages are fewer than [2^32],
    the longest array) keeps the current page between 1 and the number
    of pages, changes nothing else in the state, and leads to a
    request that [GET /] accepts. *)
Theorem buttons_stay_in_range (filters : TasksPage.Filters) (pg : Pagination)
    (b : TasksPage.Button) :
  1 ≤ current pg ≤ pages pg → pages pg < 2 ^ 32 → 1 ≤ limit pg ≤ 100 →
  TasksPage.enabled pg b = true →
  let pg' := TasksPage.click pg b in
  1 ≤ current pg' ≤ pages pg'
  ∧ pages pg' = pages pg ∧ total pg' = total pg ∧ limit pg' = limit pg
  ∧ Validation.validatePagination (TasksPage.fetchParams filters pg') = [].
Proof.
  intros Hc _ Hl He pg'.
  assert (Hr : 1 ≤ current pg' ≤ pages pg').
  { unfold TasksPage.enabled in He. apply andb_true_iff in He as [_ He].
    subst pg'. destruct b; simpl in *; lia. }
  split; [done|]. split_and!; try by destruct b.
  apply fetchParams_valid; [lia|by destruct b].
Qed.

Lemma filter_sublist {A} (f : A → bool) (l : list A) :
  sublist (List.filter f l) l.
Proof.
  induction l as [|x l IH]; simpl; [constructor|].
  destruct (f x); by constructor.
Qed.

(** X23. The search box of the tasks page keeps a sublist of the tasks
    of the page in their order, all of them when the search text is
    empty, and every task whose title or description holds the search
    text in any letter case. *)
Theorem search_keeps_matches (filters : TasksPage.Filters)
    (tasks : list PopulatedTask) :
  sublist (TasksPage.filteredTasks filters tasks) tasks
  ∧ (TasksPage.flt_search filters = ""%string →
     TasksPage.filteredTasks filters tasks = tasks)
  ∧ (∀ task word pre post,
       task ∈ tasks →
       JsText.toLowerCase word
         = JsText.toLowerCase (TasksPage.flt_search filters) →
       p_title task = (pre ++ word ++ post)%string
       ∨ p_description task = (pre ++ word ++ post)%string →
       task ∈ TasksPage.filteredTasks filters tasks).
Proof.
  unfold TasksPage.filteredTasks. split_and!.
  - apply filter_sublist.
  - intros ->. simpl. apply forallb_filter_id, forallb_forall.
    intros task _. by rewrite includes_empty.
  - intros task word pre post Hin Hw Hhas.
    apply list_elem_of_In, filter_In. split; [by apply list_elem_of_In|].
    rewrite <- Hw. apply orb_true_iff.
    destruct Hhas as [->| ->]; [left|right]; apply includes_spec;
      rewrite !toLowerCase_app; eauto.
Qed.

Section Accounts.

Variable isEmail : string → bool.
Variable normalizeEmail : string → option string.

Local Abbreviation validateUserRegistration :=
  (UserValidation.validateUserRegistration isEmail normalizeEmail).
Local Abbreviation validateUserLogin :=
  (UserValidation.validateUserLogin isEmail normalizeEmail).

Lemma check2_nil sanitizer valid1 valid2 field m1 m2 value :
  UserValidation.check2 sanitizer valid1 valid2 field m1 m2 value = [] →
  valid1 (sanitizer (default ""%string value)) = true
  ∧ valid2 (sanitizer (default ""%string value)) = true.
Proof.
  unfold UserValidation.check2.
  by destruct (valid1 _), (valid2 _).
Qed.

Lemma firstLine_elem c l : c ∈ UserValidation.firstLine l → c ∈ l.
Proof.
  induction l as [|d l IH]; simpl; [done|].
  destruct (UserValidation.isLineEnd d); [by intros ?%elem_of_nil|].
  intros [->|?]%elem_of_cons; [left|right]; auto.
Qed.

Lemma existsb_firstLine f l :
  existsb f (UserValidation.firstLine l) = true → ∃ c, c ∈ l ∧ f c = true.
Proof.
  intros (c & Hc & Hf)%existsb_exists. exists c.
  split; [|done]. by apply firstLine_elem, list_elem_of_In.
Qed.

(** X24. A registration that passes its validators has a username that
    is, once trimmed, 3 to 30 letters, digits and underscores (the
    trimmed username is what the handler gets), and a password of 6
    characters or more with a lower-case letter, an upper-case letter
    and a digit. *)
Theorem accepted_registration (b : UserValidation.Account string) :
  (validateUserRegistration b).1 = [] →
  ∃ raw name password,
    UserValidation.a_username b = Some raw
    ∧ UserValidation.a_username (validateUserRegistration b).2 = Some name
    ∧ name = Js.trim raw
    ∧ (3 ≤ String.length name ≤ 30)%nat
    ∧ (∀ c, c ∈ list_ascii_of_string name →
            UserValidation.isWordChar c = true)
    ∧ UserValidation.a_password b = Some password
    ∧ (6 ≤ String.length password)%nat
    ∧ (∃ c, c ∈ list_ascii_of_string password
            ∧ UserValidation.isLower c = true)
    ∧ (∃ c, c ∈ list_ascii_of_string password
            ∧ UserValidation.isUpper c = true)
    ∧ (∃ c, c ∈ list_ascii_of_string password ∧ Js.isDigit c = true).
Proof.
  unfold UserValidation.validateUserRegistration.
  cbn [fst snd UserValidation.a_username UserValidation.a_password].
  intros [Hu [_ Hp]%app_eq_nil]%app_eq_nil.
  apply check2_nil in Hu as [Hlen Hword].
  apply check2_nil in Hp as [Hplen Hmixed]. cbn beta in Hplen.
  destruct (UserValidation.a_username b) as [raw|];
    [|by vm_compute in Hlen].
  destruct (UserValidation.a_password b) as [password|];
    [|by vm_compute in Hplen].
  cbn [default id] in *. exists raw, (Js.trim raw), password.
  unfold Validator.isLength in Hlen.
  apply andb_true_iff in Hlen as [?%Nat.leb_le ?%Nat.leb_le].
  apply Nat.leb_le in Hplen.
  unfold UserValidation.isWord in Hword.
  apply andb_true_iff in Hword as [_ Hword].
  unfold UserValidation.isMixed in Hmixed.
  apply andb_true_iff in Hmixed as [[Hl Hup]%andb_true_iff Hd].
  split_and!; try done; eauto using existsb_firstLine.
  intros c Hc. rewrite forallb_forall in Hword.
  by apply Hword, list_elem_of_In.
Qed.

(** X25. An email and password that pass the validators of
    registration pass those of login. *)
Theorem registered_credentials_pass_login
    (b : UserValidation.Account string) :
  (validateUserRegistration b).1 = [] → (validateUserLogin b).1 = [].
Proof.
  unfold UserValidation.validateUserRegistration,
    UserValidation.validateUserLogin. simpl.
  intros [_ [-> Hp]%app_eq_nil]%app_eq_nil.
  apply check2_nil in Hp as [Hplen _]. simpl.
  unfold Validation.check, UserValidation.notEmpty.
  destruct (UserValidation.a_password b) as [[|c s]|]; done.
Qed.

End Accounts.

(** ** The further properties on the example database *)

(** Carol, asking as an admin, reads [task2], whose creator is gone. *)
Lemma admin_reads_any_task_witness :
  getTask (Fixture.asAdmin Fixture.carol) Fixture.task2 Fixture.db
  = Ok 200 None
      (populate (users Fixture.db)
         (Fixture.task2,
          mkTask "two" "second" "completed" "high" None Fixture.alice
            Fixture.ghost 200 200)).
Proof.
  apply (admin_reads_any_task (Fixture.asAdmin Fixture.carol) Fixture.task2
           Fixture.task2).
  - reflexivity.
  - vm_compute. reflexivity.
  - vm_compute. reflexivity.
Defined.

(** Bob deletes [task1]; alice, its assignee, no longer finds it. *)
Lemma deleted_task_is_gone_witness :
  let db' := (deleteTask (Fixture.asUser Fixture.bob) Fixture.task1
                Fixture.db).2 in
  getTask (Fixture.asUser Fixture.alice) Fixture.task1 db'
    = Fail 404 "Task not found"
  ∧ deleteTask (Fixture.asUser Fixture.alice) Fixture.task1 db'
    = (Fail 404 "Task not found", db').
Proof.
  apply (deleted_task_is_gone (Fixture.asUser Fixture.bob)
           (Fixture.asUser Fixture.alice) Fixture.task1 Fixture.db).
  vm_compute. reflexivity.
Defined.


(** Bob gives [task1] to carol, who exists. *)
Lemma update_never_assigns_missing_user_witness :
  ∃ t' u,
    tasks (updateTask Fixture.y2024 (Fixture.asUser Fixture.bob)
             Fixture.task1 Fixture.giveToCarol Fixture.db).2
      !! Fixture.task1 = Some t'
    ∧ Mongoose.castObjectId Fixture.carol = Some (assignedTo t')
    ∧ users Fixture.db !! assignedTo t' = Some u.
Proof.
  apply (update_never_assigns_missing_user Fixture.isISO8601 Fixture.toDate
    Fixture.refuseOthers Fixture.y2024 (Fixture.asUser Fixture.bob)
    Fixture.task1 Fixture.task1
    (mkTask "one" "first" "pending" "low" None Fixture.alice Fixture.bob
       100 100)
    Fixture.giveToCarol Fixture.db Fixture.carol).
  - reflexivity.
  - vm_compute. reflexivity.
  - vm_compute. reflexivity.
  - vm_compute. reflexivity.
  - reflexivity.
  - discriminate.
Defined.

(** Bob creates a task without a due date: it is pending, of medium
    priority, and his. *)
Lemma created_task_fields_witness :
  ∃ t,
    tasks (createTask Fixture.y2024 Fixture.task3 (Fixture.asUser Fixture.bob)
             Fixture.undated Fixture.db).2 !! Fixture.task3 = Some t
    ∧ status t = "pending"%string ∧ priority t = "medium"%string
    ∧ Some (assignedTo t) = Some Fixture.bob ∧ createdBy t = Fixture.bob.
Proof.
  destruct (created_task_fields Fixture.isISO8601 Fixture.toDate
    Fixture.y2024 Fixture.task3 (Fixture.asUser Fixture.bob)
    Fixture.undated Fixture.db)
    as (t & Hr & _ & _ & _ & Hs & Hp & _ & _ & Ha & _ & Hc & _).
  - vm_compute. reflexivity.
  - exists t. split.
    + rewrite Hr. apply lookup_insert_eq.
    + split; [exact Hs|]. split; [exact Hp|]. split; [exact Ha|exact Hc].
Defined.

(** He then reads it under its id. *)
Lemma created_task_can_be_read_witness :
  ∃ message p,
    (createTask Fixture.y2024 Fixture.task3 (Fixture.asUser Fixture.bob)
       Fixture.undated Fixture.db).1 = Ok 201 message p
    ∧ getTask (Fixture.asUser Fixture.bob) Fixture.task3
        (createTask Fixture.y2024 Fixture.task3 (Fixture.asUser Fixture.bob)
           Fixture.undated Fixture.db).2
      = Ok 200 None p.
Proof.
  apply (created_task_can_be_read Fixture.isISO8601 Fixture.toDate
    Fixture.y2024 Fixture.task3 (Fixture.asUser Fixture.bob)
    Fixture.undated Fixture.db).
  - vm_compute. reflexivity.
  - vm_compute. reflexivity.
  - right. eexists. vm_compute. reflexivity.
Defined.

(** The tasks of the example database meet the schema, and still do
    once bob has created one more. *)
Lemma writes_keep_schema_witness :
  map_Forall (λ _ t, Schema.schemaOk t = true)
    (tasks (createTask Fixture.y2024 Fixture.task3 (Fixture.asUser Fixture.bob)
              Fixture.undated Fixture.db).2).
Proof.
  apply (writes_keep_schema Fixture.isISO8601 Fixture.toDate
    Fixture.refuseOthers Fixture.y2024 Fixture.task3
    (Fixture.asUser Fixture.bob) Fixture.task1 Fixture.undated Fixture.db).
  apply (bool_decide_unpack _). vm_compute. exact I.
Defined.

(** Alice's two tasks: one of low and one of high priority. *)
Lemma stats_priorities_add_up_witness :
  ∃ s, statsOverview (Fixture.asUser Fixture.alice) Fixture.db
         = Ok 200 None s
       ∧ st_highPriority s + st_mediumPriority s + st_lowPriority s
         = st_total s.
Proof.
  apply (stats_priorities_add_up (Fixture.asUser Fixture.alice) Fixture.db).
  change (map_Forall
    (λ _ t, Spec.visibleTo (Fixture.asUser Fixture.alice) t = true
            → priority t ∈ Validation.priorities) (tasks Fixture.db)).
  apply (bool_decide_unpack _). vm_compute. exact I.
Defined.

(** Carol, asking as a plain user, has no task. *)
Lemma stats_of_nothing_visible_witness :
  statsOverview (Fixture.asUser Fixture.carol) Fixture.db
  = Ok 200 None (mkStats 0 0 0 0 0 0 0).
Proof.
  apply (stats_of_nothing_visible (Fixture.asUser Fixture.carol) Fixture.db).
  change (map_Forall
    (λ _ t, Spec.visibleTo (Fixture.asUser Fixture.carol) t = false)
    (tasks Fixture.db)).
  apply (bool_decide_unpack _). vm_compute. exact I.
Defined.

(** Alice's list without filters and her statistics agree on the
    total. *)
Lemma stats_total_is_list_total_witness :
  ∃ s page,
    statsOverview (Fixture.asUser Fixture.alice) Fixture.db = Ok 200 None s
    ∧ listTasks (Fixture.asUser Fixture.alice) Fixture.noQuery Fixture.db
      = Ok 200 None page
    ∧ total (pagination page) = st_total s.
Proof.
  apply (stats_total_is_list_total (Fixture.asUser Fixture.alice)
           Fixture.noQuery Fixture.db); reflexivity.
Defined.

(** Alice asks for her completed tasks: [task2] is in the answer, and
    it is completed. *)
Lemma list_honours_filters_witness :
  let p := populate (users Fixture.db)
             (Fixture.task2,
              mkTask "two" "second" "completed" "high" None Fixture.alice
                Fixture.ghost 200 200) in
  ∃ t, tasks Fixture.db !! p_id p = Some t
       ∧ p_status p = "completed"%string.
Proof.
  intros p.
  destruct (list_honours_filters (Fixture.asUser Fixture.alice)
    Fixture.completedOnly Fixture.db 200%nat None
    (mkTaskPage [p] (mkPagination 1 1 1 10)) p)
    as (t & Ht & Hs & _).
  - vm_compute. reflexivity.
  - left.
  - exists t. split; [exact Ht|]. apply (Hs "completed"%string);
      [reflexivity|discriminate].
Defined.

(** [?assignedTo=nobody] is answered with the 500. *)
Lemma list_with_bad_assignee_filter_witness :
  listTasks (Fixture.asUser Fixture.alice) Fixture.assignedToNobody Fixture.db
  = Fail 500 "Server error while fetching tasks".
Proof.
  apply (list_with_bad_assignee_filter (Fixture.asUser Fixture.alice)
           Fixture.assignedToNobody Fixture.db "nobody").
  - reflexivity.
  - reflexivity.
  - discriminate.
  - reflexivity.
  - discriminate.
Defined.

(** The third and last page of alice's 25 tasks holds the 5 that are
    left. *)
Lemma list_page_sizes_witness :
  ∃ page,
    listTasks (Fixture.asUser Fixture.alice) Fixture.page3
      (mkDB Fixture.someUsers (Fixture.manyTasks 25)) = Ok 200 None page
    ∧ Z.of_nat (length (page_tasks page)) = 5.
Proof.
  eexists. split; [vm_compute; reflexivity|].
  refine (proj1 (proj1 (proj2 (list_page_sizes
    (Fixture.asUser Fixture.alice) Fixture.page3
    (mkDB Fixture.someUsers (Fixture.manyTasks 25)) 200%nat None _ _ _))
    _)).
  - vm_compute. reflexivity.
  - vm_compute. discriminate.
  - reflexivity.
Defined.

(** The eleventh task of alice's is found under its id in capital
    letters. *)
Lemma ids_ignore_letter_case_witness :
  Mongoose.castObjectId Fixture.capitalId = Some (Fixture.taskId 10)
  ∧ statusCode (getTask (Fixture.asUser Fixture.alice) Fixture.capitalId
                  (mkDB Fixture.someUsers (Fixture.manyTasks 25))) = 200%nat
  ∧ getTask (Fixture.asUser Fixture.alice) Fixture.capitalId
      (mkDB Fixture.someUsers (Fixture.manyTasks 25))
    = getTask (Fixture.asUser Fixture.alice) (Fixture.taskId 10)
        (mkDB Fixture.someUsers (Fixture.manyTasks 25)).
Proof.
  split; [vm_compute; reflexivity|]. split; [vm_compute; reflexivity|].
  refine (proj1 (proj2 (ids_ignore_letter_case Fixture.isISO8601
    Fixture.toDate Fixture.refuseOthers Fixture.y2024
    (Fixture.asUser Fixture.alice) Fixture.capitalId (Fixture.taskId 10)
    Fixture.completeIt (mkDB Fixture.someUsers (Fixture.manyTasks 25)) _))).
  vm_compute. reflexivity.
Defined.

(** In production a request without an origin and one from
    [FRONTEND_URL] are let in. *)
Lemma cors_in_production_witness :
  Server.origin Fixture.production None = true
  ∧ Server.origin Fixture.production (Some "https://tasks.example.com"%string)
    = true.
Proof.
  destruct (cors_in_production Fixture.production "https://tasks.example.com")
    as (Hnone & _ & Hiff).
  - reflexivity.
  - discriminate.
  - split; [exact Hnone|]. apply Hiff. right. reflexivity.
Defined.

(** In development an origin on [localhost] is let in, whatever its
    port. *)
Lemma cors_outside_production_witness :
  Server.origin Fixture.development (Some "http://localhost:5173"%string)
  = true.
Proof.
  apply (cors_outside_production Fixture.development "http://localhost:5173").
  - discriminate.
  - discriminate.
  - left. exists "http://"%string, ":5173"%string. reflexivity.
Defined.

(** The first request of the tasks page. *)
Lemma fetch_is_accepted_witness :
  ∃ page,
    listTasks (Fixture.asUser Fixture.alice)
      (TasksPage.fetchParams Fixture.noFilters Fixture.firstOfThree)
      Fixture.db = Ok 200 None page
    ∧ current (pagination page) = 1
    ∧ limit (pagination page) = 10.
Proof.
  apply (fetch_is_accepted Fixture.noFilters Fixture.firstOfThree
           (Fixture.asUser Fixture.alice) Fixture.db).
  - split; vm_compute; discriminate.
  - split; vm_compute; discriminate.
Defined.

(** A click on Next on the first of three pages leads to the
    second. *)
Lemma buttons_stay_in_range_witness :
  current (TasksPage.click Fixture.firstOfThree TasksPage.Next) = 2
  ∧ Validation.validatePagination
      (TasksPage.fetchParams Fixture.noFilters
         (TasksPage.click Fixture.firstOfThree TasksPage.Next)) = [].
Proof.
  split; [reflexivity|].
  refine (proj2 (proj2 (proj2 (proj2 (buttons_stay_in_range
    Fixture.noFilters Fixture.firstOfThree TasksPage.Next _ _ _ _))))).
  - split; vm_compute; discriminate.
  - reflexivity.
  - split; vm_compute; discriminate.
  - reflexivity.
Defined.

(** Dave registers: the username reaches the handler trimmed. *)
Lemma accepted_registration_witness :
  ∃ name,
    UserValidation.a_username
      (UserValidation.validateUserRegistration Fixture.isEmail
         Fixture.normalizeEmail Fixture.dave).2 = Some name
    ∧ name = "dave_1"%string ∧ (3 ≤ String.length name ≤ 30)%nat.
Proof.
  destruct (accepted_registration Fixture.isEmail Fixture.normalizeEmail
    Fixture.dave) as (raw & name & password & Hraw & Hname & Htrim & Hlen & _).
  - vm_compute. reflexivity.
  - exists name. split; [exact Hname|]. split; [|exact Hlen].
    injection Hraw as <-. rewrite Htrim. vm_compute. reflexivity.
Defined.

(** And may log in with the same email and password. *)
Lemma registered_credentials_pass_login_witness :
  (UserValidation.validateUserLogin Fixture.isEmail Fixture.normalizeEmail
     Fixture.dave).1 = [].
Proof.
  apply (registered_credentials_pass_login Fixture.isEmail
           Fixture.normalizeEmail Fixture.dave).
  vm_compute. reflexivity.
Defined.
